(* ===================================================================== *)
(* Gradebook Manager (gradebook_manager.py): a shallow embedding and the *)
(* properties of its record store, id allocator and command handlers.    *)
(* ===================================================================== *)
(* Conventions of the embedding.
   - A Python str is a [string]; its characters are the code points
     U+0000..U+00FF.  Whitespace, decimal digits and case mapping are the
     ones Python uses on that range.
   - A Python int is a [Z].  The interpreter's optional limit on the
     number of digits accepted by int() and produced by str() is not
     modelled.
   - A Python float is a sign, a mantissa and a binary exponent; the
     conversions to float round to nearest, ties to even, and overflow
     beyond the binary64 range, as true division of ints and
     PyLong_AsDouble do; the two-decimal rendering rounds the exact
     binary value, ties to even.
   - The CSV file is modelled at the level of the csv module: a file is
     the list of rows csv.writer wrote (each a list of cells), and
     csv.reader yields them back one by one, raising _csv.Error at a
     row with a cell beyond csv.field_size_limit().  Quoting and line
     ends are the csv module's business.
   - The handlers read input() from a list of pending lines and print()
     to a list of emitted lines; the file, the pending input and the
     output make up the [world] every handler transforms. *)

From Stdlib Require Import ZArith Ascii String List Lia Bool Sorted.
From stdpp Require Import base option list strings gmap fin_maps.

Local Open Scope string_scope.
Local Open Scope list_scope.
Local Open Scope Z_scope.

(* --------------------------------------------------------------------- *)
(* Python text primitives: str.strip, str.lower, str(int), int(str)      *)
(* --------------------------------------------------------------------- *)

Module PyStr.

(* str.isspace on one character below U+0100: TAB..CR, FS..US, SPACE,
   NEL and NBSP. *)
Definition is_space (c : ascii) : bool :=
  let n := N_of_ascii c in
  ((9 <=? n) && (n <=? 13) || (28 <=? n) && (n <=? 32)
   || (n =? 133) || (n =? 160))%N.

Definition is_digit (c : ascii) : bool :=
  let n := N_of_ascii c in ((48 <=? n) && (n <=? 57))%N.

Definition digit_val (c : ascii) : Z := Z.of_N (N_of_ascii c) - 48.

Definition digit_char (d : Z) : ascii := ascii_of_N (Z.to_N (48 + d)).

Fixpoint lstrip (s : string) : string :=
  match s with
  | EmptyString => EmptyString
  | String c r => if is_space c then lstrip r else s
  end.

Definition is_empty (s : string) : bool :=
  match s with EmptyString => true | String _ _ => false end.

Fixpoint rstrip (s : string) : string :=
  match s with
  | EmptyString => EmptyString
  | String c r =>
      let r' := rstrip r in
      if is_space c && is_empty r' then EmptyString else String c r'
  end.

(* s.strip() *)
Definition strip (s : string) : string := rstrip (lstrip s).

(* One character of s.lower(): A..Z and the Latin-1 capitals (all of
   U+00C0..U+00DE but the multiplication sign) move up by 32. *)
Definition lower_char (c : ascii) : ascii :=
  let n := N_of_ascii c in
  if ((65 <=? n) && (n <=? 90)
      || (192 <=? n) && (n <=? 222) && negb (n =? 215))%N
  then ascii_of_N (n + 32) else c.

Fixpoint lower (s : string) : string :=
  match s with
  | EmptyString => EmptyString
  | String c r => String (lower_char c) (lower r)
  end.

(* Decimal digits of a non-negative n, most significant first, pushed in
   front of acc.  The fuel bounds the number of divisions. *)
Fixpoint str_digits (fuel : nat) (n : Z) (acc : string) : string :=
  let acc' := String (digit_char (n mod 10)) acc in
  match fuel with
  | O => acc'
  | S f => if n <? 10 then acc' else str_digits f (n / 10) acc'
  end.

Definition str_nonneg (n : Z) : string :=
  str_digits (Z.to_nat (Z.log2 n)) n EmptyString.

(* str(z) for an int z *)
Definition str (z : Z) : string :=
  if z <? 0 then String "-" (str_nonneg (- z)) else str_nonneg z.

(* The digits of int(): called once a digit has been read; every further
   digit may be preceded by one underscore. *)
Fixpoint int_digits (s : string) (acc : Z) : option Z :=
  match s with
  | EmptyString => Some acc
  | String c r =>
      if Ascii.eqb c "_" then
        match r with
        | String d r' =>
            if is_digit d then int_digits r' (10 * acc + digit_val d) else None
        | EmptyString => None
        end
      else if is_digit c then int_digits r (10 * acc + digit_val c)
      else None
  end.

Definition int_unsigned (s : string) : option Z :=
  match s with
  | String d r => if is_digit d then int_digits r (digit_val d) else None
  | EmptyString => None
  end.

(* The whitespace int() skips around the number: TAB..CR and SPACE, and
   beyond ASCII what str.isspace accepts, NEL and NBSP.  Unlike
   str.strip, int() does not skip FS..US. *)
Definition is_int_space (c : ascii) : bool :=
  let n := N_of_ascii c in
  ((9 <=? n) && (n <=? 13) || (n =? 32) || (n =? 133) || (n =? 160))%N.

Fixpoint int_lstrip (s : string) : string :=
  match s with
  | EmptyString => EmptyString
  | String c r => if is_int_space c then int_lstrip r else s
  end.

Fixpoint int_rstrip (s : string) : string :=
  match s with
  | EmptyString => EmptyString
  | String c r =>
      let r' := int_rstrip r in
      if is_int_space c && is_empty r' then EmptyString else String c r'
  end.

(* int(s) for a str s: None stands for ValueError. *)
Definition int (s : string) : option Z :=
  match int_rstrip (int_lstrip s) with
  | String c r =>
      if Ascii.eqb c "-" then Z.opp <$> int_unsigned r
      else if Ascii.eqb c "+" then int_unsigned r
      else int_unsigned (String c r)
  | EmptyString => None
  end.

(* s[:n] *)
Fixpoint take (n : nat) (s : string) : string :=
  match n, s with
  | S k, String c r => String c (take k r)
  | _, _ => EmptyString
  end.

Fixpoint spaces (n : nat) : string :=
  match n with O => EmptyString | S k => String " " (spaces k) end.

(* format(s, "<w") and format(s, ">w") *)
Definition ljust (w : nat) (s : string) : string :=
  s +:+ spaces (w - String.length s).

Definition rjust (w : nat) (s : string) : string :=
  spaces (w - String.length s) +:+ s.

End PyStr.

(* --------------------------------------------------------------------- *)
(* Python floats, as far as mean() and the format .2f need them          *)
(* --------------------------------------------------------------------- *)

Module PyFloat.

(* The binary64 value (-1)^neg * mant * 2^expo. *)
Record float := Float {
  neg : bool;
  mant : Z;
  expo : Z
}.

(* p / q rounded to the nearest integer, ties to even (0 <= p, 0 < q). *)
Definition round_even (p q : Z) : Z :=
  let d := p / q in
  let r := p mod q in
  if 2 * r <? q then d
  else if q <? 2 * r then d + 1
  else if Z.even d then d else d + 1.

(* num / den as a float (0 < den): true division of two ints, and with
   den = 1 the conversion of an int.  None stands for OverflowError. *)
Definition binary64 (num den : Z) : option float :=
  if num =? 0 then Some (Float false 0 0)
  else
    let a := Z.abs num in
    let k := Z.log2 a - Z.log2 den in
    let fl := if den * 2 ^ Z.max 0 k <=? a * 2 ^ Z.max 0 (- k)
              then k else k - 1 in
    let e := Z.max (fl - 52) (-1074) in
    let m := round_even (a * 2 ^ Z.max 0 (- e)) (den * 2 ^ Z.max 0 e) in
    if (971 <? e) || ((e =? 971) && (2 ^ 53 <=? m)) then None
    else Some (Float (num <? 0) m e).

Definition two_digits (n : Z) : string :=
  String (PyStr.digit_char (n / 10))
    (String (PyStr.digit_char (n mod 10)) EmptyString).

(* format(x, ".2f") for a float x *)
Definition format_2f (x : float) : string :=
  let n := round_even (mant x * 100 * 2 ^ Z.max 0 (expo x))
             (2 ^ Z.max 0 (- expo x)) in
  (if neg x then "-" else EmptyString)
  +:+ PyStr.str_nonneg (n / 100) +:+ "." +:+ two_digits (n mod 100).

End PyFloat.

(* --------------------------------------------------------------------- *)
(* Data model                                                            *)
(* --------------------------------------------------------------------- *)

(* A student dict: {"id": int, "name": str, "subject": str,
   "grade": int or None}. *)
Record student := Student {
  id : Z;
  name : string;
  subject : string;
  grade : option Z
}.

(* What csv.reader yields and csv.writer takes: rows of cells. *)
Abbreviation csv_row := (list string).
Abbreviation csv_file := (list (list string)).

(* A value in a dict made by csv.DictReader: a cell, the restval None of
   a short row, or the list of surplus cells of a long row. *)
Inductive pyval :=
  | VStr (s : string)
  | VNone
  | VList (l : list string).

(* The dict of one row; the key None is DictReader's restkey. *)
Abbreviation row_dict := (gmap (option string) pyval).

Inductive exn :=
  | AttributeError
  | FileNotFoundError
  | EOFError
  | CsvError
  | StatisticsError
  | OverflowError
  | SystemExit (status : Z).

(* What reaches the terminal: the prompt of an input() or a printed
   line. *)
Inductive out :=
  | Prompt (s : string)
  | Line (s : string).

Record world := World {
  file : option csv_file;
  stdin : list string;
  stdout : list out
}.

Inductive outcome (A : Type) :=
  | Done (a : A)
  | Raised (e : exn).
Arguments Done {A} a.
Arguments Raised {A} e.

(* A command: runs in a world, ends in a value or an uncaught exception. *)
Definition M (A : Type) : Type := world -> outcome A * world.

Definition ret {A} (a : A) : M A := fun w => (Done a, w).

Definition raise {A} (e : exn) : M A := fun w => (Raised e, w).

Definition bind {A B} (c : M A) (k : A -> M B) : M B :=
  fun w =>
    match c w with
    | (Done a, w') => k a w'
    | (Raised e, w') => (Raised e, w')
    end.

Declare Scope cmd_scope.
Delimit Scope cmd_scope with cmd.
Notation "x <- c ;; k" := (bind c (fun x => k))
  (at level 100, c at next level, right associativity) : cmd_scope.
Notation "c ;; k" := (bind c (fun _ => k))
  (at level 100, right associativity) : cmd_scope.
Local Open Scope cmd_scope.

Definition print (s : string) : M unit :=
  fun w => (Done tt, World (file w) (stdin w) (stdout w ++ [Line s])).

(* input(prompt) *)
Definition input (prompt : string) : M string :=
  fun w =>
    let w' := World (file w) (stdin w) (stdout w ++ [Prompt prompt]) in
    match stdin w with
    | [] => (Raised EOFError, w')
    | l :: rest => (Done l, World (file w) rest (stdout w'))
    end.

(* for x in xs: body x *)
Fixpoint for_each {A} (xs : list A) (body : A -> M unit) : M unit :=
  match xs with
  | [] => ret tt
  | x :: r => body x ;; for_each r body
  end.

(* --------------------------------------------------------------------- *)
(* Record store                                                          *)
(* --------------------------------------------------------------------- *)

Definition CSV_FILE : string := "grades.csv".
Definition FIELDNAMES : list string := ["id"; "name"; "subject"; "grade"].

Definition ensure_file : M unit :=
  fun w =>
    match file w with
    | None => (Done tt, World (Some [FIELDNAMES]) (stdin w) (stdout w))
    | Some _ => (Done tt, w)
    end.

(* open(CSV_FILE, "r") read through csv.reader *)
Definition read_rows : M csv_file :=
  fun w =>
    match file w with
    | None => (Raised FileNotFoundError, w)
    | Some f => (Done f, w)
    end.

(* open(CSV_FILE, "w") written through csv.writer *)
Definition write_rows (f : csv_file) : M unit :=
  fun w => (Done tt, World (Some f) (stdin w) (stdout w)).

(* csv.DictReader.__next__ on one non-empty row *)
Definition dict_of_row (fieldnames : list string) (row : csv_row) : row_dict :=
  let d := fold_left (fun d kv => <[Some kv.1 := VStr kv.2]> d)
                     (zip fieldnames row) (∅ : row_dict) in
  let lf := length fieldnames in
  let lr := length row in
  if (lf <? lr)%nat then <[None := VList (drop lf row)]> d
  else if (lr <? lf)%nat then
    fold_left (fun d k => <[Some k := VNone]> d) (drop lr fieldnames) d
  else d.

(* csv.field_size_limit(): the reader refuses a cell of more characters. *)
Definition field_size_limit : Z := 131072.

Definition cell_ok (c : string) : bool :=
  Z.of_nat (String.length c) <=? field_size_limit.

Definition row_ok (r : csv_row) : bool := forallb cell_ok r.

(* What iterating csv.DictReader gives, step by step: the first row is
   read for the field names, rows without cells are passed over, each
   other row gives its dict; reading a row with a cell beyond the field
   size limit raises _csv.Error. *)
Definition DictReader (f : csv_file) : list (outcome row_dict) :=
  match f with
  | [] => []
  | fieldnames :: rows =>
      if row_ok fieldnames then
        (fun r : csv_row =>
           if row_ok r then Done (dict_of_row fieldnames r)
           else Raised CsvError)
        <$> filter (fun r : csv_row => r ≠ []) rows
      else [Raised CsvError]
  end.

(* bool(v) for the value of row.get(key) *)
Definition truthy (v : option pyval) : bool :=
  match v with
  | Some (VStr s) => negb (PyStr.is_empty s)
  | Some (VList l) => negb (bool_decide (l = []))
  | Some VNone | None => false
  end.

(* int(v): None stands for ValueError or TypeError. *)
Definition int_of_val (v : option pyval) : option Z :=
  match v with
  | Some (VStr s) => PyStr.int s
  | _ => None
  end.

(* row.get(key, default).strip() with the empty str as default *)
Definition get_strip (row : row_dict) (key : string) : outcome string :=
  match row !! Some key with
  | None => Done (PyStr.strip EmptyString)
  | Some (VStr s) => Done (PyStr.strip s)
  | Some VNone | Some (VList _) => Raised AttributeError
  end.

(* The body of the loop of load_students: None when the row is passed
   over. *)
Definition load_row (row : row_dict) : outcome (option student) :=
  if bool_decide (row = ∅) || negb (truthy (row !! Some "id")) then Done None
  else
    match int_of_val (row !! Some "id") with
    | None => Done None
    | Some sid =>
        match get_strip row "grade" with
        | Raised e => Raised e
        | Done grade_raw =>
            let grade_val :=
              if PyStr.is_empty grade_raw then None else PyStr.int grade_raw in
            match get_strip row "name" with
            | Raised e => Raised e
            | Done name_val =>
                match get_strip row "subject" with
                | Raised e => Raised e
                | Done subject_val =>
                    Done (Some (Student sid name_val subject_val grade_val))
                end
            end
        end
    end.

(* for row in reader: ... *)
Fixpoint load_rows (rows : list (outcome row_dict))
    (students : list student) : outcome (list student) :=
  match rows with
  | [] => Done students
  | Raised e :: _ => Raised e
  | Done row :: rest =>
      match load_row row with
      | Raised e => Raised e
      | Done None => load_rows rest students
      | Done (Some s) => load_rows rest (students ++ [s])
      end
  end.

Definition load_students : M (list student) :=
  ensure_file ;;
  f <- read_rows ;;
  match load_rows (DictReader f) [] with
  | Done students => ret students
  | Raised e => raise e
  end.

(* The row DictWriter.writerow makes of a student. *)
Definition row_of_student (s : student) : csv_row :=
  [ PyStr.str (id s); name s; subject s;
    match grade s with None => EmptyString | Some g => PyStr.str g end ].

Definition save_students (students : list student) : M unit :=
  write_rows (FIELDNAMES :: (row_of_student <$> students)).

(* --------------------------------------------------------------------- *)
(* Id allocator                                                          *)
(* --------------------------------------------------------------------- *)

(* max(x, *r) *)
Definition py_max (x : Z) (r : list Z) : Z := fold_left Z.max r x.

(* min(x, *r) *)
Definition py_min (x : Z) (r : list Z) : Z := fold_left Z.min r x.

Definition next_id (students : list student) : Z :=
  match students with
  | [] => 1
  | s :: rest => py_max (id s) (id <$> rest) + 1
  end.

(* --------------------------------------------------------------------- *)
(* Command handlers                                                      *)
(* --------------------------------------------------------------------- *)

(* a or b, for str *)
Definition str_or (a b : string) : string :=
  if PyStr.is_empty a then b else a.

Definition add_student : M unit :=
  students <- load_students ;;
  let sid := next_id students in
  name_in <- input "Student name: " ;;
  let name := PyStr.strip name_in in
  if PyStr.is_empty name then print "Name cannot be empty. Cancelled."
  else
    subject_in <- input "Subject (e.g., Math): " ;;
    let subject := str_or (PyStr.strip subject_in) "General" in
    grade_in <- input "Grade (0-100): " ;;
    let grade_raw := PyStr.strip grade_in in
    match PyStr.int grade_raw with
    | Some grade_val =>
        if (grade_val <? 0) || (grade_val >? 100) then
          print "Grade must be between 0 and 100. Cancelled."
        else
          let new_student := Student sid name subject (Some grade_val) in
          let students := students ++ [new_student] in
          save_students students ;;
          print ("Added student id=" +:+ PyStr.str sid +:+ ": " +:+ name
                 +:+ " (" +:+ subject +:+ ") grade=" +:+ PyStr.str grade_val)
    | None =>
        print "Invalid grade. Use an integer between 0 and 100. Cancelled."
    end.

(* sorted(students, key=id, reverse=True): stable, largest id first. *)
Fixpoint insert_desc (x : student) (l : list student) : list student :=
  match l with
  | [] => [x]
  | y :: r => if id y <=? id x then x :: l else y :: insert_desc x r
  end.

Definition sorted_desc (l : list student) : list student :=
  foldr insert_desc [] l.

Definition grade_str (s : student) : string :=
  match grade s with None => EmptyString | Some g => PyStr.str g end.

Definition table_header : string :=
  PyStr.ljust 4 "id" +:+ " " +:+ PyStr.ljust 20 "name" +:+ " "
  +:+ PyStr.ljust 15 "subject" +:+ " " +:+ PyStr.rjust 6 "grade".

Definition table_row (s : student) : string :=
  PyStr.ljust 4 (PyStr.str (id s)) +:+ " "
  +:+ PyStr.ljust 20 (PyStr.take 20 (name s)) +:+ " "
  +:+ PyStr.ljust 15 (PyStr.take 15 (subject s)) +:+ " "
  +:+ PyStr.rjust 6 (grade_str s).

(* "-" * n *)
Fixpoint dashes (n : nat) : string :=
  match n with O => EmptyString | S k => String "-" (dashes k) end.

(* list_students(students, limit): students = None loads the file. *)
Definition list_students (students : option (list student)) (limit : nat)
  : M unit :=
  students <- match students with
              | None => load_students
              | Some l => ret l
              end ;;
  match students with
  | [] => print "No students to list."
  | _ :: _ =>
      let students_sorted := sorted_desc students in
      print table_header ;;
      print (dashes 50) ;;
      for_each (take limit students_sorted) (fun s => print (table_row s))
  end.

(* next((s for s in students if s["id"] == sid), None) *)
Definition find_by_id (sid : Z) (students : list student) : option student :=
  List.find (fun s => id s =? sid) students.

Definition delete_student : M unit :=
  students <- load_students ;;
  match students with
  | [] => print "No students found."
  | _ :: _ =>
      list_students (Some students) 50 ;;
      sid_in <- input "Enter student id to delete: " ;;
      match PyStr.int (PyStr.strip sid_in) with
      | None => print "Invalid id. Cancelled."
      | Some sid =>
          match find_by_id sid students with
          | None => print "No student with that id. Nothing deleted."
          | Some target =>
              confirm_in <- input ("Delete " +:+ name target +:+ " (id="
                                   +:+ PyStr.str sid
                                   +:+ ")? Type 'yes' to confirm: ") ;;
              let confirm := PyStr.lower (PyStr.strip confirm_in) in
              if negb (String.eqb confirm "yes") then print "Cancelled."
              else
                let students :=
                  filter (fun s : student => id s ≠ sid) students in
                save_students students ;;
                print ("Deleted student id=" +:+ PyStr.str sid +:+ ".")
          end
      end
  end.

(* The records show_stats keeps: those with a grade and, under a
   non-empty filter, with the filter's subject up to case. *)
Definition has_grade (s : student) : bool :=
  match grade s with Some _ => true | None => false end.

Definition subject_matches (subject_filter : string) (s : student) : bool :=
  String.eqb (PyStr.lower (subject s)) (PyStr.lower subject_filter).

Definition filtered_students (subject_filter : option string)
    (students : list student) : list student :=
  match subject_filter with
  | Some f =>
      if PyStr.is_empty f then List.filter has_grade students
      else List.filter (fun s => subject_matches f s && has_grade s) students
  | None => List.filter has_grade students
  end.

Definition stats_title (subject_filter : option string) : string :=
  match subject_filter with
  | Some f =>
      if PyStr.is_empty f then "Statistics (all students)"
      else "Statistics for subject: " +:+ f
  | None => "Statistics (all students)"
  end.

(* [s["grade"] for s in filtered]; every record of filtered has one. *)
Definition grades_of (filtered : list student) : list Z := omap grade filtered.

(* What statistics.mean returns on ints: the exact quotient when it is
   an integer, else the float nearest to it. *)
Inductive mean_value :=
  | MeanInt (z : Z)
  | MeanFloat (x : PyFloat.float).

(* statistics.mean(x, *r) on ints; None stands for the OverflowError of
   a quotient beyond the floats. *)
Definition mean (x : Z) (r : list Z) : option mean_value :=
  let total := fold_left Z.add r x in
  let n := Z.of_nat (S (length r)) in
  if total mod n =? 0 then Some (MeanInt (total / n))
  else MeanFloat <$> PyFloat.binary64 total n.

(* format(avg, ".2f"): an int is converted to float first; None stands
   for the OverflowError of an int beyond the floats. *)
Definition format_mean (avg : mean_value) : option string :=
  match avg with
  | MeanInt z => PyFloat.format_2f <$> PyFloat.binary64 z 1
  | MeanFloat x => Some (PyFloat.format_2f x)
  end.

Record stats := Stats {
  count : nat;
  average : mean_value;
  highest : Z;
  lowest : Z
}.

(* mean, max and min of the grades, with their number: mean() raises
   StatisticsError when there are none and OverflowError when the
   quotient is beyond the floats. *)
Definition stats_of (grades : list Z) : outcome stats :=
  match grades with
  | [] => Raised StatisticsError
  | g :: r =>
      match mean g r with
      | None => Raised OverflowError
      | Some avg => Done (Stats (length grades) avg (py_max g r) (py_min g r))
      end
  end.

Definition show_stats (subject_filter : option string) : M unit :=
  students <- load_students ;;
  match students with
  | [] => print "No students to compute statistics."
  | _ :: _ =>
      let filtered := filtered_students subject_filter students in
      let title := stats_title subject_filter in
      match filtered with
      | [] => print "No graded students found for this selection."
      | _ :: _ =>
          let grades := grades_of filtered in
          match stats_of grades with
          | Raised e => raise e
          | Done st =>
              print title ;;
              print (" - Count: " +:+ PyStr.str (Z.of_nat (count st))) ;;
              match format_mean (average st) with
              | Some avg_text => print (" - Average grade: " +:+ avg_text)
              | None => raise OverflowError
              end ;;
              print (" - Highest grade: " +:+ PyStr.str (highest st)) ;;
              print (" - Lowest grade: " +:+ PyStr.str (lowest st))
          end
      end
  end.

(* --------------------------------------------------------------------- *)
(* Interactive shell                                                     *)
(* --------------------------------------------------------------------- *)

(* One turn of the loop of main().  Before the loop main() runs
   ensure_file and prints a banner; the banner has a dash beyond the
   characters modelled here and is left out. *)
Definition main_turn : M unit :=
  cmd_in <- input (String "010"%char
                     "Enter command (add/list/delete/stats/quit): ") ;;
  let cmd := PyStr.lower (PyStr.strip cmd_in) in
  if PyStr.is_empty cmd then ret tt
  else if bool_decide (cmd ∈ ["add"; "a"]) then add_student
  else if bool_decide (cmd ∈ ["delete"; "del"; "d"]) then delete_student
  else if bool_decide (cmd ∈ ["list"; "l"]) then list_students None 20
  else if bool_decide (cmd ∈ ["stats"; "s"]) then
    subj_in <- input "Enter subject to filter or press Enter for all: " ;;
    let subj := PyStr.strip subj_in in
    show_stats (if PyStr.is_empty subj then None else Some subj)
  else if bool_decide (cmd ∈ ["quit"; "q"; "exit"]) then
    print "Goodbye." ;; raise (SystemExit 0)
  else print "Unknown command. Try: add, list, delete, stats, quit".

(* while True: at most fuel turns. *)
Fixpoint main_loop (fuel : nat) : M unit :=
  match fuel with
  | O => ret tt
  | S k => main_turn ;; main_loop k
  end.

(* Running a command in a world: the world it leaves. *)
Definition run {A} (c : M A) (w : world) : world := (c w).2.

(* The records a world holds: what load_students returns there. *)
Definition records (w : world) : outcome (list student) := (load_students w).1.

(* --------------------------------------------------------------------- *)
(* Views used by the statements                                          *)
(* --------------------------------------------------------------------- *)

(* No character of s is whitespace. *)
Fixpoint no_space (s : string) : bool :=
  match s with
  | EmptyString => true
  | String c r => negb (PyStr.is_space c) && no_space r
  end.

(* The world once ensure_file has run. *)
Definition ensured (w : world) : world := run ensure_file w.

(* The rows load_students reads in a world. *)
Definition rows_of (w : world) : csv_file :=
  match file w with
  | None => [FIELDNAMES]
  | Some f => f
  end.

(* A record with its text fields trimmed. *)
Definition trimmed (s : student) : student :=
  Student (id s) (PyStr.strip (name s)) (PyStr.strip (subject s)) (grade s).

(* The statistics show_stats reports for a record list. *)
Definition stats_for (subject_filter : option string)
    (students : list student) : outcome stats :=
  stats_of (grades_of (filtered_students subject_filter students)).

(* A record whose row the reader accepts: no cell of it is beyond the
   field size limit. *)
Definition storable (s : student) : Prop :=
  row_ok (row_of_student s) = true.

(* Case-insensitive comparison of two texts, said without lower(): the
   texts have the same length and, place by place, the same character or
   the capital and the small form of one letter (A..Z, and the Latin-1
   capitals U+00C0..U+00DE but the multiplication sign, each 32 below its
   small form). *)
Definition is_capital (c : ascii) : bool :=
  let n := N_of_ascii c in
  ((65 <=? n) && (n <=? 90)
   || (192 <=? n) && (n <=? 222) && negb (n =? 215))%N.

Definition same_letter (c1 c2 : ascii) : bool :=
  Ascii.eqb c1 c2
  || is_capital c1 && (N_of_ascii c2 =? N_of_ascii c1 + 32)%N
  || is_capital c2 && (N_of_ascii c1 =? N_of_ascii c2 + 32)%N.

Fixpoint eq_ignore_case (a b : string) : bool :=
  match a, b with
  | EmptyString, EmptyString => true
  | String c1 r1, String c2 r2 => same_letter c1 c2 && eq_ignore_case r1 r2
  | _, _ => false
  end.

(* Every character, for the facts checked on each of them. *)
Definition all_ascii : list ascii := ascii_of_nat <$> seq 0 256.

(* The prompts add_student has shown once the grade has been asked. *)
Definition add_prompts : list out :=
  [Prompt "Student name: "; Prompt "Subject (e.g., Math): ";
   Prompt "Grade (0-100): "].

(* The messages add_student ends on when it turns its input down. *)
Definition add_cancel_messages : list string :=
  ["Name cannot be empty. Cancelled.";
   "Grade must be between 0 and 100. Cancelled.";
   "Invalid grade. Use an integer between 0 and 100. Cancelled."].

(* What list_students prints for a non-empty record list. *)
Definition listing (limit : nat) (students : list student) : list out :=
  Line table_header :: Line (dashes 50)
  :: ((fun s => Line (table_row s)) <$> take limit (sorted_desc students)).

(* What show_stats prints for a non-empty record list, and how it
   ends. *)
Definition report (subject_filter : option string)
    (students : list student) : list out * outcome unit :=
  match stats_for subject_filter students with
  | Raised StatisticsError =>
      ([Line "No graded students found for this selection."], Done tt)
  | Raised e => ([], Raised e)
  | Done st =>
      match format_mean (average st) with
      | Some avg_text =>
          ([Line (stats_title subject_filter);
            Line (" - Count: " +:+ PyStr.str (Z.of_nat (count st)));
            Line (" - Average grade: " +:+ avg_text);
            Line (" - Highest grade: " +:+ PyStr.str (highest st));
            Line (" - Lowest grade: " +:+ PyStr.str (lowest st))],
           Done tt)
      | None =>
          ([Line (stats_title subject_filter);
            Line (" - Count: " +:+ PyStr.str (Z.of_nat (count st)))],
           Raised OverflowError)
      end
  end.

(* Command c fails with no exception but those of P. *)
Definition raises_in {A} (P : exn -> Prop) (c : M A) : Prop :=
  forall w e w', c w = (Raised e, w') -> P e.

(* The two ways a load can fail: a row too short to have the field asked
   for, or a cell beyond the field size limit. *)
Definition load_failure (e : exn) : Prop :=
  e = AttributeError \/ e = CsvError.

(* The ways a handler can fail: input exhausted, a failed load, or a mean
   beyond the floats. *)
Definition handler_failure (e : exn) : Prop :=
  e = EOFError \/ load_failure e \/ e = OverflowError.

(* The last thing a world's terminal shows. *)
Definition last_out (w : world) : option out := last (stdout w).

(* ===================================================================== *)
(* Properties                                                            *)
(* ===================================================================== *)

Example str_150 : PyStr.str 150 = "150". Proof. reflexivity. Qed.
Example str_neg : PyStr.str (-42) = "-42". Proof. reflexivity. Qed.
Example str_0 : PyStr.str 0 = "0". Proof. reflexivity. Qed.
Example int_pad : PyStr.int "  +1_000 " = Some 1000. Proof. reflexivity. Qed.
Example int_bad : PyStr.int "1__0" = None. Proof. reflexivity. Qed.
Example int_bad2 : PyStr.int "- 3" = None. Proof. reflexivity. Qed.
Example int_bad3 : PyStr.int "abc" = None. Proof. reflexivity. Qed.
Example strip_ex : PyStr.strip "  a b  " = "a b". Proof. reflexivity. Qed.
Example lower_ex : PyStr.lower "YeS" = "yes". Proof. reflexivity. Qed.

Section Text.

Import PyStr.

Lemma digit_char_facts (d : Z) :
  0 <= d < 10 ->
  is_digit (digit_char d) = true /\ digit_val (digit_char d) = d
  /\ is_space (digit_char d) = false
  /\ Ascii.eqb (digit_char d) "_" = false.
Proof.
  intros Hd.
  assert (Hc : d = 0 \/ d = 1 \/ d = 2 \/ d = 3 \/ d = 4 \/ d = 5 \/ d = 6
               \/ d = 7 \/ d = 8 \/ d = 9) by lia.
  repeat (destruct Hc as [-> | Hc]; [repeat split; reflexivity |]).
  subst d; repeat split; reflexivity.
Qed.

Lemma int_digits_push (d : Z) (r : string) (acc : Z) :
  0 <= d < 10 ->
  int_digits (String (digit_char d) r) acc = int_digits r (10 * acc + d).
Proof.
  intros Hd. destruct (digit_char_facts d Hd) as (Hdig & Hval & _ & Hus).
  cbn [int_digits]. by rewrite Hus, Hdig, Hval.
Qed.

Lemma int_unsigned_str_digits (fuel : nat) :
  forall (n : Z) (acc : string),
    0 <= n < 10 * 2 ^ Z.of_nat fuel ->
    int_unsigned (str_digits fuel n acc) = int_digits acc n.
Proof.
  induction fuel as [| f IH]; intros n acc Hn.
  - cbn [str_digits]. change (2 ^ Z.of_nat 0) with 1 in Hn.
    rewrite Z.mod_small by lia.
    destruct (digit_char_facts n ltac:(lia)) as (Hdig & Hval & _).
    cbn [int_unsigned]. by rewrite Hdig, Hval.
  - cbn [str_digits]. destruct (Z.ltb_spec n 10) as [Hlt | Hge].
    + rewrite Z.mod_small by lia.
      destruct (digit_char_facts n ltac:(lia)) as (Hdig & Hval & _).
      cbn [int_unsigned]. by rewrite Hdig, Hval.
    + rewrite IH.
      * rewrite int_digits_push by (apply Z.mod_pos_bound; lia).
        f_equal. pose proof (Z.div_mod n 10). lia.
      * rewrite Nat2Z.inj_succ, Z.pow_succ_r in Hn by lia.
        split; [apply Z.div_pos; lia |].
        apply Z.div_lt_upper_bound; lia.
Qed.

Lemma int_unsigned_str_nonneg (n : Z) :
  0 <= n -> int_unsigned (str_nonneg n) = Some n.
Proof.
  intros Hn. unfold str_nonneg. rewrite int_unsigned_str_digits; [done |].
  rewrite Z2Nat.id by apply Z.log2_nonneg.
  destruct (Z.eq_dec n 0) as [-> | Hne]; [done |].
  pose proof (Z.log2_spec n ltac:(lia)) as [_ Hup].
  rewrite Z.pow_succ_r in Hup by apply Z.log2_nonneg.
  pose proof (Z.pow_pos_nonneg 2 (Z.log2 n) ltac:(lia) (Z.log2_nonneg n)).
  lia.
Qed.

Lemma no_space_str_digits (fuel : nat) :
  forall (n : Z) (acc : string),
    0 <= n -> no_space acc = true -> no_space (str_digits fuel n acc) = true.
Proof.
  induction fuel as [| f IH]; intros n acc Hn Hacc; cbn [str_digits].
  - cbn [no_space]. rewrite Hacc.
    destruct (digit_char_facts (n mod 10) ltac:(apply Z.mod_pos_bound; lia))
      as (_ & _ & Hsp & _).
    by rewrite Hsp.
  - assert (Hd : no_space (String (digit_char (n mod 10)) acc) = true).
    { cbn [no_space]. rewrite Hacc.
      destruct (digit_char_facts (n mod 10) ltac:(apply Z.mod_pos_bound; lia))
        as (_ & _ & Hsp & _).
      by rewrite Hsp. }
    destruct (n <? 10); [done |].
    apply IH; [apply Z.div_pos; lia | done].
Qed.

Lemma str_digits_nonempty (fuel : nat) (n : Z) (acc : string) :
  is_empty (str_digits fuel n acc) = false.
Proof.
  revert n acc. induction fuel as [| f IH]; intros n acc; cbn [str_digits];
    [done |].
  destruct (n <? 10); [done | apply IH].
Qed.

Lemma str_nonempty (z : Z) : is_empty (str z) = false.
Proof.
  unfold str. destruct (z <? 0); [done |]. apply str_digits_nonempty.
Qed.

Lemma no_space_str (z : Z) : no_space (str z) = true.
Proof.
  unfold str, str_nonneg. destruct (Z.ltb_spec z 0).
  - cbn [no_space]. rewrite no_space_str_digits; [done | lia | done].
  - apply no_space_str_digits; [lia | done].
Qed.

Lemma lstrip_no_space (s : string) : no_space s = true -> lstrip s = s.
Proof.
  destruct s as [| c r]; [done |]. cbn. by destruct (is_space c).
Qed.

Lemma rstrip_no_space (s : string) : no_space s = true -> rstrip s = s.
Proof.
  induction s as [| c r IH]; [done |]. cbn [no_space rstrip].
  intros [Hc Hr]%andb_prop. rewrite IH by done.
  by destruct (is_space c).
Qed.

Lemma strip_no_space (s : string) : no_space s = true -> strip s = s.
Proof.
  intros H. unfold strip. rewrite lstrip_no_space by done.
  by apply rstrip_no_space.
Qed.

(* int(str(z)) == z *)
Lemma int_space_is_space (c : ascii) :
  is_int_space c = true -> is_space c = true.
Proof. by destruct c as [[] [] [] [] [] [] [] []]. Qed.

Lemma int_lstrip_no_space (s : string) :
  no_space s = true -> int_lstrip s = s.
Proof.
  destruct s as [| c r]; [done |]. cbn [no_space int_lstrip].
  destruct (is_int_space c) eqn:E; [| done].
  by rewrite (int_space_is_space _ E).
Qed.

Lemma int_rstrip_no_space (s : string) :
  no_space s = true -> int_rstrip s = s.
Proof.
  induction s as [| c r IH]; [done |]. cbn [no_space int_rstrip].
  intros [Hc Hr]%andb_prop. rewrite IH by done.
  destruct (is_int_space c) eqn:E; [| done].
  by rewrite (int_space_is_space _ E) in Hc.
Qed.

Lemma int_str (z : Z) : int (str z) = Some z.
Proof.
  unfold int.
  rewrite int_lstrip_no_space, int_rstrip_no_space by apply no_space_str.
  unfold str. destruct (Z.ltb_spec z 0) as [Hneg | Hpos].
  - cbn. rewrite int_unsigned_str_nonneg by lia. cbn. f_equal. lia.
  - pose proof (int_unsigned_str_nonneg z Hpos) as Hu.
    destruct (str_nonneg z) as [| c r] eqn:E; [done |].
    assert (Hdig : is_digit c = true).
    { cbn in Hu. by destruct (is_digit c). }
    assert (Ascii.eqb c "-" = false /\ Ascii.eqb c "+" = false) as [-> ->].
    { split; apply Ascii.eqb_neq; intros ->; discriminate. }
    done.
Qed.

Lemma rstrip_idemp (s : string) : rstrip (rstrip s) = rstrip s.
Proof.
  induction s as [| c r IH]; [done |]. cbn [rstrip].
  destruct (is_space c && is_empty (rstrip r)) eqn:E; [done |].
  cbn [rstrip]. by rewrite IH, E.
Qed.

Lemma lstrip_head (s : string) :
  lstrip s = EmptyString
  \/ exists c r, lstrip s = String c r /\ is_space c = false.
Proof.
  induction s as [| c r IH]; [by left |]. cbn [lstrip].
  destruct (is_space c) eqn:E; [done |]. right. by exists c, r.
Qed.

(* s.strip().strip() == s.strip() *)
Lemma strip_idemp (s : string) : strip (strip s) = strip s.
Proof.
  unfold strip. destruct (lstrip_head s) as [-> | (c & r & -> & Hc)]; [done |].
  assert (Hr : rstrip (String c r) = String c (rstrip r)).
  { cbn [rstrip]. by rewrite Hc. }
  rewrite Hr. cbn [lstrip]. rewrite Hc, <- Hr. apply rstrip_idemp.
Qed.

Lemma strip_empty : strip EmptyString = EmptyString.
Proof. reflexivity. Qed.

Lemma is_empty_true (s : string) : is_empty s = true <-> s = EmptyString.
Proof. by destruct s. Qed.

(* Trimming never makes a text longer. *)
Lemma length_lstrip (s : string) :
  (String.length (lstrip s) <= String.length s)%nat.
Proof.
  induction s as [| c r IH]; [done |]. cbn [lstrip].
  destruct (is_space c); cbn [String.length]; lia.
Qed.

Lemma length_rstrip (s : string) :
  (String.length (rstrip s) <= String.length s)%nat.
Proof.
  induction s as [| c r IH]; [done |]. cbn [rstrip].
  destruct (is_space c && is_empty (rstrip r)); cbn [String.length]; lia.
Qed.

Lemma length_strip (s : string) :
  (String.length (strip s) <= String.length s)%nat.
Proof.
  unfold strip. pose proof (length_rstrip (lstrip s)).
  pose proof (length_lstrip s). lia.
Qed.

Lemma length_int_lstrip (s : string) :
  (String.length (int_lstrip s) <= String.length s)%nat.
Proof.
  induction s as [| c r IH]; [done |]. cbn [int_lstrip].
  destruct (is_int_space c); cbn [String.length]; lia.
Qed.

Lemma length_int_rstrip (s : string) :
  (String.length (int_rstrip s) <= String.length s)%nat.
Proof.
  induction s as [| c r IH]; [done |]. cbn [int_rstrip].
  destruct (is_int_space c && is_empty (int_rstrip r));
    cbn [String.length]; lia.
Qed.

Lemma digit_val_range (c : ascii) :
  is_digit c = true -> 0 <= digit_val c <= 9.
Proof.
  unfold is_digit, digit_val. intros [H1 H2]%andb_prop.
  apply N.leb_le in H1, H2. lia.
Qed.

(* The digits int() reads make a number below the power of ten of their
   count. *)
Lemma int_digits_bound (n : nat) :
  forall (s : string) (acc z k : Z),
    (String.length s <= n)%nat -> 0 <= k -> 0 <= acc < 10 ^ k ->
    int_digits s acc = Some z ->
    0 <= z < 10 ^ (k + Z.of_nat (String.length s)).
Proof.
  induction n as [| n IH]; intros s acc z k Hlen Hk Hacc.
  - destruct s; [| cbn in Hlen; lia]. cbn. intros [= <-].
    by rewrite Z.add_0_r.
  - destruct s as [| c r]; [cbn; intros [= <-]; by rewrite Z.add_0_r |].
    cbn [int_digits]. cbn [String.length] in Hlen.
    assert (Hstep : forall (d : ascii) (t : string),
              is_digit d = true -> (String.length t <= n)%nat ->
              int_digits t (10 * acc + digit_val d) = Some z ->
              0 <= z < 10 ^ (k + 1 + Z.of_nat (String.length t))).
    { intros d t Hd Ht Hz. pose proof (digit_val_range d Hd).
      apply (IH t (10 * acc + digit_val d) z (k + 1)); [done | lia | | done].
      rewrite Z.pow_add_r, Z.pow_1_r by lia. lia. }
    destruct (Ascii.eqb c "_").
    + destruct r as [| d r']; [done |].
      destruct (is_digit d) eqn:Hd; [| done]. intros Hz.
      cbn [String.length] in *.
      destruct (Hstep d r' Hd ltac:(lia) Hz) as [H0 Hlt].
      split; [done |]. eapply Z.lt_le_trans; [exact Hlt |].
      apply Z.pow_le_mono_r; lia.
    + destruct (is_digit c) eqn:Hd; [| done]. intros Hz.
      destruct (Hstep c r Hd ltac:(lia) Hz) as [H0 Hlt].
      split; [done |]. cbn [String.length].
      replace (k + Z.of_nat (S (String.length r)))
        with (k + 1 + Z.of_nat (String.length r)) by lia.
      done.
Qed.

Lemma int_unsigned_bound (s : string) (z : Z) :
  int_unsigned s = Some z ->
  0 <= z < 10 ^ Z.of_nat (String.length s)
  /\ (1 <= String.length s)%nat.
Proof.
  destruct s as [| d r]; [done |]. cbn [int_unsigned].
  destruct (is_digit d) eqn:Hd; [| done]. intros Hz.
  pose proof (digit_val_range d Hd).
  pose proof (int_digits_bound (String.length r) r (digit_val d) z 1
                ltac:(lia) ltac:(lia) ltac:(rewrite Z.pow_1_r; lia) Hz) as Hb.
  cbn [String.length]. split; [| lia].
  replace (Z.of_nat (S (String.length r)))
    with (1 + Z.of_nat (String.length r)) by lia.
  done.
Qed.

(* A number below a power of ten is written with no more digits. *)
Lemma length_str_digits (fuel : nat) :
  forall (n : Z) (acc : string) (k : Z),
    1 <= k -> 0 <= n < 10 ^ k ->
    Z.of_nat (String.length (str_digits fuel n acc))
    <= k + Z.of_nat (String.length acc).
Proof.
  induction fuel as [| f IH]; intros n acc k Hk Hn; cbn [str_digits].
  - cbn [String.length]. lia.
  - destruct (Z.ltb_spec n 10) as [Hlt | Hge]; [cbn [String.length]; lia |].
    assert (Hk2 : 2 <= k).
    { destruct (Z.le_gt_cases 2 k) as [? | Hk1]; [done |].
      assert (k = 1) as -> by lia. rewrite Z.pow_1_r in Hn. lia. }
    etransitivity.
    + apply (IH (n / 10) _ (k - 1)); [lia |].
      split; [apply Z.div_pos; lia |].
      apply Z.div_lt_upper_bound; [lia |].
      rewrite <- Z.pow_succ_r by lia.
      replace (Z.succ (k - 1)) with k by lia. lia.
    + cbn [String.length]. lia.
Qed.

Lemma length_str_nonneg (n k : Z) :
  1 <= k -> 0 <= n < 10 ^ k ->
  Z.of_nat (String.length (str_nonneg n)) <= k.
Proof.
  intros Hk Hn. unfold str_nonneg.
  pose proof (length_str_digits (Z.to_nat (Z.log2 n)) n EmptyString k Hk Hn)
    as H.
  cbn [String.length] in H. lia.
Qed.

(* str(int(s)) is never longer than s. *)
Lemma length_str_int (s : string) (z : Z) :
  int s = Some z -> (String.length (str z) <= String.length s)%nat.
Proof.
  unfold int.
  pose proof (length_int_rstrip (int_lstrip s)) as H1.
  pose proof (length_int_lstrip s) as H2.
  destruct (int_rstrip (int_lstrip s)) as [| c r] eqn:E; [done |].
  cbn [String.length] in H1.
  assert (Hu : forall t u, int_unsigned t = Some u ->
                 0 <= u
                 /\ (String.length (str_nonneg u) <= String.length t)%nat).
  { intros t u Hu. destruct (int_unsigned_bound _ _ Hu) as [Hb Hl].
    split; [lia |].
    pose proof (length_str_nonneg u (Z.of_nat (String.length t))
                  ltac:(lia) Hb). lia. }
  destruct (Ascii.eqb c "-").
  - destruct (int_unsigned r) as [u |] eqn:Hr; [| done]. intros [= <-].
    destruct (Hu _ _ Hr) as [H0 Hl]. unfold str.
    destruct (Z.ltb_spec (- u) 0).
    + cbn [String.length]. rewrite Z.opp_involutive. lia.
    + assert (u = 0) as -> by lia. change (- 0) with 0. lia.
  - destruct (Ascii.eqb c "+").
    + intros Hr. destruct (Hu _ _ Hr) as [H0 Hl]. unfold str.
      destruct (Z.ltb_spec z 0); [lia |]. lia.
    + intros Hr. destruct (Hu _ _ Hr) as [H0 Hl]. unfold str.
      destruct (Z.ltb_spec z 0); [lia |]. cbn [String.length] in Hl. lia.
Qed.

End Text.

(* --------------------------------------------------------------------- *)
(* The record store                                                      *)
(* --------------------------------------------------------------------- *)

Section Store.

Lemma load_students_unfold (w : world) :
  load_students w = (load_rows (DictReader (rows_of w)) [], ensured w).
Proof.
  unfold load_students, bind, ensured, run, rows_of, ensure_file, read_rows.
  destruct w as [[f |] i o]; cbn; [| done].
  by destruct (load_rows (DictReader f) []).
Qed.

Lemma records_unfold (w : world) :
  records w = load_rows (DictReader (rows_of w)) [].
Proof. unfold records. by rewrite load_students_unfold. Qed.

Lemma ensured_file (w : world) : file (ensured w) = Some (rows_of w).
Proof. by destruct w as [[f |] i o]. Qed.

Lemma ensured_existing (w : world) : file w <> None -> ensured w = w.
Proof. by destruct w as [[f |] i o]. Qed.

Lemma ensured_io (w : world) :
  stdin (ensured w) = stdin w /\ stdout (ensured w) = stdout w.
Proof. by destruct w as [[f |] i o]. Qed.

Lemma rows_of_ensured (w : world) : rows_of (ensured w) = rows_of w.
Proof. by destruct w as [[f |] i o]. Qed.

Lemma records_ensured (w : world) : records (ensured w) = records w.
Proof. by rewrite !records_unfold, rows_of_ensured. Qed.

(* The dict DictReader makes of a row with the four cells of the header. *)
Lemma dict_of_row_four (a b c d : string) :
  dict_of_row FIELDNAMES [a; b; c; d]
  = <[Some "grade" := VStr d]>
      (<[Some "subject" := VStr c]>
         (<[Some "name" := VStr b]> (<[Some "id" := VStr a]> ∅))).
Proof. reflexivity. Qed.

Lemma dict_four_lookup (a b c d : string) :
  let row := dict_of_row FIELDNAMES [a; b; c; d] in
  row !! Some "id" = Some (VStr a) /\ row !! Some "name" = Some (VStr b)
  /\ row !! Some "subject" = Some (VStr c)
  /\ row !! Some "grade" = Some (VStr d).
Proof.
  cbv zeta. rewrite dict_of_row_four.
  repeat split; by simplify_map_eq.
Qed.

Lemma dict_four_nonempty (a b c d : string) :
  bool_decide (dict_of_row FIELDNAMES [a; b; c; d] = ∅) = false.
Proof.
  apply bool_decide_eq_false. rewrite dict_of_row_four.
  apply insert_non_empty.
Qed.

(* Loading the row of a saved record gives the record back, trimmed. *)
Lemma load_row_saved (s : student) :
  load_row (dict_of_row FIELDNAMES (row_of_student s)) = Done (Some (trimmed s)).
Proof.
  unfold row_of_student, load_row.
  rewrite dict_four_nonempty.
  destruct (dict_four_lookup (PyStr.str (id s)) (name s) (subject s)
              (match grade s with
               | None => EmptyString
               | Some g => PyStr.str g
               end)) as (Hid & Hname & Hsubj & Hgrade).
  unfold get_strip. rewrite Hid, Hname, Hsubj, Hgrade.
  cbn [truthy int_of_val orb]. rewrite str_nonempty, int_str. cbn [negb].
  unfold trimmed. destruct (grade s) as [g |].
  - rewrite (strip_no_space (PyStr.str g)) by apply no_space_str.
    by rewrite str_nonempty, int_str.
  - done.
Qed.

Lemma load_rows_acc (rows : list (outcome row_dict)) :
  forall acc : list student,
    load_rows rows acc
    = match load_rows rows [] with
      | Done l => Done (acc ++ l)
      | Raised e => Raised e
      end.
Proof.
  induction rows as [| [row | e0] rest IH]; intros acc; cbn [load_rows];
    [by rewrite app_nil_r | | done].
  - destruct (load_row row) as [[s |] | e]; [| apply IH | done].
    rewrite (IH (acc ++ [s])), (IH ([] ++ [s])).
    destruct (load_rows rest []); [| done].
    by rewrite <- app_assoc.
Qed.

Lemma filter_saved_rows (students : list student) :
  filter (fun r : csv_row => r ≠ []) (row_of_student <$> students)
  = row_of_student <$> students.
Proof.
  induction students as [| s rest IH]; [done |].
  cbn [fmap list_fmap]. rewrite filter_cons_True by done.
  f_equal. apply IH.
Qed.

(* Reading back the rows of records the reader accepts. *)
Lemma load_rows_saved (students : list student) :
  Forall storable students ->
  load_rows
    ((fun r : csv_row =>
        if row_ok r then Done (dict_of_row FIELDNAMES r)
        else Raised CsvError) <$> (row_of_student <$> students)) []
  = Done (trimmed <$> students).
Proof.
  induction students as [| s rest IH]; [done |].
  intros [Hs Hrest]%Forall_cons.
  cbn [fmap list_fmap load_rows]. rewrite Hs.
  rewrite load_row_saved, load_rows_acc.
  fold (fmap (M := list) row_of_student rest).
  fold (fmap (M := list)
          (fun r : csv_row =>
             if row_ok r then Done (dict_of_row FIELDNAMES r)
             else Raised CsvError) (row_of_student <$> rest)).
  by rewrite IH.
Qed.

Lemma DictReader_saved (students : list student) :
  DictReader (FIELDNAMES :: (row_of_student <$> students))
  = (fun r : csv_row =>
       if row_ok r then Done (dict_of_row FIELDNAMES r) else Raised CsvError)
    <$> (row_of_student <$> students).
Proof.
  unfold DictReader. rewrite filter_saved_rows.
  by replace (row_ok FIELDNAMES) with true by (by vm_compute).
Qed.

(* What a world holds once records the reader accepts have been saved
   in it. *)
Lemma records_saved (students : list student) (w : world) :
  Forall storable students ->
  records (run (save_students students) w) = Done (trimmed <$> students).
Proof.
  intros Hok. rewrite records_unfold.
  unfold run, save_students, write_rows, rows_of. cbn [snd file].
  rewrite DictReader_saved. by apply load_rows_saved.
Qed.

Lemma trimmed_idemp (s : student) : trimmed (trimmed s) = trimmed s.
Proof.
  unfold trimmed. cbn [id name subject grade]. by rewrite !strip_idemp.
Qed.

Lemma get_strip_fixed (row : row_dict) (key : string) (v : string) :
  get_strip row key = Done v -> PyStr.strip v = v.
Proof.
  unfold get_strip. destruct (row !! Some key) as [[s | | l] |]; try done.
  - intros [= <-]. apply strip_idemp.
  - intros [= <-]. done.
Qed.

Lemma load_row_trimmed (row : row_dict) (s : student) :
  load_row row = Done (Some s) -> trimmed s = s.
Proof.
  unfold load_row.
  destruct (bool_decide (row = ∅) || negb (truthy (row !! Some "id")));
    [done |].
  destruct (int_of_val (row !! Some "id")) as [sid |]; [| done].
  destruct (get_strip row "grade") as [g |]; [| done].
  destruct (get_strip row "name") as [n |] eqn:Hn; [| done].
  destruct (get_strip row "subject") as [sj |] eqn:Hs; [| done].
  intros [= <-]. unfold trimmed. cbn [id name subject grade].
  by rewrite (get_strip_fixed _ _ _ Hn), (get_strip_fixed _ _ _ Hs).
Qed.

Lemma load_rows_trimmed (rows : list (outcome row_dict)) :
  forall l : list student,
    load_rows rows [] = Done l -> trimmed <$> l = l.
Proof.
  induction rows as [| [row | e0] rest IH]; intros l; cbn [load_rows];
    [by intros [= <-] | | done].
  - destruct (load_row row) as [[s |] | e] eqn:Hrow; [| apply IH | done].
    rewrite load_rows_acc.
    destruct (load_rows rest []) as [l' |] eqn:Hrest; [| done].
    intros [= <-]. cbn [app fmap list_fmap].
    rewrite (load_row_trimmed _ _ Hrow). f_equal. by apply IH.
Qed.

(* Loaded records carry trimmed text: saving them back keeps them. *)
Lemma records_trimmed (w : world) (students : list student) :
  records w = Done students -> trimmed <$> students = students.
Proof. rewrite records_unfold. apply load_rows_trimmed. Qed.

(* A shorter text passes the limit where a longer one does. *)
Lemma cell_ok_shorter (a b : string) :
  (String.length a <= String.length b)%nat ->
  cell_ok b = true -> cell_ok a = true.
Proof.
  unfold cell_ok. intros Hlen Hb. apply Z.leb_le in Hb. apply Z.leb_le. lia.
Qed.

Lemma fold_insert_cells (l : list (string * string)) :
  forall (d : row_dict) (k : option string) (s : string),
    fold_left (fun d kv => <[Some kv.1 := VStr kv.2]> d) l d !! k
    = Some (VStr s) ->
    d !! k = Some (VStr s) \/ s ∈ l.*2.
Proof.
  induction l as [| [a b] l IH]; intros d k s; cbn [fold_left]; [by left |].
  intros [H | H]%IH.
  - destruct (decide (Some a = k)) as [<- | Hne].
    + rewrite lookup_insert_eq in H. injection H as <-. right. left.
    + rewrite lookup_insert_ne in H by done. by left.
  - right. cbn [fmap list_fmap]. by right.
Qed.

Lemma fold_none_cells (l : list string) :
  forall (d : row_dict) (k : option string) (s : string),
    fold_left (fun d k => <[Some k := VNone]> d) l d !! k = Some (VStr s) ->
    d !! k = Some (VStr s).
Proof.
  induction l as [| a l IH]; intros d k s; cbn [fold_left]; [done |].
  intros H%IH. destruct (decide (Some a = k)) as [<- | Hne].
  - by rewrite lookup_insert_eq in H.
  - by rewrite lookup_insert_ne in H.
Qed.

(* The texts in the dict of a row are cells of that row. *)
Lemma dict_values_cells (h : list string) (r : csv_row)
    (k : option string) (s : string) :
  dict_of_row h r !! k = Some (VStr s) -> s ∈ r.
Proof.
  unfold dict_of_row. intros H.
  assert (Hz : forall d : row_dict,
             d = fold_left (fun d kv => <[Some kv.1 := VStr kv.2]> d)
                   (zip h r) ∅ ->
             d !! k = Some (VStr s) -> s ∈ r).
  { intros d -> [Hd | Hd]%fold_insert_cells; [by rewrite lookup_empty in Hd |].
    apply list_elem_of_fmap in Hd as ([a b] & -> & Hin).
    by apply elem_of_zip_r in Hin. }
  destruct (length h <? length r)%nat.
  - destruct (decide (None = k)) as [<- | Hne].
    + by rewrite lookup_insert_eq in H.
    + rewrite lookup_insert_ne in H by done. by apply (Hz _ eq_refl).
  - destruct (length r <? length h)%nat.
    + apply fold_none_cells in H. by apply (Hz _ eq_refl).
    + by apply (Hz _ eq_refl).
Qed.

Lemma get_strip_cell (row : row_dict) (key v : string) :
  (forall k s, row !! Some k = Some (VStr s) -> cell_ok s = true) ->
  get_strip row key = Done v -> cell_ok v = true.
Proof.
  intros Hrow. unfold get_strip.
  destruct (row !! Some key) as [[s | | l] |] eqn:E; try done.
  - intros [= <-]. apply (cell_ok_shorter _ s); [apply length_strip |].
    by apply (Hrow key).
  - by intros [= <-].
Qed.

(* A record loaded from cells within the limit has a row within it. *)
Lemma load_row_storable (row : row_dict) (st : student) :
  (forall k s, row !! Some k = Some (VStr s) -> cell_ok s = true) ->
  load_row row = Done (Some st) -> storable st.
Proof.
  intros Hrow. unfold load_row.
  destruct (bool_decide (row = ∅) || negb (truthy (row !! Some "id")));
    [done |].
  destruct (row !! Some "id") as [[a | | l] |] eqn:Hid; try done.
  cbn [int_of_val]. destruct (PyStr.int a) as [sid |] eqn:Ha; [| done].
  destruct (get_strip row "grade") as [g |] eqn:Hg; [| done].
  destruct (get_strip row "name") as [n |] eqn:Hn; [| done].
  destruct (get_strip row "subject") as [sj |] eqn:Hs; [| done].
  intros [= <-]. unfold storable, row_of_student.
  cbn [id name subject grade row_ok forallb].
  rewrite (cell_ok_shorter (PyStr.str sid) a (length_str_int _ _ Ha)
             (Hrow "id" a Hid)).
  rewrite (get_strip_cell _ _ _ Hrow Hn), (get_strip_cell _ _ _ Hrow Hs).
  cbn [andb]. rewrite andb_true_r.
  destruct (PyStr.is_empty g); [done |].
  destruct (PyStr.int g) as [gv |] eqn:Hgv; [| done].
  apply (cell_ok_shorter _ g (length_str_int _ _ Hgv)).
  by apply (get_strip_cell _ _ _ Hrow Hg).
Qed.

Lemma load_rows_storable (rows : list (outcome row_dict)) :
  Forall (fun o => forall row, o = Done row ->
            forall k s, row !! Some k = Some (VStr s) -> cell_ok s = true)
    rows ->
  forall l : list student,
    load_rows rows [] = Done l -> Forall storable l.
Proof.
  induction rows as [| [row | e0] rest IH]; intros Hall l; cbn [load_rows];
    [by intros [= <-] | | done].
  apply Forall_cons in Hall as [Hrow Hrest].
  destruct (load_row row) as [[s |] | e] eqn:Hload; [| by apply IH | done].
  rewrite load_rows_acc.
  destruct (load_rows rest []) as [l' |] eqn:Hl'; [| done].
  intros [= <-]. cbn [app]. constructor; [| by apply IH].
  by apply (load_row_storable row s (Hrow row eq_refl)).
Qed.

Lemma DictReader_cells (f : csv_file) :
  Forall (fun o => forall row, o = Done row ->
            forall k s, row !! Some k = Some (VStr s) -> cell_ok s = true)
    (DictReader f).
Proof.
  destruct f as [| h rows]; [constructor |]. unfold DictReader.
  destruct (row_ok h); [| by repeat constructor].
  apply Forall_fmap, Forall_forall. intros r _ row. cbn.
  destruct (row_ok r) eqn:Hr; [| done]. intros [= <-] k s Hk.
  apply dict_values_cells in Hk. unfold row_ok in Hr.
  rewrite forallb_forall in Hr. apply Hr. by apply list_elem_of_In.
Qed.

(* Every loaded record can be saved and read back. *)
Lemma records_storable (w : world) (students : list student) :
  records w = Done students -> Forall storable students.
Proof.
  rewrite records_unfold. apply load_rows_storable, DictReader_cells.
Qed.

(* What a world holds once the records just loaded, or some of them, are
   saved in it. *)
Lemma records_resaved (w w' : world) (students kept : list student) :
  records w = Done students -> kept ⊆ students ->
  records (run (save_students kept) w') = Done kept.
Proof.
  intros Hrec Hsub.
  assert (Hok : Forall storable kept).
  { apply Forall_forall. intros s Hs.
    pose proof (records_storable _ _ Hrec) as Hall.
    rewrite Forall_forall in Hall. by apply Hall, Hsub. }
  rewrite (records_saved _ _ Hok). f_equal.
  apply records_trimmed in Hrec.
  assert (Hfix : forall l : list student,
             trimmed <$> l = l -> forall s, s ∈ l -> trimmed s = s).
  { induction l as [| x l IHl]; [by intros _ s Hs; inversion Hs |].
    cbn [fmap list_fmap]. intros [= Hx Hl] s [-> | Hs]%elem_of_cons;
      [done | by apply IHl]. }
  induction kept as [| s kept IHk]; [done |].
  cbn [fmap list_fmap]. f_equal.
  - apply (Hfix students Hrec). apply Hsub. left.
  - apply IHk.
    + intros x Hx. apply Hsub. by right.
    + by apply Forall_cons in Hok as [_ ?].
Qed.


(* Loading rows in two parts. *)
Lemma load_rows_app (l1 l2 : list (outcome row_dict)) :
  forall acc : list student,
    load_rows (l1 ++ l2) acc
    = match load_rows l1 acc with
      | Done a => load_rows l2 a
      | Raised e => Raised e
      end.
Proof.
  induction l1 as [| [row | e0] rest IH]; intros acc; cbn [app load_rows];
    [done | | done].
  destruct (load_row row) as [[s |] | e]; [apply IH | apply IH | done].
Qed.

End Store.

(* --------------------------------------------------------------------- *)
(* The id allocator                                                      *)
(* --------------------------------------------------------------------- *)

Section Allocator.

Lemma py_max_spec (r : list Z) :
  forall x : Z,
    (py_max x r = x \/ py_max x r ∈ r)
    /\ x <= py_max x r /\ (forall y, y ∈ r -> y <= py_max x r).
Proof.
  unfold py_max. induction r as [| a r IH]; intros x; cbn [fold_left].
  - split; [by left |]. split; [lia |]. intros y Hy. by inversion Hy.
  - destruct (IH (Z.max x a)) as (Hin & Hle & Hall).
    split; [| split].
    + destruct Hin as [-> | Hin].
      * destruct (Z.max_spec x a) as [[_ ->] | [_ ->]];
          [right; left | by left].
      * right. by right.
    + lia.
    + intros y [-> | Hy]%elem_of_cons; [lia | by apply Hall].
Qed.

Lemma py_min_spec (r : list Z) :
  forall x : Z,
    (py_min x r = x \/ py_min x r ∈ r)
    /\ py_min x r <= x /\ (forall y, y ∈ r -> py_min x r <= y).
Proof.
  unfold py_min. induction r as [| a r IH]; intros x; cbn [fold_left].
  - split; [by left |]. split; [lia |]. intros y Hy. by inversion Hy.
  - destruct (IH (Z.min x a)) as (Hin & Hle & Hall).
    split; [| split].
    + destruct Hin as [-> | Hin].
      * destruct (Z.min_spec x a) as [[_ ->] | [_ ->]];
          [by left | right; left].
      * right. by right.
    + lia.
    + intros y [-> | Hy]%elem_of_cons; [lia | by apply Hall].
Qed.

(* The allocated id is one more than some present id, and above all. *)
Lemma next_id_max (students : list student) :
  students <> [] ->
  (exists s, s ∈ students /\ next_id students = id s + 1)
  /\ (forall s, s ∈ students -> id s < next_id students).
Proof.
  destruct students as [| s rest]; [done |]. intros _. cbn [next_id].
  destruct (py_max_spec (id <$> rest) (id s)) as (Hin & Hle & Hall).
  split.
  - destruct Hin as [-> | (t & -> & Ht)%list_elem_of_fmap].
    + exists s. split; [left | done].
    + exists t. split; [by right | done].
  - intros t [-> | Ht]%elem_of_cons; [lia |].
    assert (id t <= py_max (id s) (id <$> rest)); [| lia].
    apply Hall. by apply list_elem_of_fmap_2.
Qed.

(** C1: next_id returns 1 on the empty record list and otherwise one more
    than the largest id present (it is the successor of some present id and
    exceeds every present id); a store whose ids are 1, 2 and 4, in any
    order, gets 5; and when the present ids are positive the returned id
    differs from each of them. *)
Theorem next_id_spec (students : list student) :
  (students = [] -> next_id students = 1)
  /\ (students <> [] ->
      (exists s, s ∈ students /\ next_id students = id s + 1)
      /\ (forall s, s ∈ students -> id s + 1 <= next_id students))
  /\ (id <$> students ≡ₚ [1; 2; 4] -> next_id students = 5)
  /\ ((forall s, s ∈ students -> 0 < id s) ->
      forall s, s ∈ students -> id s <> next_id students).
Proof.
  split; [by intros -> |]. split; [| split].
  - intros Hne. destruct (next_id_max students Hne) as [Hex Hall].
    split; [done |]. intros s Hs. specialize (Hall s Hs). lia.
  - intros Hperm.
    assert (Hne : students <> []).
    { intros ->. by apply Permutation_nil_l in Hperm. }
    destruct (next_id_max students Hne) as [(s & Hs & ->) Hall].
    assert (Hids : forall t, t ∈ students -> id t ∈ [1; 2; 4]).
    { intros t Ht. rewrite <- Hperm. by apply list_elem_of_fmap_2. }
    assert (H4 : 4 ∈ id <$> students) by (rewrite Hperm; set_solver).
    apply list_elem_of_fmap in H4 as (t & Ht4 & Ht).
    specialize (Hall t Ht). specialize (Hids s Hs).
    set_unfold in Hids. lia.
  - intros _ s Hs.
    assert (Hne : students <> []) by (intros ->; inversion Hs).
    destruct (next_id_max students Hne) as [_ Hall].
    specialize (Hall s Hs). lia.
Qed.

(** C1, at a store with the ids 2, 4 and 1. *)
Lemma next_id_spec_witness :
  let students :=
    [Student 2 "Bo" "Math" (Some 80); Student 4 "Cy" "Art" None;
     Student 1 "Al" "Math" (Some 70)] in
  next_id students = 5
  /\ forall s, s ∈ students -> id s <> next_id students.
Proof.
  intros students.
  destruct (next_id_spec students) as (_ & _ & Hex & Hfresh).
  split.
  - apply Hex. vm_compute. apply Permutation_sym.
    apply (perm_trans (perm_swap 2 1 [4])).
    apply perm_skip, perm_swap.
  - apply Hfresh. intros s Hs. unfold students in Hs.
    repeat (apply elem_of_cons in Hs as [Hs | Hs]; [subst s; cbn; lia |]).
    inversion Hs.
Defined.

End Allocator.

(* --------------------------------------------------------------------- *)
(* Saving and loading                                                    *)
(* --------------------------------------------------------------------- *)

Section RoundTrip.

Lemma storable_cells (s : student) :
  storable s
  <-> forall c, c ∈ row_of_student s ->
                Z.of_nat (String.length c) <= 131072.
Proof.
  unfold storable, row_ok. rewrite forallb_forall. split.
  - intros H c Hc%list_elem_of_In. specialize (H c Hc).
    by apply Z.leb_le in H.
  - intros H c Hc%list_elem_of_In. apply Z.leb_le. by apply H.
Qed.

Lemma all_storable (students : list student) :
  (forall s c, s ∈ students -> c ∈ row_of_student s ->
               Z.of_nat (String.length c) <= 131072) ->
  Forall storable students.
Proof.
  intros H. apply Forall_forall. intros s Hs. apply storable_cells.
  intros c Hc. by apply (H s).
Qed.

(** C4, as stated, fails: a record whose name has 131073 characters is
    saved, and the load that follows raises the reader's error instead of
    returning a record set. *)
Lemma save_load_fails_on_long_name :
  records (run (save_students
                  [Student 1 (dashes (Z.to_nat 131073)) "Math" (Some 70)])
             (World None [] []))
  = Raised CsvError.
Proof. by vm_compute. Qed.

(** C4 (as the code has it): when no cell of the rows to write (the id,
    the name, the subject and the grade as texts) has more than 131072
    characters, the field size limit of the csv reader, saving a record
    list and loading it again gives the same records, field by field: id
    and grade are equal, name and subject are equal up to the trimming of
    surrounding whitespace (an unknown grade is written as an empty cell
    and read back as unknown). *)
Theorem save_load_roundtrip (students : list student) (w : world) :
  (forall s c, s ∈ students -> c ∈ row_of_student s ->
               Z.of_nat (String.length c) <= 131072) ->
  exists loaded,
    records (run (save_students students) w) = Done loaded
    /\ loaded = trimmed <$> students
    /\ Forall2 (fun s t =>
                  id t = id s /\ name t = PyStr.strip (name s)
                  /\ subject t = PyStr.strip (subject s)
                  /\ grade t = grade s) students loaded.
Proof.
  intros Hok%all_storable.
  exists (trimmed <$> students). split; [by apply records_saved |].
  split; [done |]. clear Hok.
  induction students as [| s rest IH]; [constructor |].
  cbn [fmap list_fmap]. by constructor.
Qed.

(** C4, at two records, one with padded text and an unknown grade. *)
Lemma save_load_roundtrip_witness :
  records (run (save_students
                  [Student 1 " Ann " "Math" (Some 70);
                   Student 2 "Bo" "  Art" None]) (World None [] []))
  = Done [Student 1 "Ann" "Math" (Some 70); Student 2 "Bo" "Art" None].
Proof.
  destruct (save_load_roundtrip
              [Student 1 " Ann " "Math" (Some 70);
               Student 2 "Bo" "  Art" None] (World None [] []))
    as (loaded & Hrec & -> & _).
  - intros s c Hs Hc.
    repeat (apply elem_of_cons in Hs as [-> | Hs];
            [repeat (apply elem_of_cons in Hc as [-> | Hc];
                     [vm_compute; discriminate |]);
             inversion Hc |]).
    inversion Hs.
  - rewrite Hrec. reflexivity.
Defined.

(** C10, as stated, fails: of two records given to save_students, the
    second with a subject of 131073 characters, the load that follows
    returns none, in any order: it raises the reader's error. *)
Lemma save_load_order_fails_on_long_subject :
  records (run (save_students
                  [Student 1 "Ann" "Math" (Some 70);
                   Student 2 "Bo" (dashes (Z.to_nat 131073)) None])
             (World None [] []))
  = Raised CsvError.
Proof. by vm_compute. Qed.

(** C10 (as the code has it): when no cell of the rows to write has more
    than 131072 characters, the field size limit of the csv reader,
    loading after saving returns the records in the order they were given
    to save_students: the rows are written in list order and the sequence
    of loaded ids equals the sequence of saved ids. *)
Theorem save_load_order (students : list student) (w : world) :
  (forall s c, s ∈ students -> c ∈ row_of_student s ->
               Z.of_nat (String.length c) <= 131072) ->
  file (run (save_students students) w)
  = Some (FIELDNAMES :: (row_of_student <$> students))
  /\ exists loaded,
      records (run (save_students students) w) = Done loaded
      /\ id <$> loaded = id <$> students
      /\ forall i, id <$> (loaded !! i) = id <$> (students !! i).
Proof.
  intros Hok%all_storable.
  split; [done |]. exists (trimmed <$> students).
  split; [by apply records_saved |].
  assert (H : id <$> (trimmed <$> students) = id <$> students).
  { rewrite <- list_fmap_compose. by apply list_fmap_ext. }
  split; [done |]. intros i.
  by rewrite <- !list_lookup_fmap, H.
Qed.

(** C10, at the ids 4, 1 and 2 in that order. *)
Lemma save_load_order_witness :
  exists loaded,
    records (run (save_students
                    [Student 4 "Cy" "Art" None;
                     Student 1 "Ann" "Math" (Some 70);
                     Student 2 "Bo" "Art" (Some 81)]) (World None [] []))
    = Done loaded
    /\ id <$> loaded = [4; 1; 2].
Proof.
  destruct (save_load_order
              [Student 4 "Cy" "Art" None; Student 1 "Ann" "Math" (Some 70);
               Student 2 "Bo" "Art" (Some 81)] (World None [] []))
    as (_ & loaded & Hrec & Hids & _).
  - intros s c Hs Hc.
    repeat (apply elem_of_cons in Hs as [-> | Hs];
            [repeat (apply elem_of_cons in Hc as [-> | Hc];
                     [vm_compute; discriminate |]);
             inversion Hc |]).
    inversion Hs.
  - exists loaded. split; [exact Hrec | exact Hids].
Defined.

(* The grade load_students gives a row of four cells with a usable id:
   unknown for a blank cell, else whatever int() makes of the cell. *)
Lemma load_row_grade (a b c d : string) (sid : Z) :
  PyStr.int a = Some sid ->
  load_row (dict_of_row FIELDNAMES [a; b; c; d])
  = Done (Some (Student sid (PyStr.strip b) (PyStr.strip c)
                  (if PyStr.is_empty (PyStr.strip d) then None
                   else PyStr.int (PyStr.strip d)))).
Proof.
  intros Ha. unfold load_row. rewrite dict_four_nonempty.
  destruct (dict_four_lookup a b c d) as (Hid & Hname & Hsubj & Hgrade).
  unfold get_strip. rewrite Hid, Hname, Hsubj, Hgrade.
  cbn [truthy int_of_val orb]. rewrite Ha.
  destruct a as [| ch a']; [discriminate Ha | done].
Qed.

(** C2: a persisted row whose grade cell is the integer 150 is loaded with
    grade 150: load_students parses the cell and applies no range check,
    so the loaded grade lies outside [0,100]. *)
Theorem load_students_keeps_grade_150 :
  exists s,
    records (World (Some [FIELDNAMES; ["1"; "Ann"; "Math"; "150"]]) [] [])
    = Done [s]
    /\ grade s = Some 150 /\ ~ (0 <= 150 <= 100).
Proof.
  exists (Student 1 "Ann" "Math" (Some 150)).
  split; [by vm_compute |]. split; [done | lia].
Qed.

End RoundTrip.

(* --------------------------------------------------------------------- *)
(* The add handler                                                       *)
(* --------------------------------------------------------------------- *)

Section Add.

Local Arguments PyStr.strip : simpl never.
Local Arguments PyStr.int : simpl never.
Local Arguments PyStr.str : simpl never.
Local Arguments PyStr.lower : simpl never.
Local Arguments next_id : simpl never.
Local Arguments String.app : simpl never.

Lemma ensured_eq (w : world) :
  ensured w = World (Some (rows_of w)) (stdin w) (stdout w).
Proof. by destruct w as [[f |] i o]. Qed.

(* A store that cannot be loaded stops add_student before it asks. *)
Lemma add_student_load_fails (w : world) (e : exn) :
  records w = Raised e -> add_student w = (Raised e, ensured w).
Proof.
  intros Hrec. unfold add_student, bind.
  by rewrite load_students_unfold, <- records_unfold, Hrec.
Qed.

Lemma add_student_no_input (w : world) (students : list student) :
  records w = Done students -> stdin w = [] ->
  add_student w
  = (Raised EOFError,
     World (Some (rows_of w)) [] (stdout w ++ [Prompt "Student name: "])).
Proof.
  intros Hrec Hin. unfold add_student, bind.
  rewrite load_students_unfold, <- records_unfold, Hrec, ensured_eq.
  unfold input. cbn [stdin stdout file]. by rewrite Hin.
Qed.

Lemma add_student_empty_name (w : world) (students : list student)
    (name_in : string) (rest : list string) :
  records w = Done students -> stdin w = name_in :: rest ->
  PyStr.strip name_in = EmptyString ->
  add_student w
  = (Done tt,
     World (Some (rows_of w)) rest
       (stdout w
        ++ [Prompt "Student name: "; Line "Name cannot be empty. Cancelled."])).
Proof.
  intros Hrec Hin Hname. unfold add_student, bind.
  rewrite load_students_unfold, <- records_unfold, Hrec, ensured_eq.
  unfold input, print. cbn [stdin stdout file]. rewrite Hin, Hname.
  cbn [PyStr.is_empty stdin stdout file]. by rewrite <- app_assoc.
Qed.

Lemma add_student_asks (w : world) (students : list student)
    (name_in subject_in grade_in : string) (rest : list string) :
  records w = Done students ->
  stdin w = name_in :: subject_in :: grade_in :: rest ->
  PyStr.strip name_in <> EmptyString ->
  add_student w
  = let w' := World (Some (rows_of w)) rest (stdout w ++ add_prompts) in
    let sid := next_id students in
    let name := PyStr.strip name_in in
    let subject := str_or (PyStr.strip subject_in) "General" in
    match PyStr.int (PyStr.strip grade_in) with
    | Some grade_val =>
        if (grade_val <? 0) || (grade_val >? 100) then
          print "Grade must be between 0 and 100. Cancelled." w'
        else
          (save_students
             (students ++ [Student sid name subject (Some grade_val)]) ;;
           print ("Added student id=" +:+ PyStr.str sid +:+ ": " +:+ name
                  +:+ " (" +:+ subject +:+ ") grade="
                  +:+ PyStr.str grade_val)) w'
    | None =>
        print "Invalid grade. Use an integer between 0 and 100. Cancelled." w'
    end.
Proof.
  intros Hrec Hin Hname. unfold add_student, bind at 1 2 3 4.
  rewrite load_students_unfold, <- records_unfold, Hrec, ensured_eq.
  unfold input. cbn [stdin stdout file]. rewrite Hin.
  destruct (PyStr.strip name_in) as [| c r] eqn:E; [done |].
  cbn [PyStr.is_empty stdin stdout file]. cbv zeta.
  unfold add_prompts. rewrite <- !app_assoc. cbn [app].
  destruct (PyStr.int (PyStr.strip grade_in)) as [g |]; [| done].
  by destruct ((g <? 0) || (g >? 100)).
Qed.

Lemma records_same_rows (w w' : world) :
  rows_of w' = rows_of w -> records w' = records w.
Proof. intros H. by rewrite !records_unfold, H. Qed.

(* What a world holds whose file is the saved form of records the reader
   accepts. *)
Lemma records_of_saved_file (w : world) (l : list student) :
  file w = Some (FIELDNAMES :: (row_of_student <$> l)) ->
  Forall storable l ->
  records w = Done (trimmed <$> l).
Proof.
  intros Hf Hok. rewrite records_unfold. unfold rows_of. rewrite Hf.
  rewrite DictReader_saved. by apply load_rows_saved.
Qed.

(* A file whose last row the reader turns down, behind rows it accepts,
   cannot be loaded. *)
Lemma records_of_unreadable_file (w : world) (l : list student)
    (s : student) :
  file w = Some (FIELDNAMES :: (row_of_student <$> l ++ [s])) ->
  Forall storable l -> ~ storable s ->
  records w = Raised CsvError.
Proof.
  intros Hf Hok Hbad. rewrite records_unfold. unfold rows_of. rewrite Hf.
  rewrite DictReader_saved, !fmap_app, load_rows_app.
  rewrite (load_rows_saved _ Hok). cbn [fmap list_fmap].
  unfold storable in Hbad. destruct (row_ok (row_of_student s)); done.
Qed.

(* The row of a record add makes is within the limit when the name, the
   subject and the id are. *)
Lemma new_student_storable (sid g : Z) (name_val subject_val : string) :
  Z.of_nat (String.length (PyStr.str sid)) <= 131072 ->
  Z.of_nat (String.length name_val) <= 131072 ->
  Z.of_nat (String.length subject_val) <= 131072 ->
  0 <= g <= 100 ->
  storable (Student sid name_val subject_val (Some g)).
Proof.
  intros Hid Hname Hsubj Hg. unfold storable, row_of_student.
  cbn [id name subject grade row_ok forallb]. unfold cell_ok.
  repeat (apply andb_true_intro; split); try (apply Z.leb_le; done);
    [| done].
  apply Z.leb_le. unfold PyStr.str.
  destruct (Z.ltb_spec g 0); [lia |].
  pose proof (length_str_nonneg g 3 ltac:(lia) ltac:(lia)).
  unfold field_size_limit. lia.
Qed.

Lemma add_student_success (w : world) (students : list student)
    (name_in subject_in grade_in : string) (rest : list string) (g : Z) :
  records w = Done students ->
  stdin w = name_in :: subject_in :: grade_in :: rest ->
  PyStr.strip name_in <> EmptyString ->
  PyStr.int (PyStr.strip grade_in) = Some g -> 0 <= g <= 100 ->
  let new_student :=
    Student (next_id students) (PyStr.strip name_in)
      (str_or (PyStr.strip subject_in) "General") (Some g) in
  file (run add_student w)
  = Some (FIELDNAMES :: (row_of_student <$> students ++ [new_student]))
  /\ (storable new_student ->
      records (run add_student w) = Done (students ++ [new_student])).
Proof.
  intros Hrec Hin Hname Hg Hrange new_student.
  assert (Hfile : file (run add_student w)
            = Some (FIELDNAMES
                    :: (row_of_student <$> students ++ [new_student]))).
  { unfold run. rewrite (add_student_asks _ _ _ _ _ _ Hrec Hin Hname).
    cbv zeta. rewrite Hg.
    assert ((g <? 0) || (g >? 100) = false) as -> by lia.
    reflexivity. }
  split; [done |]. intros Hnew.
  rewrite (records_of_saved_file _ _ Hfile).
  2:{ apply Forall_app. split; [by apply (records_storable w) |].
      by repeat constructor. }
  f_equal. rewrite fmap_app. rewrite (records_trimmed _ _ Hrec).
  f_equal. cbn [fmap list_fmap]. f_equal.
  unfold trimmed, new_student. cbn [id name subject grade].
  rewrite strip_idemp. f_equal.
  unfold str_or. destruct (PyStr.is_empty (PyStr.strip subject_in));
    [reflexivity | apply strip_idemp].
Qed.

Ltac in_list :=
  repeat first [apply list_elem_of_here | apply list_elem_of_further].

Ltac last_line :=
  eexists; cbn [snd stdout]; rewrite last_app; cbn [last];
  split; [reflexivity | in_list].

(* With a loadable store, bad input ends add_student on one of its three
   messages and leaves the file as ensure_file left it. *)
Lemma add_student_cancels (w : world) (students : list student) :
  records w = Done students ->
  (exists name_in rest,
      stdin w = name_in :: rest /\ PyStr.strip name_in = EmptyString)
  \/ (exists name_in subject_in grade_in rest,
        stdin w = name_in :: subject_in :: grade_in :: rest
        /\ forall g, PyStr.int (PyStr.strip grade_in) = Some g ->
                     g < 0 \/ 100 < g) ->
  file (run add_student w) = file (ensured w)
  /\ exists msg,
      last_out (run add_student w) = Some (Line msg)
      /\ msg ∈ add_cancel_messages.
Proof.
  intros Hrec Hbad.
  assert (Hname : forall name_in rest,
            stdin w = name_in :: rest -> PyStr.strip name_in = EmptyString ->
            file (run add_student w) = file (ensured w)
            /\ exists msg,
                last_out (run add_student w) = Some (Line msg)
                /\ msg ∈ add_cancel_messages).
  { intros name_in rest Hin He. unfold run, last_out.
    rewrite (add_student_empty_name _ _ _ _ Hrec Hin He), ensured_eq.
    split; [done | last_line]. }
  destruct Hbad as [(name_in & rest & Hin & He)
                   | (name_in & subject_in & grade_in & rest & Hin & Hg)];
    [by apply (Hname name_in rest) |].
  destruct (decide (PyStr.strip name_in = EmptyString)) as [He | Hne];
    [by apply (Hname name_in (subject_in :: grade_in :: rest)) |].
  unfold run, last_out.
  rewrite (add_student_asks _ _ _ _ _ _ Hrec Hin Hne), ensured_eq.
  cbv zeta. unfold print.
  destruct (PyStr.int (PyStr.strip grade_in)) as [g |];
    [| split; [done | last_line]].
  assert ((g <? 0) || (g >? 100) = true) as ->
    by (destruct (Hg g eq_refl); lia).
  split; [done | last_line].
Qed.

(** C3: when the name entered is empty after trimming, or the grade entered
    does not parse as an integer or parses to a value outside [0,100], the
    add stops with a message and writes nothing: the file is the one the
    command found (created with its header alone if it was absent), and the
    records of the store are those it held before. *)
Theorem add_student_rejects (w : world) :
  (exists name_in rest,
      stdin w = name_in :: rest /\ PyStr.strip name_in = EmptyString)
  \/ (exists name_in subject_in grade_in rest,
        stdin w = name_in :: subject_in :: grade_in :: rest
        /\ forall g, PyStr.int (PyStr.strip grade_in) = Some g ->
                     g < 0 \/ 100 < g) ->
  file (run add_student w) = file (ensured w)
  /\ (file w <> None -> file (run add_student w) = file w)
  /\ records (run add_student w) = records w
  /\ (forall students, records w = Done students ->
      exists msg,
        last_out (run add_student w) = Some (Line msg)
        /\ msg ∈ ["Name cannot be empty. Cancelled.";
                  "Grade must be between 0 and 100. Cancelled.";
                  "Invalid grade. Use an integer between 0 and 100. Cancelled."]).
Proof.
  intros Hbad.
  assert (Hfile : file (run add_student w) = file (ensured w)).
  { destruct (records w) as [students | e] eqn:Hrec.
    - by destruct (add_student_cancels w students Hrec Hbad).
    - unfold run. by rewrite (add_student_load_fails _ _ Hrec). }
  split; [done |]. split; [| split].
  - intros Hex. by rewrite Hfile, ensured_existing.
  - rewrite <- (records_ensured w). apply records_same_rows.
    unfold rows_of. by rewrite Hfile.
  - intros students Hrec.
    by destruct (add_student_cancels w students Hrec Hbad).
Qed.

(** C3, at the grade 150 entered for a store of one record. *)
Lemma add_student_rejects_witness :
  let w := World (Some [FIELDNAMES; ["1"; "Ann"; "Math"; "70"]])
             ["Eve"; "CS"; "150"] [] in
  file (run add_student w) = file w
  /\ records (run add_student w)
     = Done [Student 1 "Ann" "Math" (Some 70)].
Proof.
  intros w.
  assert (Hbad :
    (exists name_in rest,
        stdin w = name_in :: rest /\ PyStr.strip name_in = EmptyString)
    \/ (exists name_in subject_in grade_in rest,
          stdin w = name_in :: subject_in :: grade_in :: rest
          /\ forall g, PyStr.int (PyStr.strip grade_in) = Some g ->
                       g < 0 \/ 100 < g)).
  { right. exists "Eve", "CS", "150", []. split; [reflexivity |].
    intros g Hg. vm_compute in Hg. injection Hg as <-. right. reflexivity. }
  destruct (add_student_rejects w Hbad) as (_ & Hfile & Hrec & _).
  split.
  - apply Hfile. discriminate.
  - rewrite Hrec. vm_compute. reflexivity.
Defined.

Lemma load_row_subject_absent (row : row_dict) (s : student) :
  row !! Some "subject" = None -> load_row row = Done (Some s) ->
  subject s = EmptyString.
Proof.
  intros Habs. unfold load_row.
  destruct (bool_decide (row = ∅) || negb (truthy (row !! Some "id")));
    [done |].
  destruct (int_of_val (row !! Some "id")) as [sid |]; [| done].
  destruct (get_strip row "grade") as [g |]; [| done].
  destruct (get_strip row "name") as [n |]; [| done].
  unfold get_strip. rewrite Habs. by intros [= <-].
Qed.

(** C9 (as the code has it): the record add makes and writes to the file
    has a non-empty subject, the placeholder General standing in for a
    subject entered blank and the trimmed entry being kept otherwise;
    load_students applies no default: a row whose subject cell is blank,
    or which has no subject column, is loaded with the empty text as its
    subject. *)
Theorem subject_defaults_on_add (w : world) (students : list student)
    (name_in subject_in grade_in : string) (rest : list string) (g : Z) :
  records w = Done students ->
  stdin w = name_in :: subject_in :: grade_in :: rest ->
  PyStr.strip name_in <> EmptyString ->
  PyStr.int (PyStr.strip grade_in) = Some g -> 0 <= g <= 100 ->
  (exists new_student,
      file (run add_student w)
      = Some (FIELDNAMES :: (row_of_student <$> students ++ [new_student]))
      /\ subject new_student <> EmptyString
      /\ (PyStr.strip subject_in = EmptyString ->
          subject new_student = "General")
      /\ (PyStr.strip subject_in <> EmptyString ->
          subject new_student = PyStr.strip subject_in))
  /\ (forall a b c d sid,
        PyStr.int a = Some sid ->
        exists s,
          load_row (dict_of_row FIELDNAMES [a; b; c; d]) = Done (Some s)
          /\ subject s = PyStr.strip c)
  /\ (forall row s,
        row !! Some "subject" = None -> load_row row = Done (Some s) ->
        subject s = EmptyString).
Proof.
  intros Hrec Hin Hname Hg Hrange. split; [| split].
  - destruct (add_student_success w students name_in subject_in grade_in
                rest g Hrec Hin Hname Hg Hrange) as [Hnew _].
    eexists. split; [exact Hnew |]. cbn [subject]. unfold str_or.
    destruct (PyStr.strip subject_in) as [| c r] eqn:E; cbn [PyStr.is_empty];
      repeat split; done.
  - intros a b c d sid Ha. eexists. split; [by apply load_row_grade |]. done.
  - apply load_row_subject_absent.
Qed.

(** C9, at a subject entered as two spaces. *)
Lemma subject_defaults_on_add_witness :
  let w := World (Some [FIELDNAMES; ["1"; "Ann"; "Math"; "70"]])
             ["Eve"; "  "; "88"] [] in
  exists new_student,
    file (run add_student w)
    = Some (FIELDNAMES
            :: (row_of_student
                <$> [Student 1 "Ann" "Math" (Some 70)] ++ [new_student]))
    /\ subject new_student = "General".
Proof.
  intros w.
  assert (Hrec : records w = Done [Student 1 "Ann" "Math" (Some 70)])
    by (vm_compute; reflexivity).
  assert (Hin : stdin w = ["Eve"; "  "; "88"]) by reflexivity.
  assert (Hname : PyStr.strip "Eve" <> EmptyString)
    by (vm_compute; discriminate).
  assert (Hg : PyStr.int (PyStr.strip "88") = Some 88)
    by (vm_compute; reflexivity).
  assert (Hrange : 0 <= 88 <= 100) by lia.
  destruct (subject_defaults_on_add w _ "Eve" "  " "88" [] 88
              Hrec Hin Hname Hg Hrange)
    as [(new_student & Hnew & _ & Hdef & _) _].
  exists new_student. split; [exact Hnew |].
  apply Hdef. vm_compute. reflexivity.
Defined.

(** C9, as stated, fails on load: a persisted row with a blank subject
    cell is loaded with the empty text as subject, not with the
    placeholder. *)
Lemma blank_subject_loaded_empty :
  exists s,
    records (World (Some [FIELDNAMES; ["1"; "Ann"; " "; "70"]]) [] [])
    = Done [s]
    /\ subject s = EmptyString /\ subject s <> "General".
Proof.
  exists (Student 1 "Ann" EmptyString (Some 70)).
  split; [by vm_compute |]. split; [done | discriminate].
Qed.

End Add.

(* --------------------------------------------------------------------- *)
(* The delete handler                                                    *)
(* --------------------------------------------------------------------- *)

Section Delete.

Local Arguments PyStr.strip : simpl never.
Local Arguments PyStr.int : simpl never.
Local Arguments PyStr.str : simpl never.
Local Arguments PyStr.lower : simpl never.
Local Arguments String.app : simpl never.
Local Arguments dashes : simpl never.
Local Arguments table_header : simpl never.
Local Arguments table_row : simpl never.
Local Arguments sorted_desc : simpl never.

Lemma for_each_print (f : student -> string) (xs : list student) :
  forall w : world,
    for_each xs (fun s => print (f s)) w
    = (Done tt,
       World (file w) (stdin w)
         (stdout w ++ ((fun s => Line (f s)) <$> xs))).
Proof.
  induction xs as [| x r IH]; intros w; cbn [for_each fmap list_fmap].
  - unfold ret. rewrite app_nil_r. by destruct w.
  - unfold bind, print at 1. rewrite IH. cbn [file stdin stdout].
    by rewrite <- app_assoc.
Qed.

Lemma list_students_given (students : list student) (limit : nat)
    (w : world) :
  students <> [] ->
  list_students (Some students) limit w
  = (Done tt,
     World (file w) (stdin w) (stdout w ++ listing limit students)).
Proof.
  destruct students as [| s rest]; [done |]. intros _.
  unfold list_students, bind, ret, print at 1 2.
  rewrite for_each_print. cbn [file stdin stdout]. unfold listing.
  by rewrite <- !app_assoc.
Qed.

Lemma delete_student_load_fails (w : world) (e : exn) :
  records w = Raised e -> delete_student w = (Raised e, ensured w).
Proof.
  intros Hrec. unfold delete_student, bind.
  by rewrite load_students_unfold, <- records_unfold, Hrec.
Qed.

Lemma delete_student_empty (w : world) :
  records w = Done [] ->
  delete_student w
  = (Done tt,
     World (Some (rows_of w)) (stdin w)
       (stdout w ++ [Line "No students found."])).
Proof.
  intros Hrec. unfold delete_student, bind.
  by rewrite load_students_unfold, <- records_unfold, Hrec, ensured_eq.
Qed.

(* delete_student once the id has been entered. *)
Lemma delete_student_asks (w : world) (students : list student)
    (sid_in : string) (rest : list string) :
  records w = Done students -> students <> [] ->
  stdin w = sid_in :: rest ->
  delete_student w
  = let w' := World (Some (rows_of w)) rest
                (stdout w ++ listing 50 students
                 ++ [Prompt "Enter student id to delete: "]) in
    match PyStr.int (PyStr.strip sid_in) with
    | None => print "Invalid id. Cancelled." w'
    | Some sid =>
        match find_by_id sid students with
        | None => print "No student with that id. Nothing deleted." w'
        | Some target =>
            (confirm_in <- input ("Delete " +:+ name target +:+ " (id="
                                  +:+ PyStr.str sid
                                  +:+ ")? Type 'yes' to confirm: ") ;;
             let confirm := PyStr.lower (PyStr.strip confirm_in) in
             if negb (String.eqb confirm "yes") then print "Cancelled."
             else
               save_students
                 (filter (fun s : student => id s ≠ sid) students) ;;
               print ("Deleted student id=" +:+ PyStr.str sid +:+ ".")) w'
        end
    end.
Proof.
  intros Hrec Hne Hin. unfold delete_student, bind at 1.
  rewrite load_students_unfold, <- records_unfold, Hrec, ensured_eq.
  destruct students as [| s0 rest0] eqn:Hst; [done |]. rewrite <- Hst in *.
  unfold bind at 1. rewrite (list_students_given _ _ _ Hne).
  unfold bind at 1, input at 1. cbn [file stdin stdout]. rewrite Hin.
  cbv zeta. rewrite <- app_assoc.
  destruct (PyStr.int (PyStr.strip sid_in)) as [sid |]; [| done].
  by destruct (find_by_id sid students).
Qed.

Lemma find_by_id_present (k : Z) (students : list student) :
  k ∈ id <$> students -> exists t, find_by_id k students = Some t.
Proof.
  intros (t & -> & Ht)%list_elem_of_fmap. unfold find_by_id.
  destruct (find (fun s => id s =? id t) students) as [u |] eqn:E; [eauto |].
  apply list_elem_of_In in Ht.
  pose proof (find_none _ _ E t Ht) as Hno. cbn in Hno. lia.
Qed.

Lemma find_by_id_absent (k : Z) (students : list student) :
  k ∉ id <$> students -> find_by_id k students = None.
Proof.
  intros Hk. unfold find_by_id.
  destruct (find (fun s => id s =? k) students) as [u |] eqn:E; [| done].
  apply find_some in E as [Hu Heq]. exfalso. apply Hk.
  apply list_elem_of_fmap. exists u. split; [lia |].
  by apply list_elem_of_In.
Qed.

Lemma find_by_id_found (k : Z) (students : list student) (t : student) :
  find_by_id k students = Some t -> t ∈ students /\ id t = k.
Proof.
  intros [Ht Heq]%find_some. split; [by apply list_elem_of_In | lia].
Qed.

Lemma filter_keeps_all (k : Z) (l : list student) :
  k ∉ id <$> l -> filter (fun s : student => id s ≠ k) l = l.
Proof.
  induction l as [| s r IH]; [done |]. cbn [fmap list_fmap].
  intros [Hs Hr]%not_elem_of_cons.
  rewrite filter_cons_True by done. f_equal. by apply IH.
Qed.

(* Removing by id from a list whose ids are distinct takes out the one
   record with that id and keeps the others in place. *)
Lemma filter_removes_one (l1 l2 : list student) (t : student) :
  NoDup (id <$> (l1 ++ t :: l2)) ->
  filter (fun s : student => id s ≠ id t) (l1 ++ t :: l2) = l1 ++ l2.
Proof.
  rewrite fmap_app, fmap_cons. intros (_ & Hdisj & Hnd)%NoDup_app.
  apply NoDup_cons in Hnd as [Ht2 _].
  rewrite filter_app, filter_cons_False by (intros H; by apply H).
  rewrite !filter_keeps_all; [done | done |].
  intros Hin. apply (Hdisj _ Hin). left.
Qed.

Lemma delete_student_confirmed (w : world) (students : list student)
    (sid_in confirm_in : string) (rest : list string) (k : Z)
    (target : student) :
  records w = Done students ->
  stdin w = sid_in :: confirm_in :: rest ->
  PyStr.int (PyStr.strip sid_in) = Some k ->
  find_by_id k students = Some target ->
  PyStr.lower (PyStr.strip confirm_in) = "yes" ->
  file (run delete_student w)
  = Some (FIELDNAMES
          :: (row_of_student
              <$> filter (fun s : student => id s ≠ k) students))
  /\ last_out (run delete_student w)
     = Some (Line ("Deleted student id=" +:+ PyStr.str k +:+ ".")).
Proof.
  intros Hrec Hin Hk Hfind Hyes.
  assert (Hne : students <> []) by (intros ->; discriminate Hfind).
  unfold run, last_out.
  rewrite (delete_student_asks _ _ _ _ Hrec Hne Hin). cbv zeta.
  rewrite Hk, Hfind.
  cbv beta iota zeta delta
    [bind input save_students write_rows print file stdin stdout snd].
  rewrite Hyes. cbn [String.eqb Ascii.eqb Bool.eqb negb].
  split; [done |]. by rewrite last_app.
Qed.

Lemma delete_student_declined (w : world) (students : list student)
    (sid_in confirm_in : string) (rest : list string) (k : Z)
    (target : student) :
  records w = Done students ->
  stdin w = sid_in :: confirm_in :: rest ->
  PyStr.int (PyStr.strip sid_in) = Some k ->
  find_by_id k students = Some target ->
  PyStr.lower (PyStr.strip confirm_in) <> "yes" ->
  file (run delete_student w) = file (ensured w)
  /\ last_out (run delete_student w) = Some (Line "Cancelled.").
Proof.
  intros Hrec Hin Hk Hfind Hno.
  assert (Hne : students <> []) by (intros ->; discriminate Hfind).
  unfold run, last_out.
  rewrite (delete_student_asks _ _ _ _ Hrec Hne Hin), ensured_eq. cbv zeta.
  rewrite Hk, Hfind.
  cbv beta iota zeta delta
    [bind input save_students write_rows print file stdin stdout snd].
  apply String.eqb_neq in Hno. rewrite Hno. cbn [negb].
  split; [done |]. by rewrite last_app.
Qed.

(* Without a usable, present id delete_student writes nothing. *)
Lemma delete_student_no_target (w : world) (students : list student)
    (sid_in : string) (rest : list string) :
  records w = Done students -> stdin w = sid_in :: rest ->
  (forall k, PyStr.int (PyStr.strip sid_in) = Some k ->
             k ∉ id <$> students) ->
  file (run delete_student w) = file (ensured w).
Proof.
  intros Hrec Hin Hk. unfold run. rewrite ensured_eq.
  destruct (decide (students = [])) as [-> | Hne].
  { by rewrite (delete_student_empty _ Hrec). }
  rewrite (delete_student_asks _ _ _ _ Hrec Hne Hin). cbv zeta.
  destruct (PyStr.int (PyStr.strip sid_in)) as [k |]; [| done].
  by rewrite (find_by_id_absent _ _ (Hk k eq_refl)).
Qed.

Lemma fmap_fixed (l : list student) :
  trimmed <$> l = l <-> Forall (fun s => trimmed s = s) l.
Proof.
  induction l as [| s r IH]; [by split |]. cbn [fmap list_fmap]. split.
  - intros [= Hs Hr]. constructor; [done | by apply IH].
  - intros [Hs Hr]%Forall_cons. f_equal; [done | by apply IH].
Qed.

(** C5: in a store whose ids are pairwise distinct, a confirmed delete of
    id k takes out the one record with id k and leaves the others as they
    were, in their order; when the entered id is not an integer, or no
    record has it, nothing is written and the store holds what it held. *)
Theorem delete_student_exact (w : world) (students : list student)
    (sid_in : string) (rest : list string) :
  records w = Done students ->
  NoDup (id <$> students) ->
  stdin w = sid_in :: rest ->
  (forall k confirm_in rest',
      PyStr.int (PyStr.strip sid_in) = Some k ->
      k ∈ id <$> students ->
      rest = confirm_in :: rest' ->
      PyStr.lower (PyStr.strip confirm_in) = "yes" ->
      exists l1 t l2,
        students = l1 ++ t :: l2 /\ id t = k
        /\ (k ∉ id <$> (l1 ++ l2))
        /\ records (run delete_student w) = Done (l1 ++ l2))
  /\ ((forall k, PyStr.int (PyStr.strip sid_in) = Some k ->
                 k ∉ id <$> students) ->
      file (run delete_student w) = file (ensured w)
      /\ records (run delete_student w) = records w).
Proof.
  intros Hrec Hnd Hin. split.
  - intros k confirm_in rest' Hk Hpresent -> Hyes.
    destruct (find_by_id_present _ _ Hpresent) as [t Hfind].
    destruct (find_by_id_found _ _ _ Hfind) as [Ht Hidt].
    destruct (list_elem_of_split _ _ Ht) as (l1 & l2 & ->).
    exists l1, t, l2. split; [done |]. split; [done |].
    destruct (delete_student_confirmed w _ sid_in confirm_in rest' k t
                Hrec Hin Hk Hfind Hyes) as [Hfile _].
    rewrite <- Hidt in Hfile. rewrite (filter_removes_one _ _ _ Hnd) in Hfile.
    split.
    + rewrite <- Hidt. rewrite fmap_app, fmap_cons in Hnd.
      apply NoDup_app in Hnd as (_ & Hdisj & Hnd2).
      apply NoDup_cons in Hnd2 as [Ht2 _].
      rewrite fmap_app. intros [H1 | H2]%elem_of_app; [| done].
      apply (Hdisj _ H1). left.
    + rewrite (records_of_saved_file _ _ Hfile).
      2:{ apply records_storable in Hrec.
          apply Forall_app in Hrec as [H1 [_ H2]%Forall_cons].
          by apply Forall_app. }
      f_equal.
      apply fmap_fixed. apply records_trimmed, fmap_fixed in Hrec.
      apply Forall_app in Hrec as [H1 [_ H2]%Forall_cons].
      by apply Forall_app.
  - intros Hk.
    pose proof (delete_student_no_target w _ _ _ Hrec Hin Hk) as Hfile.
    split; [done |].
    rewrite <- (records_ensured w). apply records_same_rows.
    unfold rows_of. by rewrite Hfile.
Qed.

(** C5, at the confirmed delete of id 2 among the ids 1, 2 and 4. *)
Lemma delete_student_exact_witness :
  let w := World (Some [FIELDNAMES; ["1"; "Ann"; "Math"; "70"];
                        ["2"; "Bo"; "Art"; "81"];
                        ["4"; "Cy"; "Math"; "90"]])
             ["2"; "yes"] [] in
  exists l1 t l2,
    [Student 1 "Ann" "Math" (Some 70); Student 2 "Bo" "Art" (Some 81);
     Student 4 "Cy" "Math" (Some 90)] = l1 ++ t :: l2
    /\ id t = 2
    /\ (2 ∉ id <$> (l1 ++ l2))
    /\ records (run delete_student w) = Done (l1 ++ l2).
Proof.
  intros w.
  assert (Hrec : records w
            = Done [Student 1 "Ann" "Math" (Some 70);
                    Student 2 "Bo" "Art" (Some 81);
                    Student 4 "Cy" "Math" (Some 90)])
    by (vm_compute; reflexivity).
  assert (Hnd : NoDup (id <$> [Student 1 "Ann" "Math" (Some 70);
                               Student 2 "Bo" "Art" (Some 81);
                               Student 4 "Cy" "Math" (Some 90)])).
  { cbn. repeat (apply NoDup_cons; split; [set_unfold; lia |]).
    apply NoDup_nil. done. }
  assert (Hin : stdin w = "2" :: ["yes"]) by reflexivity.
  destruct (delete_student_exact w _ "2" ["yes"] Hrec Hnd Hin) as [Hdel _].
  apply (Hdel 2 "yes" []).
  - vm_compute. reflexivity.
  - cbn. set_unfold. lia.
  - reflexivity.
  - vm_compute. reflexivity.
Defined.

(** C8 (as the code has it): with a present id entered, the record is
    deleted exactly when the response, trimmed of surrounding whitespace
    and put in lower case, equals the token yes; any other response ends
    on Cancelled with nothing written. *)
Theorem delete_confirmation_normalized (w : world)
    (students : list student) (sid_in confirm_in : string)
    (rest : list string) (k : Z) (target : student) :
  records w = Done students ->
  stdin w = sid_in :: confirm_in :: rest ->
  PyStr.int (PyStr.strip sid_in) = Some k ->
  find_by_id k students = Some target ->
  (PyStr.lower (PyStr.strip confirm_in) = "yes" <->
   last_out (run delete_student w)
   = Some (Line ("Deleted student id=" +:+ PyStr.str k +:+ ".")))
  /\ (PyStr.lower (PyStr.strip confirm_in) = "yes" ->
      file (run delete_student w)
      = Some (FIELDNAMES
              :: (row_of_student
                  <$> filter (fun s : student => id s ≠ k) students)))
  /\ (PyStr.lower (PyStr.strip confirm_in) <> "yes" ->
      file (run delete_student w) = file (ensured w)
      /\ last_out (run delete_student w) = Some (Line "Cancelled.")).
Proof.
  intros Hrec Hin Hk Hfind. split; [| split].
  - split.
    + intros Hyes.
      by destruct (delete_student_confirmed w _ _ _ _ _ _
                     Hrec Hin Hk Hfind Hyes).
    + intros Hlast.
      destruct (decide (PyStr.lower (PyStr.strip confirm_in) = "yes"))
        as [Hyes | Hno]; [done |].
      destruct (delete_student_declined w _ _ _ _ _ _
                  Hrec Hin Hk Hfind Hno) as [_ Hc].
      rewrite Hc in Hlast. discriminate Hlast.
  - intros Hyes.
    by destruct (delete_student_confirmed w _ _ _ _ _ _
                   Hrec Hin Hk Hfind Hyes).
  - intros Hno.
    by apply (delete_student_declined w students sid_in confirm_in rest
                k target).
Qed.

(** C8, at the response YES between spaces. *)
Lemma delete_confirmation_normalized_witness :
  let w := World (Some [FIELDNAMES; ["1"; "Ann"; "Math"; "70"]])
             ["1"; " YES "] [] in
  file (run delete_student w) = Some [FIELDNAMES].
Proof.
  intros w.
  assert (Hrec : records w = Done [Student 1 "Ann" "Math" (Some 70)])
    by (vm_compute; reflexivity).
  assert (Hin : stdin w = "1" :: " YES " :: []) by reflexivity.
  assert (Hk : PyStr.int (PyStr.strip "1") = Some 1)
    by (vm_compute; reflexivity).
  assert (Hfind : find_by_id 1 [Student 1 "Ann" "Math" (Some 70)]
                  = Some (Student 1 "Ann" "Math" (Some 70)))
    by reflexivity.
  destruct (delete_confirmation_normalized w _ "1" " YES " [] 1 _
              Hrec Hin Hk Hfind) as (_ & Hdel & _).
  rewrite Hdel; [reflexivity |]. vm_compute. reflexivity.
Defined.

(** C8, as stated, fails: no single literal token decides the deletion,
    since the responses yes and YES both delete. *)
Lemma confirmation_not_one_literal :
  ~ exists token : string,
      forall confirm_in : string,
        file (run delete_student
                (World (Some [FIELDNAMES; ["1"; "Ann"; "Math"; "70"]])
                   ["1"; confirm_in] []))
        = Some [FIELDNAMES]
        <-> confirm_in = token.
Proof.
  intros [token H].
  assert (H1 : "yes" = token) by (apply H; vm_compute; reflexivity).
  assert (H2 : "YES" = token) by (apply H; vm_compute; reflexivity).
  rewrite <- H1 in H2. discriminate H2.
Qed.

End Delete.

(* --------------------------------------------------------------------- *)
(* The stats handler                                                     *)
(* --------------------------------------------------------------------- *)

Section Statistics.

Local Arguments PyStr.str : simpl never.
Local Arguments PyStr.lower : simpl never.
Local Arguments String.app : simpl never.

Lemma grades_of_filtered (subject_filter : option string)
    (students : list student) :
  length (grades_of (filtered_students subject_filter students))
  = length (filtered_students subject_filter students).
Proof.
  assert (Hall : forall s, In s (filtered_students subject_filter students) ->
                           has_grade s = true).
  { intros s. unfold filtered_students.
    destruct subject_filter as [f |]; [destruct (PyStr.is_empty f) |];
      rewrite filter_In; intros [_ H]; [done | | done].
    by apply andb_prop in H as [_ H]. }
  induction (filtered_students subject_filter students) as [| s r IH];
    [done |].
  unfold grades_of in *. cbn [omap list_omap].
  pose proof (Hall s (or_introl eq_refl)) as Hs. unfold has_grade in Hs.
  destruct (grade s); [| done]. cbn [length]. f_equal.
  apply IH. intros t Ht. apply Hall. by right.
Qed.

Lemma show_stats_unfold (subject_filter : option string) (w : world)
    (students : list student) :
  records w = Done students -> students <> [] ->
  show_stats subject_filter w
  = ((report subject_filter students).2,
     World (Some (rows_of w)) (stdin w)
       (stdout w ++ (report subject_filter students).1)).
Proof.
  intros Hrec Hne. unfold show_stats, bind at 1.
  rewrite load_students_unfold, <- records_unfold, Hrec, ensured_eq.
  destruct students as [| s0 r0] eqn:Hst; [done |]. rewrite <- Hst in *.
  unfold report, stats_for.
  pose proof (grades_of_filtered subject_filter students) as Hlen.
  destruct (filtered_students subject_filter students) as [| t r]; [done |].
  destruct (grades_of (t :: r)) as [| g gs] eqn:Hg; [done |].
  destruct (stats_of (g :: gs)) as [st | e] eqn:Hstats.
  - destruct (format_mean (average st)) as [avg_text |];
      cbv beta iota zeta delta [bind print raise file stdin stdout fst snd];
      by rewrite <- ?app_assoc.
  - assert (e = OverflowError) as ->.
    { unfold stats_of in Hstats. destruct (mean g gs); congruence. }
    cbv beta iota zeta delta [raise file stdin stdout fst snd].
    by rewrite app_nil_r.
Qed.

Lemma show_stats_prints (subject_filter : option string) (w : world)
    (students : list student) :
  records w = Done students -> students <> [] ->
  file (run (show_stats subject_filter) w) = file (ensured w)
  /\ stdout (run (show_stats subject_filter) w)
     = stdout w ++ (report subject_filter students).1
  /\ (show_stats subject_filter w).1 = (report subject_filter students).2.
Proof.
  intros Hrec Hne. unfold run.
  by rewrite (show_stats_unfold _ _ _ Hrec Hne), ensured_eq.
Qed.

Lemma filter_graded_idemp (students : list student) :
  List.filter has_grade (List.filter has_grade students)
  = List.filter has_grade students.
Proof.
  induction students as [| s r IH]; [done |]. cbn [List.filter].
  destruct (has_grade s) eqn:E; [| done]. cbn [List.filter].
  by rewrite E, IH.
Qed.

Lemma filter_subject_graded (f : string) (students : list student) :
  List.filter (fun s => subject_matches f s && has_grade s)
    (List.filter has_grade students)
  = List.filter (fun s => subject_matches f s && has_grade s) students.
Proof.
  induction students as [| s r IH]; [done |]. cbn [List.filter].
  destruct (has_grade s) eqn:E.
  - cbn [List.filter]. by rewrite E, IH.
  - by rewrite andb_false_r.
Qed.

Lemma filtered_students_graded (subject_filter : option string)
    (students : list student) :
  filtered_students subject_filter students
  = filtered_students subject_filter (List.filter has_grade students).
Proof.
  unfold filtered_students.
  destruct subject_filter as [f |]; [destruct (PyStr.is_empty f) |];
    by rewrite ?filter_graded_idemp, ?filter_subject_graded.
Qed.

Lemma filtered_students_skip (subject_filter : option string)
    (l1 l2 : list student) (s : student) :
  grade s = None ->
  filtered_students subject_filter (l1 ++ s :: l2)
  = filtered_students subject_filter (l1 ++ l2).
Proof.
  intros Hs. assert (Hg : has_grade s = false) by (unfold has_grade; by rewrite Hs).
  unfold filtered_students.
  destruct subject_filter as [f |]; [destruct (PyStr.is_empty f) |];
    rewrite !List.filter_app; cbn [List.filter]; rewrite Hg;
    by rewrite ?andb_false_r.
Qed.

Lemma in_all_ascii (c : ascii) : In c all_ascii.
Proof.
  unfold all_ascii. rewrite <- (ascii_nat_embedding c).
  apply in_map, in_seq. pose proof (nat_ascii_bounded c). lia.
Qed.

Lemma lower_char_same_letter (c1 c2 : ascii) :
  PyStr.lower_char c1 = PyStr.lower_char c2 <-> same_letter c1 c2 = true.
Proof.
  assert (Hall : forallb (fun a => forallb (fun b =>
            Bool.eqb (Ascii.eqb (PyStr.lower_char a) (PyStr.lower_char b))
              (same_letter a b)) all_ascii) all_ascii = true)
    by (vm_compute; reflexivity).
  rewrite forallb_forall in Hall. specialize (Hall c1 (in_all_ascii c1)).
  rewrite forallb_forall in Hall. specialize (Hall c2 (in_all_ascii c2)).
  apply Bool.eqb_prop in Hall. rewrite <- Hall. symmetry.
  apply Ascii.eqb_eq.
Qed.

Lemma lower_eq_ignore_case (a b : string) :
  PyStr.lower a = PyStr.lower b <-> eq_ignore_case a b = true.
Proof.
  revert b. induction a as [| c1 r1 IH]; intros [| c2 r2];
    cbn [eq_ignore_case]; try done.
  change (PyStr.lower (String c1 r1))
    with (String (PyStr.lower_char c1) (PyStr.lower r1)).
  change (PyStr.lower (String c2 r2))
    with (String (PyStr.lower_char c2) (PyStr.lower r2)).
  rewrite andb_true_iff, <- IH, <- lower_char_same_letter. split.
  - intros [= H1 H2]. by split.
  - intros [H1 H2]. congruence.
Qed.

Lemma eq_ignore_case_length (a b : string) :
  eq_ignore_case a b = true -> String.length a = String.length b.
Proof.
  revert b. induction a as [| c1 r1 IH]; intros [| c2 r2];
    cbn [eq_ignore_case String.length]; try done.
  intros [_ H]%andb_prop. f_equal. by apply IH.
Qed.

(** C6: for every subject filter, absent or not, the statistics are those
    of the records with a known grade: a record with unknown grade changes
    neither count, mean, maximum nor minimum, wherever it stands in the
    store, and what show_stats prints, and how it ends, is made of these
    statistics alone; the grades 70, 80 and 90 in Math with one Math record
    of unknown grade give count 3, the average printed as 80.00, highest
    90 and lowest 70. *)
Theorem stats_exclude_unknown (subject_filter : option string)
    (students : list student) :
  stats_for subject_filter students
  = stats_for subject_filter (List.filter has_grade students)
  /\ (forall l1 s l2,
        students = l1 ++ s :: l2 -> grade s = None ->
        stats_for subject_filter students
        = stats_for subject_filter (l1 ++ l2)
        /\ report subject_filter students
           = report subject_filter (l1 ++ l2))
  /\ (forall w,
        records w = Done students -> students <> [] ->
        stdout (run (show_stats subject_filter) w)
        = stdout w ++ (report subject_filter students).1
        /\ (show_stats subject_filter w).1
           = (report subject_filter students).2)
  /\ (let w := World (Some [FIELDNAMES; ["1"; "Ann"; "Math"; "70"];
                            ["2"; "Bo"; "Math"; "80"];
                            ["3"; "Cy"; "Math"; " "];
                            ["4"; "Di"; "Math"; "90"]]) [] [] in
      show_stats (Some "Math") w
      = (Done tt,
         World (file w) []
           [Line "Statistics for subject: Math"; Line " - Count: 3";
            Line " - Average grade: 80.00"; Line " - Highest grade: 90";
            Line " - Lowest grade: 70"])).
Proof.
  split; [| split; [| split]].
  - unfold stats_for. by rewrite filtered_students_graded.
  - intros l1 s l2 -> Hs. unfold report, stats_for.
    by rewrite (filtered_students_skip _ _ _ _ Hs).
  - intros w Hrec Hne.
    by destruct (show_stats_prints subject_filter w students Hrec Hne)
      as (_ & ? & ?).
  - vm_compute. reflexivity.
Qed.

(** C6, at three graded Math records around one of unknown grade. *)
Lemma stats_exclude_unknown_witness :
  let students :=
    [Student 1 "Ann" "Math" (Some 70); Student 3 "Cy" "Math" None;
     Student 2 "Bo" "Math" (Some 80); Student 4 "Di" "Math" (Some 90)] in
  stats_for (Some "Math") students
  = Done (Stats 3 (MeanInt 80) 90 70)
  /\ (report (Some "Math") students).1
     = [Line "Statistics for subject: Math"; Line " - Count: 3";
        Line " - Average grade: 80.00"; Line " - Highest grade: 90";
        Line " - Lowest grade: 70"].
Proof.
  intros students.
  destruct (stats_exclude_unknown (Some "Math") students) as (_ & Hskip & _).
  destruct (Hskip [Student 1 "Ann" "Math" (Some 70)]
             (Student 3 "Cy" "Math" None)
             [Student 2 "Bo" "Math" (Some 80);
              Student 4 "Di" "Math" (Some 90)] eq_refl eq_refl)
    as [-> ->].
  split; vm_compute; reflexivity.
Defined.

(** C7: under a non-empty subject filter a record of the store is kept for
    the statistics exactly when its subject is the filter up to the case
    of its letters (and its grade is known): the two texts have the same
    length and, place by place, the same character or the capital and the
    small form of one letter; the comparison is on the whole text, so the
    filter math keeps the subjects Math and MATH and keeps neither
    Mathematics, nor Mat, nor Moth. *)
Theorem subject_filter_exact (f : string) (students : list student)
    (s : student) :
  PyStr.is_empty f = false ->
  (s ∈ filtered_students (Some f) students <->
   s ∈ students /\ eq_ignore_case (subject s) f = true
   /\ grade s <> None)
  /\ (eq_ignore_case (subject s) f = true ->
      String.length (subject s) = String.length f)
  /\ (forall i n g, subject_matches "math" (Student i n "Math" g) = true)
  /\ (forall i n g, subject_matches "math" (Student i n "MATH" g) = true)
  /\ (forall i n g,
        subject_matches "math" (Student i n "Mathematics" g) = false)
  /\ (forall i n g, subject_matches "math" (Student i n "Mat" g) = false)
  /\ (forall i n g, subject_matches "math" (Student i n "Moth" g) = false).
Proof.
  intros Hf. split; [| split; [apply eq_ignore_case_length |]].
  2:{ repeat split; intros; reflexivity. }
  unfold filtered_students. rewrite Hf.
  rewrite !list_elem_of_In, filter_In, andb_true_iff.
  unfold subject_matches, has_grade.
  rewrite String.eqb_eq, lower_eq_ignore_case.
  destruct (grade s); split; intros (? & ? & ?); try done.
Qed.

(** C7, at the filter math over the subjects Math and Mathematics. *)
Lemma subject_filter_exact_witness :
  let students :=
    [Student 1 "Ann" "Math" (Some 70);
     Student 2 "Bo" "Mathematics" (Some 80)] in
  Student 1 "Ann" "Math" (Some 70) ∈ filtered_students (Some "math") students
  /\ ~ Student 2 "Bo" "Mathematics" (Some 80)
       ∈ filtered_students (Some "math") students.
Proof.
  intros students. split.
  - apply (subject_filter_exact "math" students); [reflexivity |].
    split; [apply list_elem_of_here |]. split; [reflexivity | discriminate].
  - intros Hin.
    apply (subject_filter_exact "math" students) in Hin; [| reflexivity].
    destruct Hin as (_ & Hlow & _). vm_compute in Hlow. discriminate Hlow.
Defined.

End Statistics.

(* --------------------------------------------------------------------- *)
(* The record store at its edges                                         *)
(* --------------------------------------------------------------------- *)

Section StoreEdges.

Local Arguments PyStr.strip : simpl never.
Local Arguments PyStr.int : simpl never.

(** X1: ensure_file is idempotent: it leaves an existing file, the pending
    input and the output alone, creates an absent file with the header
    alone, and never changes the records the store holds (none, when the
    file was absent). *)
Theorem ensure_file_idempotent (w : world) :
  run ensure_file (run ensure_file w) = run ensure_file w
  /\ (file w <> None -> run ensure_file w = w)
  /\ (file w = None ->
      run ensure_file w = World (Some [FIELDNAMES]) (stdin w) (stdout w)
      /\ records w = Done [])
  /\ records (run ensure_file w) = records w.
Proof.
  split; [by destruct w as [[f |] i o] |].
  split; [by destruct w as [[f |] i o] |].
  split; [| apply records_ensured].
  destruct w as [[f |] i o]; [done |]. intros _. split; [done |].
  by vm_compute.
Qed.

(** X1, witness: a world without a file and one with a file. *)
Lemma ensure_file_idempotent_witness :
  (let w := World None ["a"] [] in
   run ensure_file w = World (Some [FIELDNAMES]) ["a"] []
   /\ records w = Done [])
  /\ (let w := World (Some [["x"]]) [] [] in run ensure_file w = w).
Proof.
  split.
  - intros w.
    destruct (ensure_file_idempotent w) as (_ & _ & Hnew & _).
    apply Hnew. reflexivity.
  - intros w.
    destruct (ensure_file_idempotent w) as (_ & Hold & _).
    apply Hold. discriminate.
Defined.

(* A row passes the reader when no cell of it is beyond the limit. *)
Lemma row_ok_cells (r : csv_row) :
  row_ok r = true
  <-> forall c, c ∈ r -> Z.of_nat (String.length c) <= 131072.
Proof.
  unfold row_ok. rewrite forallb_forall. split.
  - intros H c Hc%list_elem_of_In. specialize (H c Hc).
    by apply Z.leb_le in H.
  - intros H c Hc%list_elem_of_In. apply Z.leb_le. by apply H.
Qed.

(* The rows DictReader passes on, for a file whose rows are split. *)
Lemma DictReader_app (rows1 rows2 : csv_file) :
  DictReader (FIELDNAMES :: rows1 ++ rows2)
  = DictReader (FIELDNAMES :: rows1)
    ++ ((fun r : csv_row =>
           if row_ok r then Done (dict_of_row FIELDNAMES r)
           else Raised CsvError)
        <$> filter (fun r : csv_row => r ≠ []) rows2).
Proof.
  unfold DictReader.
  replace (row_ok FIELDNAMES) with true by (by vm_compute).
  by rewrite filter_app, fmap_app.
Qed.

Lemma records_of_file (f : csv_file) (i : list string) (o : list out) :
  records (World (Some f) i o) = load_rows (DictReader f) [].
Proof. by rewrite records_unfold. Qed.

(* Under the header of the program the first cell of a row is its id. *)
Lemma dict_id_lookup (a : string) (rest : list string) :
  dict_of_row FIELDNAMES (a :: rest) !! Some "id" = Some (VStr a)
  /\ dict_of_row FIELDNAMES (a :: rest) <> ∅.
Proof.
  assert (H : dict_of_row FIELDNAMES (a :: rest) !! Some "id"
              = Some (VStr a)).
  { destruct rest as [| b [| c [| d [| e extra]]]];
      unfold dict_of_row; cbn; by simplify_map_eq. }
  split; [done |]. intros He. rewrite He in H. by rewrite lookup_empty in H.
Qed.

Lemma load_row_bad_id (a : string) (rest : list string) :
  PyStr.int a = None ->
  load_row (dict_of_row FIELDNAMES (a :: rest)) = Done None.
Proof.
  intros Ha. unfold load_row.
  destruct (dict_id_lookup a rest) as [-> _]. cbn [int_of_val]. rewrite Ha.
  by destruct (_ || _).
Qed.

(** X2: a row whose id cell is blank or does not parse as an integer (and
    none of whose cells is beyond the reader's limit of 131072 characters)
    is passed over in silence, whatever its other cells and wherever it
    stands: the store holds what it holds without that row. *)
Theorem load_students_skips_bad_id (rows1 rows2 : csv_file) (a : string)
    (rest i : list string) (o : list out) :
  PyStr.int a = None ->
  (forall c, c ∈ a :: rest -> Z.of_nat (String.length c) <= 131072) ->
  records (World (Some (FIELDNAMES :: rows1 ++ (a :: rest) :: rows2)) i o)
  = records (World (Some (FIELDNAMES :: rows1 ++ rows2)) i o).
Proof.
  intros Ha Hok%row_ok_cells.
  rewrite !records_of_file, !DictReader_app, !load_rows_app.
  destruct (load_rows (DictReader (FIELDNAMES :: rows1)) []) as [l |];
    [| done].
  rewrite filter_cons_True by done. cbn [fmap list_fmap]. rewrite Hok.
  cbn [load_rows]. by rewrite (load_row_bad_id _ _ Ha).
Qed.

(** X2, witness: a row with a non-numeric id between two good rows. *)
Lemma load_students_skips_bad_id_witness :
  records (World (Some (FIELDNAMES :: [["1"; "Ann"; "Math"; "70"]]
                        ++ ["x7"; "Bo"] :: [["2"; "Cy"; "Art"; "81"]]))
             [] [])
  = Done [Student 1 "Ann" "Math" (Some 70); Student 2 "Cy" "Art" (Some 81)].
Proof.
  rewrite (load_students_skips_bad_id
             [["1"; "Ann"; "Math"; "70"]] [["2"; "Cy"; "Art"; "81"]]
             "x7" ["Bo"] [] []).
  - by vm_compute.
  - by vm_compute.
  - intros c Hc. apply (row_ok_cells ["x7"; "Bo"]); [by vm_compute | done].
Defined.

Lemma int_some_nonempty (a : string) (z : Z) :
  PyStr.int a = Some z -> PyStr.is_empty a = false.
Proof. by destruct a. Qed.

Lemma load_row_short (a : string) (rest : list string) (sid : Z) :
  PyStr.int a = Some sid -> (length rest < 3)%nat ->
  load_row (dict_of_row FIELDNAMES (a :: rest)) = Raised AttributeError.
Proof.
  intros Ha Hlen. unfold load_row.
  destruct (dict_id_lookup a rest) as [Hid Hne]. rewrite Hid.
  rewrite (bool_decide_eq_false_2 _ Hne). cbn [truthy int_of_val orb].
  rewrite (int_some_nonempty _ _ Ha), Ha. cbn [negb].
  assert (Hg : dict_of_row FIELDNAMES (a :: rest) !! Some "grade"
               = Some VNone).
  { destruct rest as [| b [| c [| d extra]]];
      [| | | cbn in Hlen; lia];
      unfold dict_of_row; cbn; by simplify_map_eq. }
  unfold get_strip. by rewrite Hg.
Qed.

Lemma list_students_load_fails (w : world) (e : exn) (limit : nat) :
  records w = Raised e ->
  list_students None limit w = (Raised e, ensured w).
Proof.
  intros Hrec. unfold list_students, bind.
  by rewrite load_students_unfold, <- records_unfold, Hrec.
Qed.

Lemma show_stats_load_fails (w : world) (e : exn)
    (subject_filter : option string) :
  records w = Raised e ->
  show_stats subject_filter w = (Raised e, ensured w).
Proof.
  intros Hrec. unfold show_stats, bind.
  by rewrite load_students_unfold, <- records_unfold, Hrec.
Qed.

(** X3: a row with a usable id but fewer than four cells (none of them
    beyond the reader's limit of 131072 characters) makes load_students
    raise AttributeError (the missing grade is None, which has no strip),
    once the rows before it have been read; add, delete, list and stats
    then all stop on that error before asking or writing anything. *)
Theorem load_students_short_row_raises (rows1 rows2 : csv_file)
    (a : string) (rest i : list string) (o : list out) (sid : Z)
    (l : list student) :
  PyStr.int a = Some sid -> (length rest < 3)%nat ->
  (forall c, c ∈ a :: rest -> Z.of_nat (String.length c) <= 131072) ->
  records (World (Some (FIELDNAMES :: rows1)) i o) = Done l ->
  let w := World (Some (FIELDNAMES :: rows1 ++ (a :: rest) :: rows2)) i o in
  records w = Raised AttributeError
  /\ add_student w = (Raised AttributeError, w)
  /\ delete_student w = (Raised AttributeError, w)
  /\ list_students None 20 w = (Raised AttributeError, w)
  /\ forall subject_filter,
       show_stats subject_filter w = (Raised AttributeError, w).
Proof.
  intros Ha Hlen Hok%row_ok_cells Hpre w.
  assert (Hrec : records w = Raised AttributeError).
  { unfold w. rewrite records_of_file in *.
    rewrite DictReader_app, load_rows_app, Hpre.
    rewrite filter_cons_True by done. cbn [fmap list_fmap]. rewrite Hok.
    cbn [load_rows]. by rewrite (load_row_short _ _ _ Ha Hlen). }
  assert (Hw : ensured w = w) by done.
  split; [done |]. rewrite <- Hw at 2 4 6.
  split; [by apply add_student_load_fails |].
  split; [by apply delete_student_load_fails |].
  split; [by apply list_students_load_fails |].
  intros f. rewrite <- Hw at 2. by apply show_stats_load_fails.
Qed.

(** X3, witness: a row cut after the subject, behind one good row. *)
Lemma load_students_short_row_raises_witness :
  records (World (Some (FIELDNAMES :: [["1"; "Ann"; "Math"; "70"]]
                        ++ ["2"; "Bo"; "Art"] :: [])) [] [])
  = Raised AttributeError.
Proof.
  apply (load_students_short_row_raises [["1"; "Ann"; "Math"; "70"]] []
           "2" ["Bo"; "Art"] [] [] 2 [Student 1 "Ann" "Math" (Some 70)]).
  - by vm_compute.
  - cbn. lia.
  - intros c Hc.
    apply (row_ok_cells ["2"; "Bo"; "Art"]); [by vm_compute | done].
  - by vm_compute.
Defined.

(* load_row looks at nothing of a non-empty dict but its four fields. *)
Lemma load_row_agree (row1 row2 : row_dict) :
  row1 <> ∅ -> row2 <> ∅ ->
  (forall k, k ∈ FIELDNAMES -> row1 !! Some k = row2 !! Some k) ->
  load_row row1 = load_row row2.
Proof.
  intros H1 H2 Hk. unfold load_row, get_strip.
  rewrite (bool_decide_eq_false_2 _ H1), (bool_decide_eq_false_2 _ H2).
  rewrite (Hk "id"), (Hk "grade"), (Hk "name"), (Hk "subject");
    [done | | | |]; unfold FIELDNAMES;
    repeat first [apply list_elem_of_here | apply list_elem_of_further].
Qed.

(** X4: cells beyond the fourth are ignored as long as the reader accepts
    them: a row with surplus cells, none of them beyond the limit of
    131072 characters, is read as the row of its first four cells; a
    surplus cell beyond the limit makes the load raise the reader's
    error. *)
Theorem load_students_ignores_surplus (rows1 rows2 : csv_file)
    (a b c d e : string) (extra i : list string) (o : list out) :
  (forall x, x ∈ e :: extra -> Z.of_nat (String.length x) <= 131072) ->
  records (World (Some (FIELDNAMES
                        :: rows1 ++ (a :: b :: c :: d :: e :: extra) :: rows2))
             i o)
  = records (World (Some (FIELDNAMES :: rows1 ++ [a; b; c; d] :: rows2)) i o)
  /\ records (World (Some [FIELDNAMES;
                           ["1"; "Ann"; "Math"; "70";
                            dashes (Z.to_nat 131073)]]) i o)
     = Raised CsvError.
Proof.
  intros Hok%row_ok_cells. split; [| by vm_compute].
  rewrite !records_of_file, !DictReader_app, !load_rows_app.
  destruct (load_rows (DictReader (FIELDNAMES :: rows1)) []) as [l |];
    [| done].
  rewrite !filter_cons_True by done. cbn [fmap list_fmap].
  assert (Hsame : row_ok (a :: b :: c :: d :: e :: extra)
                  = row_ok [a; b; c; d]).
  { unfold row_ok in *. cbn [forallb] in *. rewrite Hok.
    by rewrite !andb_true_r. }
  rewrite Hsame. destruct (row_ok [a; b; c; d]); [| done].
  cbn [load_rows].
  rewrite (load_row_agree
             (dict_of_row FIELDNAMES (a :: b :: c :: d :: e :: extra))
             (dict_of_row FIELDNAMES [a; b; c; d])); [done | | |].
  - apply dict_id_lookup.
  - apply dict_id_lookup.
  - intros k Hk. unfold FIELDNAMES in Hk.
    repeat (apply elem_of_cons in Hk as [-> | Hk];
            [unfold dict_of_row; cbn; by simplify_map_eq |]).
    inversion Hk.
Qed.

(** X4, at a row with two surplus cells. *)
Lemma load_students_ignores_surplus_witness :
  records (World (Some (FIELDNAMES
                        :: [] ++ ["1"; "Ann"; "Math"; "70"; "x"; "y"] :: []))
             [] [])
  = Done [Student 1 "Ann" "Math" (Some 70)].
Proof.
  destruct (load_students_ignores_surplus [] [] "1" "Ann" "Math" "70" "x"
              ["y"] [] []) as [-> _].
  - intros x Hx. apply (row_ok_cells ["x"; "y"]); [by vm_compute | done].
  - by vm_compute.
Defined.

(** X5: every record load_students returns has a name and a subject without
    surrounding whitespace: strip leaves them as they are. *)
Theorem load_students_trims (w : world) (students : list student) :
  records w = Done students ->
  Forall (fun s => PyStr.strip (name s) = name s
                   /\ PyStr.strip (subject s) = subject s) students.
Proof.
  intros Hrec. apply records_trimmed, fmap_fixed in Hrec.
  eapply Forall_impl; [exact Hrec |].
  intros s Hs. unfold trimmed in Hs. destruct s as [i n sj g].
  cbn [id name subject grade] in *. by injection Hs as -> ->.
Qed.

(** X5, witness: cells padded with spaces come back bare. *)
Lemma load_students_trims_witness :
  Forall (fun s => PyStr.strip (name s) = name s
                   /\ PyStr.strip (subject s) = subject s)
    [Student 1 "Ann" "Math" (Some 70)].
Proof.
  apply (load_students_trims
           (World (Some [FIELDNAMES; ["1"; "  Ann "; " Math  "; " 70"]])
              [] [])).
  by vm_compute.
Defined.

(** X6: writing back the records just loaded changes no record: a load after
    that save returns the same list. *)
Theorem load_save_load (w : world) (students : list student) :
  records w = Done students ->
  records (run (save_students students) w) = Done students.
Proof.
  intros Hrec. by apply (records_resaved w _ students).
Qed.

(** X6, witness: a file with a bad row, padded cells and a blank grade,
    rewritten. *)
Lemma load_save_load_witness :
  let w := World (Some [FIELDNAMES; ["1"; " Ann"; "Math "; "70"];
                        ["oops"; "x"; "y"; "1"]; ["3"; "Cy"; "Art"; " "]])
             [] [] in
  records (run (save_students [Student 1 "Ann" "Math" (Some 70);
                               Student 3 "Cy" "Art" None]) w)
  = Done [Student 1 "Ann" "Math" (Some 70); Student 3 "Cy" "Art" None].
Proof.
  intros w. apply load_save_load. by vm_compute.
Defined.

End StoreEdges.

(* --------------------------------------------------------------------- *)
(* Every run of add and of delete                                        *)
(* --------------------------------------------------------------------- *)

Section Mutations.

Local Arguments PyStr.strip : simpl never.
Local Arguments PyStr.int : simpl never.
Local Arguments PyStr.str : simpl never.
Local Arguments PyStr.lower : simpl never.
Local Arguments next_id : simpl never.
Local Arguments String.app : simpl never.
Local Arguments listing : simpl never.

(* Input that ends before the grade has been read stops add_student on
   EOFError with nothing written. *)
Lemma add_student_eof (w : world) (students : list student)
    (name_in : string) (r : list string) :
  records w = Done students -> stdin w = name_in :: r ->
  PyStr.strip name_in <> EmptyString -> (length r < 2)%nat ->
  exists w',
    add_student w = (Raised EOFError, w') /\ file w' = file (ensured w).
Proof.
  intros Hrec Hin Hname Hlen. unfold add_student, bind at 1 2.
  rewrite load_students_unfold, <- records_unfold, Hrec, ensured_eq.
  unfold input at 1. cbn [stdin stdout file]. rewrite Hin.
  destruct (PyStr.strip name_in) as [| c s] eqn:E; [done |].
  cbn [PyStr.is_empty].
  destruct r as [| subject_in [| grade_in rest]];
    [| | cbn in Hlen; lia];
    cbv beta iota zeta delta [bind input file stdin stdout fst snd];
    by eexists.
Qed.

(* What a run of add_student makes of a loadable store. *)
Lemma add_student_cases (w : world) (students : list student) :
  records w = Done students ->
  file (run add_student w) = file (ensured w)
  \/ exists name_in subject_in grade_in rest g,
       stdin w = name_in :: subject_in :: grade_in :: rest
       /\ PyStr.strip name_in <> EmptyString
       /\ PyStr.int (PyStr.strip grade_in) = Some g /\ 0 <= g <= 100.
Proof.
  intros Hrec. destruct (stdin w) as [| name_in r] eqn:Hin.
  { left. unfold run.
    by rewrite (add_student_no_input _ _ Hrec Hin), ensured_eq. }
  destruct (decide (PyStr.strip name_in = EmptyString)) as [He | Hne].
  { left. unfold run.
    by rewrite (add_student_empty_name _ _ _ _ Hrec Hin He), ensured_eq. }
  destruct r as [| subject_in [| grade_in rest]].
  - left.
    destruct (add_student_eof w students name_in [] Hrec Hin Hne)
      as (w' & Hw' & Hf); [cbn; lia |].
    unfold run. by rewrite Hw'.
  - left.
    destruct (add_student_eof w students name_in [subject_in] Hrec Hin Hne)
      as (w' & Hw' & Hf); [cbn; lia |].
    unfold run. by rewrite Hw'.
  - destruct (PyStr.int (PyStr.strip grade_in)) as [g |] eqn:Hg.
    + destruct (decide (0 <= g <= 100)) as [Hr | Hr].
      * right. by exists name_in, subject_in, grade_in, rest, g.
      * left. assert (Hbad : (g <? 0) || (g >? 100) = true) by lia.
        unfold run.
        rewrite (add_student_asks _ _ _ _ _ _ Hrec Hin Hne), ensured_eq.
        cbv zeta. by rewrite Hg, Hbad.
    + left. unfold run.
      rewrite (add_student_asks _ _ _ _ _ _ Hrec Hin Hne), ensured_eq.
      cbv zeta. by rewrite Hg.
Qed.

Lemma records_of_kept_file (w w' : world) :
  file w' = file (ensured w) -> records w' = records w.
Proof.
  intros Hf. rewrite <- (records_ensured w). apply records_same_rows.
  unfold rows_of. by rewrite Hf.
Qed.

(* The subject add records is within the limit when the entry is. *)
Lemma length_subject_or (subject_in : string) :
  Z.of_nat (String.length subject_in) <= 131072 ->
  Z.of_nat (String.length (str_or (PyStr.strip subject_in) "General"))
  <= 131072.
Proof.
  intros H. pose proof (length_strip subject_in). unfold str_or.
  destruct (PyStr.is_empty (PyStr.strip subject_in)); [by vm_compute | lia].
Qed.

(* The record add makes of entries within the limit can be read back. *)
Lemma typed_student_storable (students : list student)
    (name_in subject_in : string) (g : Z) :
  Z.of_nat (String.length name_in) <= 131072 ->
  Z.of_nat (String.length subject_in) <= 131072 ->
  Z.of_nat (String.length (PyStr.str (next_id students))) <= 131072 ->
  0 <= g <= 100 ->
  storable (Student (next_id students) (PyStr.strip name_in)
              (str_or (PyStr.strip subject_in) "General") (Some g)).
Proof.
  intros Hname Hsubj Hid Hg. apply new_student_storable; [done | | | done].
  - pose proof (length_strip name_in). lia.
  - by apply length_subject_or.
Qed.

(** X7: whatever is typed, a run of add on a loadable store either leaves
    the records as they were or writes the file of the records with
    exactly one record appended, whose id is next_id of the records, whose
    name and subject are non-empty and trimmed, and whose grade is an
    integer of [0,100]; the store then holds the records with the new one
    appended when no cell of the new row is beyond the reader's limit of
    131072 characters, and cannot be loaded any more when one is. *)
Theorem add_student_appends_valid (w : world) (students : list student) :
  records w = Done students ->
  records (run add_student w) = Done students
  \/ exists new_student g,
       file (run add_student w)
       = Some (FIELDNAMES :: (row_of_student <$> students ++ [new_student]))
       /\ id new_student = next_id students
       /\ name new_student <> EmptyString
       /\ PyStr.strip (name new_student) = name new_student
       /\ subject new_student <> EmptyString
       /\ PyStr.strip (subject new_student) = subject new_student
       /\ grade new_student = Some g /\ 0 <= g <= 100
       /\ ((forall c, c ∈ row_of_student new_student ->
                      Z.of_nat (String.length c) <= 131072) ->
           records (run add_student w) = Done (students ++ [new_student]))
       /\ ((exists c, c ∈ row_of_student new_student
                      /\ 131072 < Z.of_nat (String.length c)) ->
           records (run add_student w) = Raised CsvError).
Proof.
  intros Hrec.
  destruct (add_student_cases w students Hrec)
    as [Hkept | (name_in & subject_in & grade_in & rest & g
                 & Hin & Hname & Hg & Hrange)].
  - left. by rewrite (records_of_kept_file _ _ Hkept).
  - right.
    destruct (add_student_success w students name_in subject_in grade_in
                rest g Hrec Hin Hname Hg Hrange) as [Hfile Hnew].
    eexists _, g. split; [exact Hfile |]. cbn [id name subject grade].
    split; [done |]. split; [done |]. split; [apply strip_idemp |].
    split; [unfold str_or; by destruct (PyStr.strip subject_in) |].
    split.
    { unfold str_or.
      destruct (PyStr.is_empty (PyStr.strip subject_in));
        [by vm_compute | apply strip_idemp]. }
    split; [done |]. split; [done |]. split.
    + intros Hcells. by apply Hnew, storable_cells.
    + intros (c & Hc & Hlong).
      apply (records_of_unreadable_file _ _ _ Hfile);
        [by apply (records_storable w) |].
      intros Hok. rewrite storable_cells in Hok. specialize (Hok c Hc). lia.
Qed.

(** X7, witness: an add that goes through, on an empty store. *)
Lemma add_student_appends_valid_witness :
  let w := World None ["Ada"; "CS"; "95"] [] in
  records (run add_student w) = Done [Student 1 "Ada" "CS" (Some 95)]
  /\ (records (run add_student w) = Done []
      \/ exists new_student g,
           file (run add_student w)
           = Some (FIELDNAMES :: (row_of_student <$> [] ++ [new_student]))
           /\ id new_student = next_id []
           /\ name new_student <> EmptyString
           /\ PyStr.strip (name new_student) = name new_student
           /\ subject new_student <> EmptyString
           /\ PyStr.strip (subject new_student) = subject new_student
           /\ grade new_student = Some g /\ 0 <= g <= 100
           /\ ((forall c, c ∈ row_of_student new_student ->
                          Z.of_nat (String.length c) <= 131072) ->
               records (run add_student w) = Done ([] ++ [new_student]))
           /\ ((exists c, c ∈ row_of_student new_student
                          /\ 131072 < Z.of_nat (String.length c)) ->
               records (run add_student w) = Raised CsvError)).
Proof.
  intros w. split; [by vm_compute |].
  apply add_student_appends_valid. by vm_compute.
Defined.

Lemma next_id_above (students : list student) (s : student) :
  s ∈ students -> id s < next_id students.
Proof.
  intros Hs. assert (Hne : students <> []) by (intros ->; inversion Hs).
  destruct (next_id_max students Hne) as [_ Hall]. by apply Hall.
Qed.

Lemma next_id_fresh (students : list student) :
  next_id students ∉ id <$> students.
Proof.
  intros (s & Hs & Hin)%list_elem_of_fmap.
  pose proof (next_id_above _ _ Hin). lia.
Qed.

(** X8: when no line typed, and not the text of the next id, is beyond
    the reader's limit of 131072 characters, a run of add keeps the store
    in shape: the records it found stay in front, unchanged; ids that were
    pairwise distinct stay so; and grades that were all known to lie in
    [0,100] or unknown stay so. *)
Theorem add_student_keeps_invariants (w : world)
    (students : list student) :
  records w = Done students ->
  (forall l, l ∈ stdin w -> Z.of_nat (String.length l) <= 131072) ->
  Z.of_nat (String.length (PyStr.str (next_id students))) <= 131072 ->
  exists after,
    records (run add_student w) = Done after
    /\ students `prefix_of` after
    /\ (NoDup (id <$> students) -> NoDup (id <$> after))
    /\ (Forall (fun s => forall g, grade s = Some g -> 0 <= g <= 100)
          students ->
        Forall (fun s => forall g, grade s = Some g -> 0 <= g <= 100)
          after).
Proof.
  intros Hrec Hlines Hid.
  destruct (add_student_cases w students Hrec)
    as [Hkept | (name_in & subject_in & grade_in & rest & g
                 & Hin & Hname & Hg & Hrange)].
  - exists students. by rewrite (records_of_kept_file _ _ Hkept).
  - destruct (add_student_success w students name_in subject_in grade_in
                rest g Hrec Hin Hname Hg Hrange) as [_ Hnew].
    rewrite Hin in Hlines.
    assert (Hok : storable (Student (next_id students) (PyStr.strip name_in)
                              (str_or (PyStr.strip subject_in) "General")
                              (Some g))).
    { apply typed_student_storable; [| | done | done]; apply Hlines.
      - apply list_elem_of_here.
      - apply list_elem_of_further, list_elem_of_here. }
    eexists. split; [exact (Hnew Hok) |]. split; [by eexists |]. split.
    + intros Hnd. rewrite fmap_app. apply NoDup_app.
      split; [done |]. split; [| apply NoDup_singleton].
      intros k Hk [-> | Hno]%elem_of_cons; [| inversion Hno].
      by apply (next_id_fresh students).
    + intros Hall. apply Forall_app. split; [done |].
      constructor; [| constructor]. cbn [grade]. by intros ? [= <-].
Qed.

(** X8, witness: an add over two records with distinct ids and grades in
    range. *)
Lemma add_student_keeps_invariants_witness :
  let w := World (Some [FIELDNAMES; ["1"; "Ann"; "Math"; "70"];
                        ["4"; "Cy"; "Art"; " "]])
             ["Eve"; "CS"; "88"] [] in
  exists after,
    records (run add_student w) = Done after
    /\ NoDup (id <$> after)
    /\ Forall (fun s => forall g, grade s = Some g -> 0 <= g <= 100) after.
Proof.
  intros w.
  destruct (add_student_keeps_invariants w
              [Student 1 "Ann" "Math" (Some 70); Student 4 "Cy" "Art" None])
    as (after & Hafter & _ & Hnd & Hall).
  { by vm_compute. }
  { intros l Hl. apply (row_ok_cells ["Eve"; "CS"; "88"]); by vm_compute. }
  { by vm_compute. }
  exists after. split; [done |]. split.
  - apply Hnd. cbn.
    repeat (apply NoDup_cons; split; [set_unfold; lia |]). apply NoDup_nil.
    done.
  - apply Hall.
    constructor; [cbn [grade]; intros g [= <-]; lia |].
    constructor; [cbn [grade]; intros g [=] | constructor].
Defined.

(* Input that ends before the id or the confirmation has been read stops
   delete_student on EOFError with nothing written. *)
Lemma delete_student_eof_id (w : world) (students : list student) :
  records w = Done students -> students <> [] -> stdin w = [] ->
  exists w',
    delete_student w = (Raised EOFError, w') /\ file w' = file (ensured w).
Proof.
  intros Hrec Hne Hin. unfold delete_student, bind at 1.
  rewrite load_students_unfold, <- records_unfold, Hrec, ensured_eq.
  destruct students as [| s0 rest0] eqn:Hst; [done |]. rewrite <- Hst in *.
  unfold bind at 1. rewrite (list_students_given _ _ _ Hne).
  unfold bind at 1, input at 1. cbn [file stdin stdout]. rewrite Hin.
  by eexists.
Qed.

Lemma delete_student_eof_confirm (w : world) (students : list student)
    (sid_in : string) (k : Z) (target : student) :
  records w = Done students -> stdin w = [sid_in] ->
  PyStr.int (PyStr.strip sid_in) = Some k ->
  find_by_id k students = Some target ->
  exists w',
    delete_student w = (Raised EOFError, w') /\ file w' = file (ensured w).
Proof.
  intros Hrec Hin Hk Hfind.
  assert (Hne : students <> []) by (intros ->; discriminate Hfind).
  rewrite (delete_student_asks _ _ _ _ Hrec Hne Hin), ensured_eq. cbv zeta.
  rewrite Hk, Hfind.
  cbv beta iota zeta delta [bind input file stdin stdout snd].
  by eexists.
Qed.

(* What a run of delete_student makes of a loadable store. *)
Lemma delete_student_cases (w : world) (students : list student) :
  records w = Done students ->
  file (run delete_student w) = file (ensured w)
  \/ exists sid_in confirm_in rest k,
       stdin w = sid_in :: confirm_in :: rest
       /\ PyStr.int (PyStr.strip sid_in) = Some k
       /\ k ∈ id <$> students
       /\ PyStr.lower (PyStr.strip confirm_in) = "yes".
Proof.
  intros Hrec.
  destruct (decide (students = [])) as [-> | Hne].
  { left. unfold run. by rewrite (delete_student_empty _ Hrec), ensured_eq. }
  destruct (stdin w) as [| sid_in r] eqn:Hin.
  { left. destruct (delete_student_eof_id w students Hrec Hne Hin)
      as (w' & Hw' & Hf). unfold run. by rewrite Hw'. }
  destruct (PyStr.int (PyStr.strip sid_in)) as [k |] eqn:Hk.
  2:{ left. apply (delete_student_no_target w students sid_in r Hrec Hin).
      intros k Hk'. congruence. }
  destruct (decide (k ∈ id <$> students)) as [Hin_k | Hout].
  2:{ left. apply (delete_student_no_target w students sid_in r Hrec Hin).
      intros k' Hk'. congruence. }
  destruct (find_by_id_present _ _ Hin_k) as [target Hfind].
  destruct r as [| confirm_in rest].
  { left. destruct (delete_student_eof_confirm w students sid_in k target
                      Hrec Hin Hk Hfind) as (w' & Hw' & Hf).
    unfold run. by rewrite Hw'. }
  destruct (decide (PyStr.lower (PyStr.strip confirm_in) = "yes"))
    as [Hyes | Hno].
  - right. by exists sid_in, confirm_in, rest, k.
  - left. by destruct (delete_student_declined w students sid_in confirm_in
                         rest k target Hrec Hin Hk Hfind Hno).
Qed.

Lemma records_after_removal (w w' : world) (students : list student)
    (k : Z) :
  records w = Done students ->
  file w' = Some (FIELDNAMES
                  :: (row_of_student
                      <$> filter (fun s : student => id s ≠ k) students)) ->
  records w' = Done (filter (fun s : student => id s ≠ k) students).
Proof.
  intros Hrec Hf. rewrite (records_of_saved_file _ _ Hf).
  2:{ pose proof (records_storable _ _ Hrec) as Hok.
      rewrite Forall_forall in *. intros s [_ Hs]%list_elem_of_filter.
      by apply Hok. }
  f_equal.
  apply fmap_fixed. apply records_trimmed, fmap_fixed in Hrec.
  rewrite Forall_forall in *. intros s [_ Hs]%list_elem_of_filter.
  by apply Hrec.
Qed.

(** X9: a confirmed delete of a present id k removes every record whose id
    is k, also when several rows of the file carry that id, and keeps the
    records with another id, unchanged and in their order. *)
Theorem delete_student_removes_every_match (w : world)
    (students : list student) (sid_in confirm_in : string)
    (rest : list string) (k : Z) :
  records w = Done students ->
  stdin w = sid_in :: confirm_in :: rest ->
  PyStr.int (PyStr.strip sid_in) = Some k ->
  k ∈ id <$> students ->
  PyStr.lower (PyStr.strip confirm_in) = "yes" ->
  records (run delete_student w)
  = Done (filter (fun s : student => id s ≠ k) students)
  /\ (forall after, records (run delete_student w) = Done after ->
      (k ∉ id <$> after)
      /\ forall s, s ∈ after <-> s ∈ students /\ id s ≠ k).
Proof.
  intros Hrec Hin Hk Hpresent Hyes.
  destruct (find_by_id_present _ _ Hpresent) as [target Hfind].
  destruct (delete_student_confirmed w students sid_in confirm_in rest k
              target Hrec Hin Hk Hfind Hyes) as [Hfile _].
  pose proof (records_after_removal _ _ _ _ Hrec Hfile) as Hafter.
  split; [done |]. intros after. rewrite Hafter. intros [= <-]. split.
  - intros (s & Hs & [Hne _]%list_elem_of_filter)%list_elem_of_fmap.
    by apply Hne.
  - intros s. rewrite list_elem_of_filter. tauto.
Qed.

(** X9, witness: two rows with the id 2: both go. *)
Lemma delete_student_removes_every_match_witness :
  let w := World (Some [FIELDNAMES; ["2"; "Bo"; "Art"; "81"];
                        ["1"; "Ann"; "Math"; "70"];
                        ["2"; "Cy"; "Math"; "90"]])
             ["2"; "yes"] [] in
  records (run delete_student w) = Done [Student 1 "Ann" "Math" (Some 70)].
Proof.
  intros w.
  destruct (delete_student_removes_every_match w
              [Student 2 "Bo" "Art" (Some 81);
               Student 1 "Ann" "Math" (Some 70);
               Student 2 "Cy" "Math" (Some 90)] "2" "yes" [] 2)
    as [Hafter _].
  - by vm_compute.
  - reflexivity.
  - by vm_compute.
  - cbn. apply list_elem_of_here.
  - by vm_compute.
  - rewrite Hafter. by vm_compute.
Defined.

(** X10: whatever is typed, a run of delete on a loadable store only removes:
    the records left are a sublist of the records found, each unchanged,
    and ids that were pairwise distinct stay so. *)
Theorem delete_student_only_removes (w : world)
    (students : list student) :
  records w = Done students ->
  exists after,
    records (run delete_student w) = Done after
    /\ after `sublist_of` students
    /\ (NoDup (id <$> students) -> NoDup (id <$> after)).
Proof.
  intros Hrec.
  assert (Hsub : exists after,
             records (run delete_student w) = Done after
             /\ after `sublist_of` students).
  { destruct (delete_student_cases w students Hrec)
      as [Hkept | (sid_in & confirm_in & rest & k
                   & Hin & Hk & Hpresent & Hyes)].
    - exists students. by rewrite (records_of_kept_file _ _ Hkept).
    - destruct (find_by_id_present _ _ Hpresent) as [target Hfind].
      destruct (delete_student_confirmed w students sid_in confirm_in rest
                  k target Hrec Hin Hk Hfind Hyes) as [Hfile _].
      eexists. split; [by apply (records_after_removal w) |].
      apply sublist_filter. }
  destruct Hsub as (after & Hafter & Hsub). exists after.
  split; [done |]. split; [done |]. intros Hnd.
  eapply sublist_NoDup; [exact Hnd |]. by apply fmap_sublist.
Qed.

(** X10, witness: a declined delete over two records. *)
Lemma delete_student_only_removes_witness :
  let w := World (Some [FIELDNAMES; ["1"; "Ann"; "Math"; "70"];
                        ["2"; "Bo"; "Art"; "81"]])
             ["2"; "no"] [] in
  exists after,
    records (run delete_student w) = Done after
    /\ after `sublist_of` [Student 1 "Ann" "Math" (Some 70);
                           Student 2 "Bo" "Art" (Some 81)].
Proof.
  intros w.
  destruct (delete_student_only_removes w
              [Student 1 "Ann" "Math" (Some 70);
               Student 2 "Bo" "Art" (Some 81)])
    as (after & Hafter & Hsub & _); [by vm_compute |].
  exists after. split; [exact Hafter | exact Hsub].
Defined.

Lemma add_student_success_stdin (w : world) (students : list student)
    (name_in subject_in grade_in : string) (rest : list string) (g : Z) :
  records w = Done students ->
  stdin w = name_in :: subject_in :: grade_in :: rest ->
  PyStr.strip name_in <> EmptyString ->
  PyStr.int (PyStr.strip grade_in) = Some g -> 0 <= g <= 100 ->
  stdin (run add_student w) = rest.
Proof.
  intros Hrec Hin Hname Hg Hrange. unfold run.
  rewrite (add_student_asks _ _ _ _ _ _ Hrec Hin Hname). cbv zeta.
  rewrite Hg.
  assert ((g <? 0) || (g >? 100) = false) as -> by lia.
  reflexivity.
Qed.

(** X11: when the name, the subject and the id are typed on lines of at
    most 131072 characters (the reader's limit), an add followed by the
    confirmed delete of the id it assigned gives back exactly the records
    the store held before (the next add will therefore assign that same id
    again), with both commands having read their five lines of input. *)
Theorem add_then_delete_restores (w : world) (students : list student)
    (name_in subject_in grade_in sid_in confirm_in : string)
    (rest : list string) (g : Z) :
  records w = Done students ->
  stdin w
  = name_in :: subject_in :: grade_in :: sid_in :: confirm_in :: rest ->
  PyStr.strip name_in <> EmptyString ->
  PyStr.int (PyStr.strip grade_in) = Some g -> 0 <= g <= 100 ->
  PyStr.int (PyStr.strip sid_in) = Some (next_id students) ->
  PyStr.lower (PyStr.strip confirm_in) = "yes" ->
  Z.of_nat (String.length name_in) <= 131072 ->
  Z.of_nat (String.length subject_in) <= 131072 ->
  Z.of_nat (String.length sid_in) <= 131072 ->
  (exists new_student,
      records (run add_student w) = Done (students ++ [new_student])
      /\ id new_student = next_id students)
  /\ records (run delete_student (run add_student w)) = Done students
  /\ stdin (run delete_student (run add_student w)) = rest.
Proof.
  intros Hrec Hin Hname Hg Hrange Hsid Hyes Hlen1 Hlen2 Hlen3.
  destruct (add_student_success w students name_in subject_in grade_in
              (sid_in :: confirm_in :: rest) g Hrec Hin Hname Hg Hrange)
    as [_ Hnew].
  assert (Hok : storable (Student (next_id students) (PyStr.strip name_in)
                            (str_or (PyStr.strip subject_in) "General")
                            (Some g))).
  { apply typed_student_storable; [done | done | | done].
    pose proof (length_str_int _ _ Hsid).
    pose proof (length_strip sid_in). lia. }
  specialize (Hnew Hok).
  pose proof (add_student_success_stdin w students name_in subject_in
                grade_in (sid_in :: confirm_in :: rest) g
                Hrec Hin Hname Hg Hrange) as Hin1.
  set (new_student := Student (next_id students) (PyStr.strip name_in)
                        (str_or (PyStr.strip subject_in) "General")
                        (Some g)) in *.
  set (w1 := run add_student w) in *.
  split; [by exists new_student |].
  assert (Hpresent : next_id students ∈ id <$> students ++ [new_student]).
  { rewrite fmap_app. apply elem_of_app. right. apply list_elem_of_here. }
  destruct (find_by_id_present _ _ Hpresent) as [target Hfind].
  assert (Hrun : delete_student w1
            = (Done tt,
               World (Some (FIELDNAMES
                            :: (row_of_student
                                <$> filter (fun s : student =>
                                              id s ≠ next_id students)
                                      (students ++ [new_student]))))
                 rest
                 (stdout w1 ++ listing 50 (students ++ [new_student])
                  ++ [Prompt "Enter student id to delete: ";
                      Prompt ("Delete " +:+ name target +:+ " (id="
                              +:+ PyStr.str (next_id students)
                              +:+ ")? Type 'yes' to confirm: ");
                      Line ("Deleted student id="
                            +:+ PyStr.str (next_id students) +:+ ".")]))).
  { assert (Hne : students ++ [new_student] <> [])
      by (intros H; by apply app_eq_nil in H as [_ ?]).
    rewrite (delete_student_asks _ _ _ _ Hnew Hne Hin1). cbv zeta.
    rewrite Hsid, Hfind.
    cbv beta iota zeta delta
      [bind input save_students write_rows print file stdin stdout snd].
    rewrite Hyes. cbn [String.eqb Ascii.eqb Bool.eqb negb].
    by rewrite <- !app_assoc. }
  unfold run. rewrite Hrun. cbn [snd stdin]. split; [| done].
  assert (Hback : filter (fun s : student => id s ≠ next_id students)
                    (students ++ [new_student]) = students).
  { rewrite filter_app, (filter_keeps_all _ _ (next_id_fresh _)).
    rewrite filter_cons_False by (intros H; by apply H).
    by rewrite app_nil_r. }
  etransitivity;
    [apply (records_after_removal w1 _ _ (next_id students) Hnew);
     reflexivity |].
  by rewrite Hback.
Qed.

(** X11, witness: over the ids 1 and 2: Eve gets 3, 3 is deleted, the store
    is back. *)
Lemma add_then_delete_restores_witness :
  let w := World (Some [FIELDNAMES; ["1"; "Ann"; "Math"; "70"];
                        ["2"; "Bo"; "Art"; "81"]])
             ["Eve"; "CS"; "88"; "3"; "Yes"] [] in
  records (run delete_student (run add_student w))
  = Done [Student 1 "Ann" "Math" (Some 70); Student 2 "Bo" "Art" (Some 81)].
Proof.
  intros w.
  apply (add_then_delete_restores w
           [Student 1 "Ann" "Math" (Some 70); Student 2 "Bo" "Art" (Some 81)]
           "Eve" "CS" "88" "3" "Yes" [] 88).
  - by vm_compute.
  - reflexivity.
  - by vm_compute.
  - by vm_compute.
  - lia.
  - by vm_compute.
  - by vm_compute.
  - by vm_compute.
  - by vm_compute.
  - by vm_compute.
Defined.

End Mutations.

(* --------------------------------------------------------------------- *)
(* The list handler                                                      *)
(* --------------------------------------------------------------------- *)

Section Listing.

Local Arguments dashes : simpl never.
Local Arguments table_header : simpl never.
Local Arguments table_row : simpl never.

Lemma insert_desc_perm (x : student) (l : list student) :
  insert_desc x l ≡ₚ x :: l.
Proof.
  induction l as [| y r IH]; [done |]. cbn [insert_desc].
  destruct (id y <=? id x); [done |].
  rewrite IH. apply perm_swap.
Qed.

Lemma insert_desc_sorted (x : student) (l : list student) :
  StronglySorted (fun a b => id b <= id a) l ->
  StronglySorted (fun a b => id b <= id a) (insert_desc x l).
Proof.
  induction l as [| y r IH]; intros Hs; cbn [insert_desc].
  - repeat constructor.
  - apply StronglySorted_inv in Hs as [Hr Hy].
    destruct (Z.leb_spec (id y) (id x)) as [Hle | Hgt].
    + constructor; [by constructor |].
      constructor; [done |].
      eapply Forall_impl; [exact Hy |]. intros z Hz. cbn in Hz. lia.
    + constructor; [by apply IH |].
      rewrite insert_desc_perm. constructor; [lia | done].
Qed.

Lemma sorted_desc_perm (students : list student) :
  sorted_desc students ≡ₚ students.
Proof.
  induction students as [| s r IH]; [done |].
  cbn [sorted_desc foldr]. rewrite insert_desc_perm. by apply perm_skip.
Qed.

(** X12: the order list_students prints in: sorted_desc rearranges the records
    without losing or adding any, and puts them by id from the largest to
    the smallest. *)
Theorem sorted_desc_sorts (students : list student) :
  sorted_desc students ≡ₚ students
  /\ StronglySorted (fun a b => id b <= id a) (sorted_desc students)
  /\ length (sorted_desc students) = length students.
Proof.
  split; [apply sorted_desc_perm |].
  split; [| by rewrite sorted_desc_perm].
  induction students as [| s r IH]; [constructor |].
  cbn [sorted_desc foldr]. apply insert_desc_sorted, IH.
Qed.

Lemma list_students_loaded (w : world) (students : list student)
    (limit : nat) :
  records w = Done students ->
  list_students None limit w
  = list_students (Some students) limit (ensured w).
Proof.
  intros Hrec. unfold list_students, bind at 1 3.
  by rewrite load_students_unfold, <- records_unfold, Hrec.
Qed.

Lemma list_students_none_given (limit : nat) (w : world) :
  list_students (Some []) limit w
  = (Done tt,
     World (file w) (stdin w) (stdout w ++ [Line "No students to list."])).
Proof. reflexivity. Qed.

(** X13: list_students, given the records, only prints: one message for an
    empty list, otherwise the header, the rule and one row for each of the
    first limit records in descending id order; the file and the pending
    input are left as they were. *)
Theorem list_students_prints (students : list student) (limit : nat)
    (w : world) :
  exists lines,
    list_students (Some students) limit w
    = (Done tt, World (file w) (stdin w) (stdout w ++ lines))
    /\ (students = [] -> lines = [Line "No students to list."])
    /\ (students <> [] ->
        lines = Line table_header :: Line (dashes 50)
                :: ((fun s => Line (table_row s))
                    <$> take limit (sorted_desc students))
        /\ length lines = (2 + Nat.min limit (length students))%nat).
Proof.
  destruct students as [| s r].
  - eexists. split; [apply list_students_none_given |]. by split.
  - eexists. split; [by apply list_students_given |].
    split; [done |]. intros _. split; [done |].
    unfold listing. cbn [length]. rewrite length_fmap, length_take.
    by rewrite sorted_desc_perm.
Qed.

(** X13, witness: three records listed with limit 2: header, rule and two
    rows. *)
Lemma list_students_prints_witness :
  let students :=
    [Student 1 "Ann" "Math" (Some 70); Student 4 "Cy" "Art" None;
     Student 2 "Bo" "Art" (Some 81)] in
  exists lines,
    list_students (Some students) 2 (World None [] [])
    = (Done tt, World None [] ([] ++ lines))
    /\ length lines = 4%nat.
Proof.
  intros students.
  destruct (list_students_prints students 2 (World None [] []))
    as (lines & Hrun & _ & Hrows).
  exists lines. split; [exact Hrun |].
  destruct Hrows as [_ Hlen]; [discriminate |]. exact Hlen.
Defined.

End Listing.

(* --------------------------------------------------------------------- *)
(* What list and stats leave alone, and what stats reports               *)
(* --------------------------------------------------------------------- *)

Section ReadOnly.

Local Arguments PyStr.str : simpl never.
Local Arguments String.app : simpl never.
Local Arguments dashes : simpl never.
Local Arguments table_header : simpl never.
Local Arguments table_row : simpl never.

Lemma show_stats_empty (subject_filter : option string) (w : world) :
  records w = Done [] ->
  show_stats subject_filter w
  = (Done tt,
     World (Some (rows_of w)) (stdin w)
       (stdout w ++ [Line "No students to compute statistics."])).
Proof.
  intros Hrec. unfold show_stats, bind.
  by rewrite load_students_unfold, <- records_unfold, Hrec, ensured_eq.
Qed.

(** X14: list and stats never write and never read input: whatever the store
    holds, loadable or not, and whatever the filter, they leave the file
    as ensure_file left it, the pending input as it was and the records
    of the store as they were. *)
Theorem list_and_stats_read_only (w : world) (limit : nat)
    (subject_filter : option string) :
  (let w' := run (list_students None limit) w in
   file w' = file (ensured w) /\ stdin w' = stdin w
   /\ records w' = records w)
  /\ (let w' := run (show_stats subject_filter) w in
      file w' = file (ensured w) /\ stdin w' = stdin w
      /\ records w' = records w).
Proof.
  assert (Hl : file (run (list_students None limit) w) = file (ensured w)
               /\ stdin (run (list_students None limit) w) = stdin w).
  { unfold run. destruct (records w) as [students | e] eqn:Hrec.
    - rewrite (list_students_loaded _ _ _ Hrec).
      destruct (decide (students = [])) as [-> | Hne].
      + rewrite list_students_none_given. cbn [snd file stdin].
        split; [done | apply ensured_io].
      + rewrite (list_students_given _ _ _ Hne). cbn [snd file stdin].
        split; [done | apply ensured_io].
    - rewrite (list_students_load_fails _ _ _ Hrec).
      split; [done | apply ensured_io]. }
  assert (Hs : file (run (show_stats subject_filter) w) = file (ensured w)
               /\ stdin (run (show_stats subject_filter) w) = stdin w).
  { unfold run. destruct (records w) as [students | e] eqn:Hrec.
    - destruct (decide (students = [])) as [-> | Hne].
      + by rewrite (show_stats_empty _ _ Hrec), ensured_eq.
      + by rewrite (show_stats_unfold _ _ _ Hrec Hne), ensured_eq.
    - rewrite (show_stats_load_fails _ _ _ Hrec).
      split; [done | apply ensured_io]. }
  destruct Hl as [Hl1 Hl2], Hs as [Hs1 Hs2].
  split; cbv zeta; (split; [done |]); (split; [done |]);
    by apply records_of_kept_file.
Qed.

End ReadOnly.

(* --------------------------------------------------------------------- *)
(* The statistics reported                                               *)
(* --------------------------------------------------------------------- *)

Section Figures.

Lemma sum_bounds (r : list Z) (lo hi : Z) :
  forall x n : Z,
    (forall y, y ∈ r -> lo <= y <= hi) ->
    n * lo <= x <= n * hi ->
    (n + Z.of_nat (length r)) * lo <= fold_left Z.add r x
    <= (n + Z.of_nat (length r)) * hi.
Proof.
  induction r as [| a r IH]; intros x n Hall Hx; cbn [fold_left length].
  - by rewrite Z.add_0_r.
  - assert (Ha : lo <= a <= hi) by (apply Hall; left).
    replace (n + Z.of_nat (S (length r)))
      with ((n + 1) + Z.of_nat (length r)) by lia.
    apply IH; [intros y Hy; apply Hall; by right | lia].
Qed.

Lemma fold_left_add_foldr (r : list Z) :
  forall x : Z, fold_left Z.add r x = x + foldr Z.add 0 r.
Proof.
  induction r as [| a r IH]; intros x; cbn [fold_left foldr]; [lia |].
  rewrite IH. lia.
Qed.




(* A quotient of at most 128 in size is within the floats. *)
Lemma binary64_small (num den : Z) :
  0 < den -> Z.abs num <= 128 * den ->
  exists x, PyFloat.binary64 num den = Some x.
Proof.
  intros Hden Hnum. unfold PyFloat.binary64.
  destruct (num =? 0) eqn:E0; [by eexists |].
  apply Z.eqb_neq in E0. cbv zeta.
  set (a := Z.abs num) in *.
  set (k := Z.log2 a - Z.log2 den).
  set (fl := if den * 2 ^ Z.max 0 k <=? a * 2 ^ Z.max 0 (- k)
             then k else k - 1).
  assert (Hk : k <= 7).
  { unfold k.
    assert (Z.log2 a <= Z.log2 (den * 2 ^ 7))
      by (apply Z.log2_le_mono; lia).
    rewrite Z.log2_mul_pow2 in * by lia. lia. }
  assert (Hfl : fl <= 7) by (unfold fl; destruct (_ <=? _); lia).
  set (e := Z.max (fl - 52) (-1074)).
  assert (He : e < 971) by (unfold e; lia).
  assert ((971 <? e) = false) as -> by lia.
  assert ((e =? 971) = false) as -> by lia.
  by eexists.
Qed.

(** X20: when every known grade of the store lies in [0,100], as the grades
    add accepts do, stats cannot fail on its figures: whenever some record
    is kept under the filter there are a count, a mean with a two-decimal
    text, a highest and a lowest grade, the last two in [0,100], and the
    report ends normally. *)
Theorem stats_for_valid_grades (subject_filter : option string)
    (students : list student) :
  (forall s g, s ∈ students -> grade s = Some g -> 0 <= g <= 100) ->
  filtered_students subject_filter students <> [] ->
  exists st avg_text,
    stats_for subject_filter students = Done st
    /\ format_mean (average st) = Some avg_text
    /\ 0 <= lowest st <= highest st /\ highest st <= 100
    /\ (report subject_filter students).2 = Done tt.
Proof.
  intros Hvalid Hkept.
  assert (Hsub : forall s, s ∈ filtered_students subject_filter students ->
                           s ∈ students).
  { intros s. rewrite !list_elem_of_In. unfold filtered_students.
    destruct subject_filter as [f |]; [destruct (PyStr.is_empty f) |];
      rewrite filter_In; tauto. }
  assert (Hall : forall y,
             y ∈ grades_of (filtered_students subject_filter students) ->
             0 <= y <= 100).
  { intros y (s & Hs & Hg)%list_elem_of_omap. apply (Hvalid s); auto. }
  pose proof (grades_of_filtered subject_filter students) as Hlen.
  unfold report, stats_for in *.
  destruct (grades_of (filtered_students subject_filter students))
    as [| g r] eqn:Hgrades.
  { destruct (filtered_students subject_filter students); done. }
  clear Hlen.
  pose proof (sum_bounds r 0 100 g 1
                (fun y Hy => Hall y (list_elem_of_further _ _ _ Hy))
                ltac:(specialize (Hall g (list_elem_of_here _ _)); lia))
    as Hsum.
  assert (Hst : exists avg,
             mean g r = Some avg
             /\ exists avg_text, format_mean avg = Some avg_text).
  { unfold mean.
    set (total := fold_left Z.add r g) in *.
    set (n := Z.of_nat (S (length r))).
    assert (Hn : 0 < n) by (unfold n; lia).
    replace (1 + Z.of_nat (length r)) with n in Hsum by (unfold n; lia).
    destruct (Z.eqb_spec (total mod n) 0) as [Hdiv | Hrem].
    - eexists. split; [done |]. cbn [format_mean].
      assert (Hz : total = n * (total / n)) by (by apply Z.div_exact; lia).
      destruct (binary64_small (total / n) 1) as [x ->]; [lia | nia |].
      by eexists.
    - destruct (binary64_small total n) as [x ->]; [lia | lia |].
      eexists. split; [done |]. by eexists. }
  destruct Hst as (avg & Hmean & avg_text & Htext).
  unfold stats_of. rewrite Hmean. cbn [average]. rewrite Htext.
  eexists _, avg_text. split; [done |]. split; [done |].
  cbn [lowest highest].
  destruct (py_max_spec r g) as (Hmax_in & Hmax_g & Hmax_r).
  destruct (py_min_spec r g) as (Hmin_in & Hmin_g & Hmin_r).
  assert (Hmax : 0 <= py_max g r <= 100).
  { destruct Hmax_in as [-> | Hin];
      [apply Hall; left | by apply Hall; right]. }
  assert (Hmin : 0 <= py_min g r <= 100).
  { destruct Hmin_in as [-> | Hin];
      [apply Hall; left | by apply Hall; right]. }
  repeat split; lia.
Qed.

(** X20, witness: the grades 70 and 81 in Art. *)
Lemma stats_for_valid_grades_witness :
  let students :=
    [Student 1 "Ann" "Art" (Some 70); Student 2 "Bo" "Art" (Some 81);
     Student 3 "Cy" "Math" None] in
  exists st,
    stats_for (Some "art") students = Done st
    /\ format_mean (average st) = Some "75.50".
Proof.
  intros students.
  destruct (stats_for_valid_grades (Some "art") students)
    as (st & avg_text & Hst & Htext & _).
  - intros s g Hs Hg. unfold students in Hs.
    repeat (apply elem_of_cons in Hs as [-> | Hs];
            [cbn [grade] in Hg; (discriminate Hg || (injection Hg as <-; lia))
            |]).
    inversion Hs.
  - by vm_compute.
  - exists st. split; [exact Hst |].
    pose proof Hst as Hval. vm_compute in Hval. injection Hval as <-.
    by vm_compute.
Defined.

End Figures.

(* --------------------------------------------------------------------- *)
(* How the commands fail                                                 *)
(* --------------------------------------------------------------------- *)

Section Failures.

Local Arguments PyStr.strip : simpl never.
Local Arguments PyStr.int : simpl never.
Local Arguments PyStr.str : simpl never.
Local Arguments PyStr.lower : simpl never.
Local Arguments String.app : simpl never.

Context {P : exn -> Prop}.

Lemma raises_ret {A} (a : A) : raises_in P (ret a).
Proof. by intros w e w' [=]. Qed.

Lemma raises_print (s : string) : raises_in P (print s).
Proof. by intros w e w' [=]. Qed.

Lemma raises_save (students : list student) :
  raises_in P (save_students students).
Proof. by intros w e w' [=]. Qed.

Lemma raises_raise {A} (e : exn) : P e -> raises_in P (raise (A := A) e).
Proof. by intros He w e' w' [= <- _]. Qed.

Lemma raises_input (prompt : string) :
  P EOFError -> raises_in P (input prompt).
Proof.
  intros He w e w'. unfold input. destruct (stdin w); [| done].
  by intros [= <- _].
Qed.

Lemma raises_bind {A B} (c : M A) (k : A -> M B) :
  raises_in P c -> (forall a, raises_in P (k a)) -> raises_in P (bind c k).
Proof.
  intros Hc Hk w e w'. unfold bind.
  destruct (c w) as [[a | e1] w1] eqn:E.
  - apply Hk.
  - intros [= <- _]. by apply (Hc w e1 w1).
Qed.

Lemma raises_for_each {A} (xs : list A) (body : A -> M unit) :
  (forall x, raises_in P (body x)) -> raises_in P (for_each xs body).
Proof.
  intros Hb. induction xs as [| x r IH]; cbn [for_each].
  - apply raises_ret.
  - apply raises_bind; [apply Hb | by intros _].
Qed.

End Failures.

Section LoadFailures.

Lemma get_strip_raises (row : row_dict) (key : string) (e : exn) :
  get_strip row key = Raised e -> e = AttributeError.
Proof.
  unfold get_strip. destruct (row !! Some key) as [[s | | l] |]; congruence.
Qed.

Lemma load_row_raises (row : row_dict) (e : exn) :
  load_row row = Raised e -> e = AttributeError.
Proof.
  unfold load_row.
  destruct (bool_decide (row = ∅) || negb (truthy (row !! Some "id")));
    [done |].
  destruct (int_of_val (row !! Some "id")) as [sid |]; [| done].
  destruct (get_strip row "grade") as [g | e1] eqn:Eg;
    [| intros [= <-]; by apply (get_strip_raises _ _ _ Eg)].
  destruct (get_strip row "name") as [n | e1] eqn:En;
    [| intros [= <-]; by apply (get_strip_raises _ _ _ En)].
  destruct (get_strip row "subject") as [sj | e1] eqn:Es;
    [done | intros [= <-]; by apply (get_strip_raises _ _ _ Es)].
Qed.

(* The reader fails with its own error only. *)
Lemma DictReader_raises (f : csv_file) :
  Forall (fun o : outcome row_dict => forall e, o = Raised e -> e = CsvError)
    (DictReader f).
Proof.
  destruct f as [| h rows]; [constructor |]. unfold DictReader.
  destruct (row_ok h); [| constructor; [by intros e [= <-] | constructor]].
  apply Forall_fmap, Forall_forall. intros r _ e. cbn.
  destruct (row_ok r); [done | by intros [= <-]].
Qed.

Lemma load_rows_raises (rows : list (outcome row_dict)) :
  Forall (fun o : outcome row_dict => forall e, o = Raised e -> e = CsvError)
    rows ->
  forall (acc : list student) (e : exn),
    load_rows rows acc = Raised e -> load_failure e.
Proof.
  induction rows as [| [row | e0] rest IH]; intros Hall acc e;
    cbn [load_rows]; [done | |].
  - apply Forall_cons in Hall as [_ Hrest].
    destruct (load_row row) as [[s |] | e1] eqn:E;
      [by apply IH | by apply IH |].
    intros [= <-]. left. by apply (load_row_raises row).
  - apply Forall_cons in Hall as [H0 _]. intros [= <-]. right.
    by apply H0.
Qed.

Lemma records_raises (w : world) (e : exn) :
  records w = Raised e -> load_failure e.
Proof.
  rewrite records_unfold. apply load_rows_raises, DictReader_raises.
Qed.

Lemma raises_load (P : exn -> Prop) :
  (forall e, load_failure e -> P e) -> raises_in P load_students.
Proof.
  intros He w e w'. rewrite load_students_unfold, <- records_unfold.
  intros [= Hr _]. by apply He, (records_raises w).
Qed.

End LoadFailures.

Section CleanFailure.

Local Arguments PyStr.strip : simpl never.
Local Arguments PyStr.int : simpl never.
Local Arguments PyStr.str : simpl never.
Local Arguments PyStr.lower : simpl never.
Local Arguments String.app : simpl never.
Local Arguments next_id : simpl never.

Ltac raises_step :=
  first
    [ apply raises_ret | apply raises_print
    | apply raises_save
    | apply raises_input; reflexivity
    | apply raises_for_each; intros ?
    | apply raises_bind; [| intros ?]
    | match goal with
      | |- raises_in _ (match ?x with _ => _ end) => destruct x
      end ].

(* A handler that loads first fails on the load, or later in the way its
   continuation fails. *)
Lemma bind_load_raises {A} (P : exn -> Prop)
    (k : list student -> M A) (w : world) (e : exn) (w' : world) :
  (forall students, raises_in P (k students)) ->
  bind load_students k w = (Raised e, w') ->
  (load_failure e /\ records w = Raised e)
  \/ (P e /\ exists students, records w = Done students).
Proof.
  intros Hk. unfold bind. rewrite load_students_unfold, <- records_unfold.
  destruct (records w) as [students | e0] eqn:Hrec.
  - intros H. right. split; [by apply (Hk students _ _ _ H) | by eexists].
  - intros [= <- _]. left. split; [by apply (records_raises w) | done].
Qed.

(* show_stats fails past the load only when the mean is beyond the
   floats. *)
Lemma report_raises (subject_filter : option string)
    (students : list student) (e : exn) :
  (report subject_filter students).2 = Raised e -> e = OverflowError.
Proof.
  unfold report, stats_for.
  destruct (grades_of (filtered_students subject_filter students))
    as [| g r]; [done |].
  unfold stats_of. destruct (mean g r) as [avg |]; [| by intros [= <-]].
  cbn [average]. destruct (format_mean avg); [done | by intros [= <-]].
Qed.

Lemma add_student_success_done (w : world) (students : list student)
    (name_in subject_in grade_in : string) (rest : list string) (g : Z) :
  records w = Done students ->
  stdin w = name_in :: subject_in :: grade_in :: rest ->
  PyStr.strip name_in <> EmptyString ->
  PyStr.int (PyStr.strip grade_in) = Some g -> 0 <= g <= 100 ->
  (add_student w).1 = Done tt.
Proof.
  intros Hrec Hin Hname Hg Hrange.
  rewrite (add_student_asks _ _ _ _ _ _ Hrec Hin Hname). cbv zeta.
  rewrite Hg.
  assert ((g <? 0) || (g >? 100) = false) as -> by lia.
  reflexivity.
Qed.

Lemma delete_student_confirmed_done (w : world) (students : list student)
    (sid_in confirm_in : string) (rest : list string) (k : Z) :
  records w = Done students ->
  stdin w = sid_in :: confirm_in :: rest ->
  PyStr.int (PyStr.strip sid_in) = Some k ->
  k ∈ id <$> students ->
  PyStr.lower (PyStr.strip confirm_in) = "yes" ->
  (delete_student w).1 = Done tt.
Proof.
  intros Hrec Hin Hk Hpresent Hyes.
  destruct (find_by_id_present _ _ Hpresent) as [target Hfind].
  assert (Hne : students <> []) by (intros ->; discriminate Hfind).
  rewrite (delete_student_asks _ _ _ _ Hrec Hne Hin). cbv zeta.
  rewrite Hk, Hfind.
  cbv beta iota zeta delta
    [bind input save_students write_rows print file stdin stdout fst snd].
  rewrite Hyes. reflexivity.
Qed.

(** X17: a command that fails has written nothing.  add and delete fail
    only when the store cannot be loaded, with the error of the load
    (AttributeError for a row cut short, the reader's error for a cell
    beyond its limit), or with EOFError, when the input ends before they
    have all they ask for, and the file is then as ensure_file left it;
    list fails only when the store cannot be loaded; stats fails only
    then or, with OverflowError, when the mean of the grades is beyond
    the floats, as for the grades 10^400 and 0, where it stops after the
    count. *)
Theorem commands_fail_cleanly (w : world) (e : exn) :
  ((add_student w).1 = Raised e ->
   ((load_failure e /\ records w = Raised e)
    \/ (e = EOFError /\ exists students, records w = Done students))
   /\ file (run add_student w) = file (ensured w))
  /\ ((delete_student w).1 = Raised e ->
      ((load_failure e /\ records w = Raised e)
       \/ (e = EOFError /\ exists students, records w = Done students))
      /\ file (run delete_student w) = file (ensured w))
  /\ (forall limit,
        (list_students None limit w).1 = Raised e ->
        (load_failure e /\ records w = Raised e)
        /\ file (run (list_students None limit) w) = file (ensured w))
  /\ (forall subject_filter,
        (show_stats subject_filter w).1 = Raised e ->
        ((load_failure e /\ records w = Raised e)
         \/ (e = OverflowError
             /\ exists students,
                  records w = Done students
                  /\ (report subject_filter students).2
                     = Raised OverflowError))
        /\ file (run (show_stats subject_filter) w) = file (ensured w))
  /\ (let w0 := World (Some [FIELDNAMES;
                             ["1"; "Ann"; "Math"; PyStr.str (10 ^ 400)];
                             ["2"; "Bo"; "Math"; "0"]]) [] [] in
      show_stats None w0
      = (Raised OverflowError,
         World (file w0) []
           [Line "Statistics (all students)"; Line " - Count: 2"])).
Proof.
  split; [| split; [| split; [| split]]].
  - intros Hfail.
    destruct (add_student w) as [o w'] eqn:Hrun. cbn [fst] in Hfail. subst o.
    assert (Hkind :
      (load_failure e /\ records w = Raised e)
      \/ (e = EOFError /\ exists students, records w = Done students)).
    { revert Hrun. unfold add_student.
      apply (bind_load_raises (fun e => e = EOFError)).
      intros students. cbv zeta. repeat raises_step. }
    split; [done |].
    destruct (records w) as [students | e0] eqn:Hrec.
    + destruct (add_student_cases w students Hrec)
        as [Hkept | (name_in & subject_in & grade_in & rest & g
                     & Hin & Hname & Hg & Hrange)]; [done |].
      pose proof (add_student_success_done w students name_in subject_in
                    grade_in rest g Hrec Hin Hname Hg Hrange) as Hdone.
      by rewrite Hrun in Hdone.
    + unfold run. by rewrite (add_student_load_fails _ _ Hrec).
  - intros Hfail.
    destruct (delete_student w) as [o w'] eqn:Hrun. cbn [fst] in Hfail.
    subst o.
    assert (Hkind :
      (load_failure e /\ records w = Raised e)
      \/ (e = EOFError /\ exists students, records w = Done students)).
    { revert Hrun. unfold delete_student.
      apply (bind_load_raises (fun e => e = EOFError)).
      intros students. unfold list_students. cbv zeta.
      repeat raises_step. }
    split; [done |].
    destruct (records w) as [students | e0] eqn:Hrec.
    + destruct (delete_student_cases w students Hrec)
        as [Hkept | (sid_in & confirm_in & rest & k
                     & Hin & Hk & Hpresent & Hyes)]; [done |].
      pose proof (delete_student_confirmed_done w students sid_in confirm_in
                    rest k Hrec Hin Hk Hpresent Hyes) as Hdone.
      by rewrite Hrun in Hdone.
    + unfold run. by rewrite (delete_student_load_fails _ _ Hrec).
  - intros limit Hfail.
    destruct (records w) as [students | e0] eqn:Hrec.
    + rewrite (list_students_loaded _ _ _ Hrec) in Hfail.
      destruct (decide (students = [])) as [-> | Hne].
      * by rewrite list_students_none_given in Hfail.
      * by rewrite (list_students_given _ _ _ Hne) in Hfail.
    + unfold run. rewrite (list_students_load_fails _ _ _ Hrec) in *.
      cbn [fst snd] in *. injection Hfail as ->.
      split; [| done]. split; [by apply (records_raises w) | done].
  - intros subject_filter Hfail.
    destruct (records w) as [students | e0] eqn:Hrec.
    + destruct (decide (students = [])) as [-> | Hne].
      * by rewrite (show_stats_empty _ _ Hrec) in Hfail.
      * unfold run. rewrite (show_stats_unfold _ _ _ Hrec Hne) in *.
        cbn [fst snd file] in *. rewrite ensured_eq. split; [| done].
        right. pose proof (report_raises _ _ _ Hfail) as ->.
        split; [done |]. by exists students.
    + unfold run. rewrite (show_stats_load_fails _ _ _ Hrec) in *.
      cbn [fst snd] in *. injection Hfail as ->.
      split; [| done]. left.
      split; [by apply (records_raises w) | done].
  - by vm_compute.
Qed.

(** X17, witness: an add whose input ends after the name: EOFError, nothing
    written. *)
Lemma commands_fail_cleanly_witness :
  let w := World (Some [FIELDNAMES; ["1"; "Ann"; "Math"; "70"]])
             ["Eve"] [] in
  file (run add_student w) = file w.
Proof.
  intros w.
  destruct (commands_fail_cleanly w EOFError) as [Hadd _].
  destruct Hadd as [_ Hfile]; [by vm_compute |].
  exact Hfile.
Defined.

End CleanFailure.

(* --------------------------------------------------------------------- *)
(* The shell                                                             *)
(* --------------------------------------------------------------------- *)

Section Shell.

Local Arguments PyStr.strip : simpl never.
Local Arguments PyStr.int : simpl never.
Local Arguments PyStr.str : simpl never.
Local Arguments PyStr.lower : simpl never.
Local Arguments String.app : simpl never.
Local Arguments next_id : simpl never.

Ltac raises_step :=
  first
    [ apply raises_ret | apply raises_print
    | apply raises_save
    | apply raises_input; by left
    | apply raises_load; intros ? ?; right; by left
    | apply raises_for_each; intros ?
    | apply raises_bind; [| intros ?]
    | match goal with
      | |- raises_in _ (match ?x with _ => _ end) => destruct x
      end ].

Lemma add_student_raises : raises_in handler_failure add_student.
Proof. unfold add_student. cbv zeta. repeat raises_step. Qed.

Lemma list_students_raises (students : option (list student))
    (limit : nat) :
  raises_in handler_failure (list_students students limit).
Proof. unfold list_students. cbv zeta. repeat raises_step. Qed.

Lemma delete_student_raises : raises_in handler_failure delete_student.
Proof.
  unfold delete_student. cbv zeta.
  repeat first [apply list_students_raises | raises_step].
Qed.

Lemma show_stats_raises (subject_filter : option string) :
  raises_in handler_failure (show_stats subject_filter).
Proof.
  intros w e w' Hrun.
  destruct (records w) as [students | e0] eqn:Hrec.
  - destruct (decide (students = [])) as [-> | Hne].
    + by rewrite (show_stats_empty _ _ Hrec) in Hrun.
    + rewrite (show_stats_unfold _ _ _ Hrec Hne) in Hrun.
      injection Hrun as Hrun _. apply report_raises in Hrun as ->.
      right. by right.
  - rewrite (show_stats_load_fails _ _ _ Hrec) in Hrun.
    injection Hrun as <- _. right. left. by apply (records_raises w).
Qed.

(* One turn fails as a handler does, or leaves on quit. *)
Lemma main_turn_raises (w w' : world) (e : exn) :
  main_turn w = (Raised e, w') ->
  handler_failure e
  \/ (e = SystemExit 0 /\ last (stdout w') = Some (Line "Goodbye.")
      /\ file w' = file w).
Proof.
  unfold main_turn, bind at 1, input at 1.
  destruct (stdin w) as [| cmd_in rest]; [intros [= <- _]; left; by left |].
  cbv zeta. destruct (PyStr.is_empty _); [done |].
  destruct (bool_decide _); [intros H; left; by apply add_student_raises in H |].
  destruct (bool_decide _);
    [intros H; left; by apply delete_student_raises in H |].
  destruct (bool_decide _);
    [intros H; left; by apply list_students_raises in H |].
  destruct (bool_decide _).
  { intros H; left. revert H. apply raises_bind; [apply raises_input; by left |].
    intros subj_in. apply show_stats_raises. }
  destruct (bool_decide _); [| done].
  cbv beta iota zeta delta [bind print raise file stdin stdout].
  intros [= <- <-]. right. cbn [stdout file]. split; [done |].
  split; [by rewrite last_app | done].
Qed.

(** X18: the loop of main() is left in four ways only: on quit, q or exit,
    with exit status 0 and Goodbye as the last line printed; when the
    input ends (EOFError); when the store cannot be loaded (AttributeError
    for a row cut short, the reader's error for a cell beyond its limit);
    or when stats meets a mean beyond the floats (OverflowError).  No
    other command and no rejected input ends it. *)
Theorem shell_ends_only_on_quit (fuel : nat) (w w' : world) (e : exn) :
  main_loop fuel w = (Raised e, w') ->
  e = EOFError \/ e = AttributeError \/ e = CsvError \/ e = OverflowError
  \/ (e = SystemExit 0 /\ last (stdout w') = Some (Line "Goodbye.")).
Proof.
  revert w. induction fuel as [| k IH]; intros w; cbn [main_loop]; [done |].
  unfold bind. destruct (main_turn w) as [[[] | e1] w1] eqn:Hturn.
  - apply IH.
  - intros [= <- <-].
    destruct (main_turn_raises _ _ _ Hturn)
      as [[-> | [[-> | ->] | ->]] | (-> & Hl & _)]; auto 6.
Qed.

(** X18, witness: a list on a fresh store, then quit. *)
Lemma shell_ends_only_on_quit_witness :
  exists w',
    main_loop 5 (World None ["list"; " Quit "; "add"] [])
    = (Raised (SystemExit 0), w')
    /\ last (stdout w') = Some (Line "Goodbye.").
Proof.
  eexists. split; [by vm_compute |].
  destruct (shell_ends_only_on_quit 5
              (World None ["list"; " Quit "; "add"] []) _ (SystemExit 0)
              ltac:(by vm_compute)) as [H | [H | [H | [H | [_ H]]]]];
    [discriminate H | discriminate H | discriminate H | discriminate H
    | exact H].
Defined.

End Shell.

(* --------------------------------------------------------------------- *)
(* Order of the records and layout of the table                          *)
(* --------------------------------------------------------------------- *)

Section Layout.

Lemma filter_perm (p : student -> bool) (l1 l2 : list student) :
  l1 ≡ₚ l2 -> List.filter p l1 ≡ₚ List.filter p l2.
Proof.
  induction 1 as [| x l l' _ IH | x y l | l l' l'' _ IH1 _ IH2];
    cbn [List.filter].
  - done.
  - destruct (p x); [by apply perm_skip | done].
  - destruct (p x), (p y); try done. apply perm_swap.
  - by etransitivity.
Qed.

Lemma sum_perm (l1 l2 : list Z) :
  l1 ≡ₚ l2 -> foldr Z.add 0 l1 = foldr Z.add 0 l2.
Proof.
  induction 1 as [| x l l' _ IH | x y l | l l' l'' _ IH1 _ IH2];
    cbn [foldr]; lia.
Qed.

Lemma stats_of_perm (g1 g2 : list Z) :
  g1 ≡ₚ g2 -> stats_of g1 = stats_of g2.
Proof.
  intros Hp. destruct g1 as [| a r], g2 as [| b t].
  - done.
  - by apply Permutation_nil_l in Hp.
  - by apply Permutation_nil_r in Hp.
  - assert (Hin : forall y, y ∈ a :: r <-> y ∈ b :: t)
      by (intros y; by rewrite Hp).
    assert (Hlen : length r = length t)
      by (apply Permutation_length in Hp; cbn in Hp; lia).
    destruct (py_max_spec r a) as (Hmax_in & Hmax_g & Hmax_r).
    destruct (py_max_spec t b) as (Hmax_in' & Hmax_g' & Hmax_r').
    destruct (py_min_spec r a) as (Hmin_in & Hmin_g & Hmin_r).
    destruct (py_min_spec t b) as (Hmin_in' & Hmin_g' & Hmin_r').
    assert (Hup : forall (x : Z) (s : list Z) (m : Z),
               (m = x \/ m ∈ s) -> m ∈ x :: s).
    { intros x s m [-> | ?]; [left | by right]. }
    assert (Hle : forall (x : Z) (s : list Z) (m : Z),
               x <= m -> (forall y, y ∈ s -> y <= m) ->
               forall y, y ∈ x :: s -> y <= m).
    { intros x s m Hx Hs y [-> | ?]%elem_of_cons; [done | by apply Hs]. }
    assert (Hge : forall (x : Z) (s : list Z) (m : Z),
               m <= x -> (forall y, y ∈ s -> m <= y) ->
               forall y, y ∈ x :: s -> m <= y).
    { intros x s m Hx Hs y [-> | ?]%elem_of_cons; [done | by apply Hs]. }
    assert (Hmean : mean a r = mean b t).
    { unfold mean. rewrite Hlen, !fold_left_add_foldr.
      pose proof (sum_perm _ _ Hp) as Hs. cbn [foldr] in Hs.
      by rewrite Hs. }
    assert (Hmax : py_max a r = py_max b t).
    { apply Z.le_antisymm.
      * apply (Hle b t); [done | done |]. apply Hin. by apply Hup.
      * apply (Hle a r); [done | done |]. apply Hin. by apply Hup. }
    assert (Hmin : py_min a r = py_min b t).
    { apply Z.le_antisymm.
      * apply (Hge a r); [done | done |]. apply Hin. by apply Hup.
      * apply (Hge b t); [done | done |]. apply Hin. by apply Hup. }
    unfold stats_of. cbn [length]. by rewrite Hmean, Hmax, Hmin, Hlen.
Qed.

(** X16: the statistics do not depend on the order of the records: two record
    lists that are rearrangements of each other get the same count, mean,
    highest and lowest under every filter. *)
Theorem stats_order_independent (subject_filter : option string)
    (l1 l2 : list student) :
  l1 ≡ₚ l2 ->
  stats_for subject_filter l1 = stats_for subject_filter l2.
Proof.
  intros Hp. unfold stats_for. apply stats_of_perm.
  unfold grades_of. apply omap_Permutation. unfold filtered_students.
  destruct subject_filter as [f |]; [destruct (PyStr.is_empty f) |];
    by apply filter_perm.
Qed.

(** X16, witness: two records in either order. *)
Lemma stats_order_independent_witness :
  stats_for (Some "art")
    [Student 2 "Bo" "Art" (Some 81); Student 1 "Ann" "ART" (Some 70)]
  = stats_for (Some "art")
      [Student 1 "Ann" "ART" (Some 70); Student 2 "Bo" "Art" (Some 81)].
Proof.
  apply stats_order_independent. apply perm_swap.
Defined.

Lemma length_append (a b : string) :
  String.length (a +:+ b) = (String.length a + String.length b)%nat.
Proof. induction a as [| c a IH]; [done |]. simpl. by rewrite IH. Qed.

Lemma length_spaces (n : nat) : String.length (PyStr.spaces n) = n.
Proof. induction n as [| n IH]; [done |]. cbn. by rewrite IH. Qed.

Lemma length_ljust (w : nat) (s : string) :
  String.length (PyStr.ljust w s) = Nat.max w (String.length s).
Proof. unfold PyStr.ljust. rewrite length_append, length_spaces. lia. Qed.

Lemma length_rjust (w : nat) (s : string) :
  String.length (PyStr.rjust w s) = Nat.max w (String.length s).
Proof. unfold PyStr.rjust. rewrite length_append, length_spaces. lia. Qed.

Lemma length_take (n : nat) (s : string) :
  String.length (PyStr.take n s) = Nat.min n (String.length s).
Proof.
  revert s. induction n as [| n IH]; intros [| c s]; cbn; try done.
  by rewrite IH.
Qed.

(** X19: the table has fixed columns: the name always takes 20 characters and
    the subject 15, longer ones being cut, so a row is as wide as the
    header (48 characters) as long as the id has at most 4 characters and
    the grade at most 6; a longer id or grade widens its row by the
    excess. *)
Theorem table_row_width (s : student) :
  String.length (table_row s)
  = (Nat.max 4 (String.length (PyStr.str (id s)))
     + Nat.max 6 (String.length (grade_str s)) + 38)%nat
  /\ String.length table_header = 48%nat
  /\ ((String.length (PyStr.str (id s)) <= 4)%nat ->
      (String.length (grade_str s) <= 6)%nat ->
      String.length (table_row s) = String.length table_header).
Proof.
  assert (Hrow : String.length (table_row s)
            = (Nat.max 4 (String.length (PyStr.str (id s)))
               + Nat.max 6 (String.length (grade_str s)) + 38)%nat).
  { unfold table_row.
    rewrite !length_append, !length_ljust, length_rjust, !length_take.
    cbn [String.length]. lia. }
  split; [done |]. split; [reflexivity |].
  intros Hid Hgrade. rewrite Hrow.
  change (String.length table_header) with 48%nat. lia.
Qed.

(** X19, witness: a name of 27 characters, cut to the 20 of its column. *)
Lemma table_row_width_witness :
  String.length
    (table_row (Student 12 "Maximiliana Featherstone Jr" "Math" (Some 70)))
  = 48%nat.
Proof.
  destruct (table_row_width
              (Student 12 "Maximiliana Featherstone Jr" "Math" (Some 70)))
    as (_ & _ & Hw).
  rewrite Hw; [reflexivity | vm_compute; lia | vm_compute; lia].
Defined.

End Layout.
